(** * EPUBKit: package-document parser and resource resolver

    A shallow embedding of [src/lib/opf.ts] (the package-document parser and
    [PackageDocument.getResource]), [src/lib/resource.ts] (the three resource
    classes and their construction) and the container lookups of
    [src/lib/ocf.ts], together with the properties the specification states
    about them.

    Conventions.
    - A JavaScript string is a [string]; every character stands for one
      UTF-16 code unit below 256.
    - [null] and [undefined] results of DOM accessors are [None].
    - A [throw] is [Throw e], with one constructor of [Error] per throw site.
    - Plain objects used as dictionaries ([items_by_id], [#cached_resources],
      [dirtree]) are [gmap string _].  [items_by_id] is indexed with
      attribute values of the package document, and a read of it goes
      through [items_by_id_get], which follows the prototype chain of an
      object literal; the keys of the other two are paths, and for them
      keys that name members of [Object.prototype] are outside the model.
    - The host platform (URL parsing, DOMParser, XMLSerializer, TextDecoder,
      [URL.createObjectURL]) is the class [Host]. *)

From Stdlib Require Import String Ascii List Bool Arith Lia DecimalString.
From stdpp Require Import base option gmap strings.
Import ListNotations.
Local Open Scope string_scope.

(* ===================================================================== *)
(** * JavaScript strings *)
(* ===================================================================== *)

Module Js.

(** [if (s)] on a string: the empty string is falsy. *)
Definition truthy (s : string) : bool :=
  match s with EmptyString => false | String _ _ => true end.

(** [x || undefined] and [if (x)] on a nullable string. *)
Definition nonempty (o : option string) : option string :=
  match o with
  | Some s => if truthy s then Some s else None
  | None => None
  end.

(** [Array.prototype.includes] on an array of strings. *)
Definition includes (l : list string) (s : string) : bool :=
  existsb (String.eqb s) l.

(** WhiteSpace and LineTerminator code units below 256: TAB, LF, VT, FF, CR,
    SP and NBSP.  This is the class [\s] of regular expressions and the set
    [String.prototype.trim] strips. *)
Definition is_space (c : ascii) : bool :=
  let n := nat_of_ascii c in
  (Nat.leb 9 n && Nat.leb n 13) || Nat.eqb n 32 || Nat.eqb n 160.

(** The class [.] without the [s] flag: anything but a line terminator. *)
Definition is_dot (c : ascii) : bool :=
  let n := nat_of_ascii c in
  negb (Nat.eqb n 10 || Nat.eqb n 13).

Fixpoint trimStart (s : string) : string :=
  match s with
  | String c s' => if is_space c then trimStart s' else s
  | EmptyString => EmptyString
  end.

Fixpoint rev_acc (s acc : string) : string :=
  match s with
  | String c s' => rev_acc s' (String c acc)
  | EmptyString => acc
  end.

Definition rev (s : string) : string := rev_acc s EmptyString.

Definition trim (s : string) : string := rev (trimStart (rev (trimStart s))).

(** [String.prototype.toLowerCase] on code units below 256: A-Z and the
    Latin-1 capitals U+00C0-U+00DE except the multiplication sign. *)
Definition lower_char (c : ascii) : ascii :=
  let n := nat_of_ascii c in
  if (Nat.leb 65 n && Nat.leb n 90)
     || (Nat.leb 192 n && Nat.leb n 222 && negb (Nat.eqb n 215))
  then ascii_of_nat (n + 32) else c.

Fixpoint toLowerCase (s : string) : string :=
  match s with
  | String c s' => String (lower_char c) (toLowerCase s')
  | EmptyString => EmptyString
  end.

(** [s.startsWith(p)]. *)
Fixpoint startsWith (p s : string) : bool :=
  match p, s with
  | EmptyString, _ => true
  | String a p', String b s' => Ascii.eqb a b && startsWith p' s'
  | String _ _, EmptyString => false
  end.

(** The rest of [s] after the prefix [p], when [s] starts with [p]. *)
Fixpoint strip_prefix (p s : string) : option string :=
  match p, s with
  | EmptyString, _ => Some s
  | String a p', String b s' =>
      if Ascii.eqb a b then strip_prefix p' s' else None
  | String _ _, EmptyString => None
  end.

(** [s.split(' ')]: never empty, the empty string splits into one empty string. *)
Fixpoint split_acc (sep : ascii) (s cur : string) : list string :=
  match s with
  | EmptyString => [rev cur]
  | String c s' =>
      if Ascii.eqb c sep then rev cur :: split_acc sep s' EmptyString
      else split_acc sep s' (String c cur)
  end.

Definition split_space (s : string) : list string :=
  split_acc " "%char s EmptyString.

(** [s.indexOf(pat)] as a split of [s] around the first occurrence. *)
Fixpoint find_first (pat s : string) (before : string)
  : option (string * string) :=
  match strip_prefix pat s with
  | Some rest => Some (rev before, rest)
  | None =>
      match s with
      | String c s' => find_first pat s' (String c before)
      | EmptyString => None
      end
  end.

(** GetSubstitution for a string pattern (no captures): [$$], [$&], [$`]
    and [$'] expand, every other character is copied. *)
Fixpoint getSubstitution (template matched before after : string) : string :=
  match template with
  | EmptyString => EmptyString
  | String c t =>
      if Ascii.eqb c "$"%char then
        match t with
        | String d t' =>
            if Ascii.eqb d "$"%char then
              String "$"%char (getSubstitution t' matched before after)
            else if Ascii.eqb d "&"%char then
              matched ++ getSubstitution t' matched before after
            else if Ascii.eqb d "`"%char then
              before ++ getSubstitution t' matched before after
            else if Ascii.eqb d "'"%char then
              after ++ getSubstitution t' matched before after
            else String c (getSubstitution t matched before after)
        | EmptyString => String c EmptyString
        end
      else String c (getSubstitution t matched before after)
  end.

(** [s.replace(pat, repl)] with a string pattern: the first occurrence
    only; [s] itself when [pat] does not occur. *)
Definition replace (s pat repl : string) : string :=
  match find_first pat s EmptyString with
  | Some (before, after) =>
      before ++ getSubstitution repl pat before after ++ after
  | None => s
  end.

(** Every code unit of [s] satisfies [p]. *)
Fixpoint all (p : ascii -> bool) (s : string) : bool :=
  match s with
  | EmptyString => true
  | String c s' => p c && all p s'
  end.

(** The double-quote character. *)
Definition dquote : ascii := ascii_of_nat 34.

(** The properties of [Object.prototype], which every object literal
    inherits (ECMAScript, Properties of the Object Prototype Object and
    its additions for web browsers); all of them are functions, but
    [__proto__], an accessor that gives the prototype of the object. *)
Definition object_prototype_keys : list string :=
  [ "constructor"; "hasOwnProperty"; "isPrototypeOf";
    "propertyIsEnumerable"; "toLocaleString"; "toString"; "valueOf";
    "__proto__"; "__defineGetter__"; "__defineSetter__";
    "__lookupGetter__"; "__lookupSetter__" ].

End Js.

(* ===================================================================== *)
(** * Errors and results *)
(* ===================================================================== *)

(** One constructor per [throw] of the three source files, and [TypeError]
    and [SyntaxError] for the host's own exceptions ([new URL] on an
    unparsable address, [querySelector] on a malformed selector). *)
Inductive Error :=
  | InvalidPackageDocument
  | MissingUniqueIdentifier
  | MissingPrimaryIdentifier
  | PrimaryIdentifierNotDcIdentifier
  | MissingVersion
  | MissingMetadataElement
  | MissingManifestElement
  | MissingSpineElement
  | MissingDcIdentifier
  | MissingDcTitle
  | MissingDcLanguage
  | ItemMissingHref
  | ItemMissingMediaType
  | ItemMissingId
  | OriginMismatch
  | InvalidTocAttribute
  | MissingItemrefs
  | ItemrefMissingIdref
  | ItemrefNoMatchingItem (idref : string)
  | ItemrefNoContentDocument (idref : string)
  | MissingLinearItemref
  | ResourceNotFound (url : string)
  | MissingEntry
  | UnexpectedDirectoryEntry
  | MissingGetData
  | TypeError
  | SyntaxError.

(** The result of running a piece of code: a value; an exception; a loop or
    a chain of awaits that has not finished within the steps it was given;
    or an [await] on a promise that nothing will ever settle. *)
Inductive Res (A : Type) :=
  | Ok (a : A)
  | Throw (e : Error)
  | OutOfFuel
  | Hang.
Arguments Ok {A} a.
Arguments Throw {A} e.
Arguments OutOfFuel {A}.
Arguments Hang {A}.

Definition Res_bind {A B} (r : Res A) (k : A -> Res B) : Res B :=
  match r with
  | Ok a => k a
  | Throw e => Throw e
  | OutOfFuel => OutOfFuel
  | Hang => Hang
  end.

Notation "'let*' x ':=' r 'in' k" := (Res_bind r (fun x => k))
  (at level 10, x name, r at level 100, k at level 200).
Notation "'let*' ' pat ':=' r 'in' k" :=
  (Res_bind r (fun x => let 'pat := x in k))
  (at level 10, pat pattern, r at level 100, k at level 200).

(** [if (!x) throw e] on a nullable string. *)
Definition require (o : option string) (e : Error) : Res string :=
  match Js.nonempty o with
  | Some s => Ok s
  | None => Throw e
  end.

(** [if (!x) throw e] on a nullable object. *)
Definition require_some {A} (o : option A) (e : Error) : Res A :=
  match o with
  | Some a => Ok a
  | None => Throw e
  end.

(* ===================================================================== *)
(** * The document object model *)
(* ===================================================================== *)

(** A parsed XML tree: elements with their qualified name, attributes in
    source order and child nodes; text nodes. *)
#[warnings="-register-all"]
Inductive Node :=
  | Elem (name : string) (attributes : list (string * string))
         (childNodes : list Node)
  | Text (data : string).

Module Dom.

Definition tagName (n : Node) : string :=
  match n with Elem t _ _ => t | Text _ => EmptyString end.

Definition attributes (n : Node) : list (string * string) :=
  match n with Elem _ a _ => a | Text _ => [] end.

Definition is_element (n : Node) : bool :=
  match n with Elem _ _ _ => true | Text _ => false end.

(** The part of a qualified name after its prefix. *)
Fixpoint after_colon (s : string) : option string :=
  match s with
  | EmptyString => None
  | String c s' => if Ascii.eqb c ":"%char then Some s' else after_colon s'
  end.

Definition localName (n : Node) : string :=
  match after_colon (tagName n) with
  | Some l => l
  | None => tagName n
  end.

Fixpoint assoc (k : string) (l : list (string * string)) : option string :=
  match l with
  | [] => None
  | (k', v) :: l' => if String.eqb k k' then Some v else assoc k l'
  end.

(** [element.getAttribute(name)]: [None] is [null]. *)
Definition getAttribute (n : Node) (name : string) : option string :=
  assoc name (attributes n).

Fixpoint set_assoc (k v : string) (l : list (string * string))
  : list (string * string) :=
  match l with
  | [] => [(k, v)]
  | (k', v') :: l' =>
      if String.eqb k k' then (k', v) :: l' else (k', v') :: set_assoc k v l'
  end.

(** [element.setAttribute(name, value)]. *)
Definition setAttribute (n : Node) (name value : string) : Node :=
  match n with
  | Elem t a c => Elem t (set_assoc name value a) c
  | Text d => Text d
  end.

(** [node.textContent]: the text of all descendant text nodes. *)
Fixpoint textContent (n : Node) : string :=
  match n with
  | Text d => d
  | Elem _ _ cs => String.concat EmptyString (map textContent cs)
  end.

(** The descendant elements of a node, in document order. *)
Fixpoint descendants (n : Node) : list Node :=
  match n with
  | Text _ => []
  | Elem _ _ cs =>
      flat_map (fun c => if is_element c then c :: descendants c else []) cs
  end.

(** The same with the parent element of each. *)
Fixpoint descendants_with_parent (n : Node) : list (Node * Node) :=
  match n with
  | Text _ => []
  | Elem _ _ cs =>
      flat_map (fun c =>
                  if is_element c then (n, c) :: descendants_with_parent c
                  else []) cs
  end.

(** [element.getElementsByTagName(qname)] in an XML document: descendants
    whose qualified name is [qname]. *)
Definition getElementsByTagName (n : Node) (qname : string) : list Node :=
  filter (fun e => String.eqb (tagName e) qname) (descendants n).

(** [element.querySelector("local")]: the first descendant whose local name
    is [local]. *)
Definition querySelector_type (n : Node) (local : string) : option Node :=
  head (filter (fun e => String.eqb (localName e) local) (descendants n)).

(** [element.querySelector('local[attr="value"]')]. *)
Definition querySelector_type_attr (n : Node) (local attr value : string)
  : option Node :=
  head (filter (fun e => String.eqb (localName e) local
                         && bool_decide (getAttribute e attr = Some value))
               (descendants n)).

(** [element.querySelector('parent > [attr="value"]')]. *)
Definition querySelector_child_attr (n : Node) (parent attr value : string)
  : option Node :=
  snd <$> head (filter (fun pe => String.eqb (localName (fst pe)) parent
                         && bool_decide (getAttribute (snd pe) attr = Some value))
                       (descendants_with_parent n)).

End Dom.

(* ===================================================================== *)
(** * The host platform *)
(* ===================================================================== *)

(** A parsed URL, with the three accessors the sources read. *)
Module Url.
Record t := { href : string; origin : string; pathname : string }.
End Url.

(** What the sources take from the browser.

    - [URL_new url base] is [new URL(url, base)], [None] when it throws;
      [new URL(url)] is [URL_new url None].
    - [querySelector] evaluates a selector given as text, [None] when it
      throws; the parser uses it only for the selector it assembles from the
      [unique-identifier] value when that value cannot be spliced into a
      quoted CSS string unchanged.
    - [decode] is [new TextDecoder().decode], [parseFromString] is
      [DOMParser.parseFromString(_, 'application/xhtml+xml')] and
      [serializeToString] is [XMLSerializer.serializeToString].
    - [objectURL n] is the address the [n]-th call of [URL.createObjectURL]
      returns. *)
Class Host := {
  URL_new : string -> option string -> option Url.t;
  querySelector : Node -> string -> option (option Node);
  decode : string -> string;
  parseFromString : string -> Node;
  serializeToString : Node -> string;
  objectURL : nat -> string
}.

(* ===================================================================== *)
(** * The container ([ocf.ts]) *)
(* ===================================================================== *)

Module Entry.
(** A zip entry: [getData] is absent on some entries; when present it
    yields the bytes of the entry. *)
Record t := { directory : bool; getData : option string }.
End Entry.

Module OCFZip.

Record t := { dirtree : gmap string Entry.t }.

(** [OCFZip.getUint8Array(path)]: the exception it throws, or the bytes
    the promise of [getData] delivers. *)
Definition getUint8Array (ocf : t) (path : string) : Error + string :=
  match dirtree ocf !! path with
  | None => inl MissingEntry
  | Some entry =>
      if Entry.directory entry then inl UnexpectedDirectoryEntry
      else match Entry.getData entry with
           | None => inl MissingGetData
           | Some bytes => inr bytes
           end
  end.

End OCFZip.

(* ===================================================================== *)
(** * The package document ([opf.ts]): data *)
(* ===================================================================== *)

Definition VALID_TEXT_DIRS : list string := ["ltr"; "rtl"; "auto"].
Definition DEFAULT_TEXT_DIR : string := "auto".

Module TextRun.
Record t := { text : string; dir : string; lang : option string }.

(** [TextRun.fromElement(element, default_lang)]. *)
Definition fromElement (element : Node) (default_lang : option string) : t :=
  let sanitizedDir :=
    match Js.nonempty (Dom.getAttribute element "dir") with
    | Some d => if Js.includes VALID_TEXT_DIRS d then d else DEFAULT_TEXT_DIR
    | None => DEFAULT_TEXT_DIR
    end in
  let l :=
    match Js.nonempty (Dom.getAttribute element "xml:lang") with
    | Some l => Some l
    | None => default_lang
    end in
  {| text := Dom.textContent element; dir := sanitizedDir;
     lang := Js.nonempty l |}.
End TextRun.

Module PackageMetadata.
Record t := {
  element : Node;
  identifiers : list string;
  titles : list TextRun.t;
  languages : list string;
  (** the text handed to [new Date] *)
  modified : option string;
  contributors : option (list TextRun.t);
  coverages : option (list TextRun.t);
  creators : option (list TextRun.t);
  dates : option (list string);
  descriptions : option (list TextRun.t);
  formats : option (list string);
  publishers : option (list TextRun.t);
  relations : option (list TextRun.t);
  rights : option (list TextRun.t);
  sources : option (list string);
  subjects : option (list TextRun.t);
  types : option (list string)
}.
End PackageMetadata.

Module PackageItem.
(** [content_path] is the [resolved_path.pathname] the two content
    accessors of the item close over. *)
Record t := {
  fallback : option string;
  href : string;
  mime : string;
  overlay : option string;
  properties : list string;
  content_path : string
}.
End PackageItem.

Module PackageManifest.
(** [items_by_id] holds what the assignments [items_by_id[id] = packageItem]
    have left in the object literal: under every key but [__proto__] the
    property they created, under [__proto__] the item the assignment made
    the prototype of the object (the setter of [Object.prototype] runs, and
    no property is created). *)
Record t := {
  items : list PackageItem.t;
  items_by_id : gmap string PackageItem.t
}.
End PackageManifest.

Module ItemRef.
Record t := {
  idref : string;
  item : PackageItem.t;
  linear : bool;
  properties : list string
}.
End ItemRef.

Definition VALID_PAGE_PROGRESSION_DIRS : list string :=
  ["ltr"; "rtl"; "default"].
Definition DEFAULT_PAGE_PROGRESSION_DIR : string := "default".

Module PackageSpine.
Record t := {
  id : option string;
  page_progression : string;
  itemrefs : list ItemRef.t
}.
End PackageSpine.

Definition RENDITION_LAYOUT_VALUES : list string :=
  ["pre-paginated"; "reflowable"].
Definition RENDITION_ORIENTATION_VALUES : list string :=
  ["auto"; "landscape"; "portrait"].
Definition RENDITION_SPREAD_VALUES : list string :=
  ["none"; "landscape"; "portrait"; "both"; "auto"].
Definition RENDITION_PAGE_SPREAD_VALUES : list string :=
  ["center"; "left"; "right"].
Definition RENDITION_FLOW_VALUES : list string :=
  ["auto"; "paginated"; "scrolled-continuous"; "scrolled-doc"].

Module PackageRendition.
Record t := {
  layout : string;
  orientation : string;
  spread : string;
  page_spread : string;
  flow : string;
  align_x_center : bool
}.
End PackageRendition.

Module PackageDocument.
Record t := {
  base_url : string;
  dir : string;
  id : option string;
  prefix : option string;
  lang : option string;
  uid : string;
  primary_identifier : string;
  version : string;
  nav_item : option string;
  cover_item : option string;
  toc_item : option string;
  rendition : PackageRendition.t;
  metadata : PackageMetadata.t;
  manifest : PackageManifest.t;
  spine : PackageSpine.t;
  document : Node;
  ocf : OCFZip.t;
  package_url : Url.t
}.
End PackageDocument.

(* ===================================================================== *)
(** * The package document ([opf.ts]): parsing *)
(* ===================================================================== *)

(** [for (const x of xs) body], the body threading the loop's variables. *)
Fixpoint for_each {A S : Type} (body : S -> A -> Res S) (xs : list A) (s : S)
  : Res S :=
  match xs with
  | [] => Ok s
  | x :: xs' => let* s' := body s x in for_each body xs' s'
  end.

(** The MIME types the spine accepts as a content document. *)
Definition CONTENT_DOCUMENT_MIMES : list string :=
  [ "application/xhtml+xml"; "application/svg+xml"; "image/svg+xml";
    "application/svg"; "image/svg"; "application/xhtml"; "text/html" ].

(** [item[key]] as a condition, for the keys the object literal of
    [#processManifest] gives an item ([href], [mime], [properties],
    [fallback], [overlay] and the two content accessors); [None] for a key
    the item does not have. *)
Definition item_member (item : PackageItem.t) (key : string) : option bool :=
  let truthy (o : option string) :=
    match Js.nonempty o with Some _ => true | None => false end in
  if String.eqb key "href" then Some (Js.truthy (PackageItem.href item))
  else if String.eqb key "mime" then Some (Js.truthy (PackageItem.mime item))
  else if String.eqb key "properties" then Some true
  else if String.eqb key "fallback"
  then Some (truthy (PackageItem.fallback item))
  else if String.eqb key "overlay"
  then Some (truthy (PackageItem.overlay item))
  else if String.eqb key "getContentBlob" then Some true
  else if String.eqb key "getContentBuffer" then Some true
  else None.

(** What a read of [items_by_id[key]] gives: an item of the manifest
    ([AnItem]); a value that passes [if (x)] and is no item of the
    manifest, that is a function, an array, a non-empty string or
    [Object.prototype], whose [mime] and [fallback] are [undefined]
    ([NoItem]); or [undefined] or the empty string ([Falsy]). *)
Inductive Member :=
  | AnItem (item : PackageItem.t)
  | NoItem
  | Falsy.

(** [items_by_id[key]] on the object literal [#processManifest] has
    filled: the property of the object when it has one under [key]
    (under [__proto__]: its prototype, when an item has become that);
    else what the prototype chain has under [key], first the item that
    has become the prototype, then [Object.prototype]. *)
Definition items_by_id_get (items_by_id : gmap string PackageItem.t)
    (key : string) : Member :=
  match items_by_id !! key with
  | Some item => AnItem item
  | None =>
      let inherited :=
        match items_by_id !! "__proto__"
              ≫= (fun proto => item_member proto key)
        with
        | Some b => b
        | None => Js.includes Js.object_prototype_keys key
        end in
      if inherited then NoItem else Falsy
  end.

(** The loop over the fallback chain in [#processSpine]: [Some true] when it
    leaves through the first [break] ([is_valid = true]), [Some false] when
    it leaves with [is_valid] still false, [None] when the loop has not left
    after [fuel] tests of its condition.  [current_item] is [None] for every
    value that is no item of the manifest: [undefined] fails the test of
    the loop, and any other such value passes it, has no [mime] of the list
    and no [fallback], and leaves through the second [break]; either way
    the loop has left at that test with [is_valid] still false. *)
Fixpoint fallback_walk (fuel : nat) (items_by_id : gmap string PackageItem.t)
    (current_item : option PackageItem.t) : option bool :=
  match fuel with
  | O => None
  | S fuel' =>
      match current_item with
      | None => Some false
      | Some it =>
          if Js.includes CONTENT_DOCUMENT_MIMES (PackageItem.mime it)
          then Some true
          else match Js.nonempty (PackageItem.fallback it) with
               | Some f => fallback_walk fuel' items_by_id (items_by_id !! f)
               | None => Some false
               end
      end
  end.

Section Parser.
Context `{host : Host}.

(** A value that stands for itself between the quotes of a CSS string. *)
Definition css_plain (s : string) : bool :=
  Js.all (fun c => let n := nat_of_ascii c in
                   negb (Nat.eqb n 34 || Nat.eqb n 92 || Nat.eqb n 10
                         || Nat.eqb n 13 || Nat.eqb n 12 || Nat.eqb n 0)) s.

(** [documentElement.querySelector(`metadata > [id="${uid}"]`)]. *)
Definition select_primary_identifier (root : Node) (uid : string)
  : Res (option Node) :=
  if css_plain uid
  then Ok (Dom.querySelector_child_attr root "metadata" "id" uid)
  else require_some
         (querySelector root
            ("metadata > [id=" ++ String Js.dquote uid
               ++ String Js.dquote "]"))
         SyntaxError.

(** The loops of [#processMetadata] over an optional Dublin Core element
    that becomes a list of text runs: the field stays [undefined] until the
    first push. *)
Definition collect_runs (els : list Node) (lang : option string)
  : option (list TextRun.t) :=
  fold_left (fun acc el =>
               if Js.truthy (Js.trim (Dom.textContent el))
               then Some (default [] acc ++ [TextRun.fromElement el lang])%list
               else acc) els None.

(** The same for the elements kept as trimmed strings. *)
Definition collect_texts (els : list Node) : option (list string) :=
  fold_left (fun acc el =>
               let text := Js.trim (Dom.textContent el) in
               if Js.truthy text then Some (default [] acc ++ [text])%list
               else acc) els None.

(** The trimmed, non-empty texts of [els], in order. *)
Definition trimmed_texts (els : list Node) : list string :=
  filter (fun t => Js.truthy t)
         (map (fun el => Js.trim (Dom.textContent el)) els).

(** [#processMetadata(metadata)]; [this_lang] is [this.lang] on entry, the
    second component of the result is [this.lang] on return. *)
Definition processMetadata (this_lang : option string) (metadata : Node)
  : Res (PackageMetadata.t * option string) :=
  let identifiers := Dom.getElementsByTagName metadata "dc:identifier" in
  let titles := Dom.getElementsByTagName metadata "dc:title" in
  let languages := Dom.getElementsByTagName metadata "dc:language" in
  match identifiers, titles, languages with
  | [], _, _ => Throw MissingDcIdentifier
  | _, [], _ => Throw MissingDcTitle
  | _, _, [] => Throw MissingDcLanguage
  | _, _, _ =>
      let modified :=
        match Dom.querySelector_type_attr metadata "meta" "property"
                "dcterms:modified" with
        | Some m => if Js.truthy (Dom.textContent m)
                    then Some (Js.trim (Dom.textContent m)) else None
        | None => None
        end in
      let ids := trimmed_texts identifiers in
      let langs := trimmed_texts languages in
      let lang :=
        match langs, this_lang with
        | l :: _, None => Some l
        | _, _ => this_lang
        end in
      let by_tag tag := Dom.getElementsByTagName metadata tag in
      Ok ({| PackageMetadata.element := metadata;
             PackageMetadata.identifiers := ids;
             PackageMetadata.titles :=
               default [] (collect_runs titles lang);
             PackageMetadata.languages := langs;
             PackageMetadata.modified := modified;
             PackageMetadata.contributors :=
               collect_runs (by_tag "dc:contributor") lang;
             PackageMetadata.coverages :=
               collect_runs (by_tag "dc:coverage") lang;
             PackageMetadata.creators :=
               collect_runs (by_tag "dc:creator") lang;
             PackageMetadata.dates := collect_texts (by_tag "dc:date");
             PackageMetadata.descriptions :=
               collect_runs (by_tag "dc:description") lang;
             PackageMetadata.formats := collect_texts (by_tag "dc:format");
             PackageMetadata.publishers :=
               collect_runs (by_tag "dc:publisher") lang;
             PackageMetadata.relations :=
               collect_runs (by_tag "dc:relation") lang;
             PackageMetadata.rights :=
               collect_runs (by_tag "dc:rights") lang;
             PackageMetadata.sources := collect_texts (by_tag "dc:source");
             PackageMetadata.subjects :=
               collect_runs (by_tag "dc:subject") lang;
             PackageMetadata.types := collect_texts (by_tag "dc:type") |},
          lang)
  end.

(** One [meta] override of [#processRendition]: the text of the first
    [meta] element with the property, trimmed, when it is non-empty and
    among [values]; the current value otherwise. *)
Definition rendition_override (metadata : Node) (property : string)
    (values : list string) (current : string) : string :=
  match Dom.querySelector_type_attr metadata "meta" "property" property with
  | Some m =>
      let val := Js.trim (Dom.textContent m) in
      if Js.truthy val && Js.includes values val then val else current
  | None => current
  end.

(** [#processRendition(metadata)]. *)
Definition processRendition (metadata : Node) : PackageRendition.t :=
  {| PackageRendition.layout :=
       rendition_override metadata "rendition:layout"
         RENDITION_LAYOUT_VALUES "reflowable";
     PackageRendition.orientation :=
       rendition_override metadata "rendition:orientation"
         RENDITION_ORIENTATION_VALUES "auto";
     PackageRendition.spread :=
       rendition_override metadata "rendition:spread"
         RENDITION_SPREAD_VALUES "auto";
     PackageRendition.page_spread := "center";
     PackageRendition.flow :=
       rendition_override metadata "rendition:flow"
         RENDITION_FLOW_VALUES "auto";
     PackageRendition.align_x_center := false |}.

(** The variables the loop of [#processManifest] updates: the manifest
    under construction, [this.nav_item] and [this.cover_item]. *)
Record ManifestLoop := {
  ml_items : list PackageItem.t;
  ml_items_by_id : gmap string PackageItem.t;
  ml_nav_item : option string;
  ml_cover_item : option string
}.

(** [element.getAttribute('properties')?.split(' ') || []]. *)
Definition properties_of (el : Node) : list string :=
  match Dom.getAttribute el "properties" with
  | Some p => Js.split_space p
  | None => []
  end.

(** The body of the loop of [#processManifest]. *)
Definition processManifest_item (base_url package_origin : string)
    (st : ManifestLoop) (item : Node) : Res ManifestLoop :=
  let* href := require (Dom.getAttribute item "href") ItemMissingHref in
  let* mime :=
    require (Dom.getAttribute item "media-type") ItemMissingMediaType in
  let properties := properties_of item in
  let* id := require (Dom.getAttribute item "id") ItemMissingId in
  let fallback := Dom.getAttribute item "fallback" in
  let overlay := Dom.getAttribute item "media-overlay" in
  let* resolved_path :=
    require_some (URL_new href (Some base_url)) TypeError in
  if negb (String.eqb (Url.origin resolved_path) package_origin)
  then Throw OriginMismatch
  else
    let packageItem :=
      {| PackageItem.fallback := fallback;
         PackageItem.href := href;
         PackageItem.mime := mime;
         PackageItem.overlay := overlay;
         PackageItem.properties := properties;
         PackageItem.content_path := Url.pathname resolved_path |} in
    Ok {| ml_items := (ml_items st ++ [packageItem])%list;
          ml_items_by_id := <[id := packageItem]> (ml_items_by_id st);
          ml_nav_item :=
            if Js.includes properties "nav" then Some id
            else ml_nav_item st;
          ml_cover_item :=
            if Js.includes properties "cover-image" then Some id
            else ml_cover_item st |}.

(** [#processManifest(manifest)], with [this.nav_item] and
    [this.cover_item] as they are on return. *)
Definition processManifest (base_url package_origin : string)
    (manifest : Node) : Res ManifestLoop :=
  for_each (processManifest_item base_url package_origin)
    (Dom.getElementsByTagName manifest "item")
    {| ml_items := []; ml_items_by_id := ∅;
       ml_nav_item := None; ml_cover_item := None |}.

(** The variables the loop of [#processSpine] updates. *)
Record SpineLoop := {
  sl_has_linear : bool;
  sl_itemrefs : list ItemRef.t
}.

(** The body of the loop of [#processSpine]. *)
Definition processSpine_itemref (fuel : nat) (manifest : PackageManifest.t)
    (st : SpineLoop) (itemref : Node) : Res SpineLoop :=
  let* idref := require (Dom.getAttribute itemref "idref") ItemrefMissingIdref in
  match items_by_id_get (PackageManifest.items_by_id manifest) idref with
  | Falsy => Throw (ItemrefNoMatchingItem idref)
  | NoItem =>
      match fallback_walk fuel (PackageManifest.items_by_id manifest) None
      with
      | None => OutOfFuel
      | Some _ => Throw (ItemrefNoContentDocument idref)
      end
  | AnItem item =>
      match
        fallback_walk fuel (PackageManifest.items_by_id manifest) (Some item)
      with
      | None => OutOfFuel
      | Some false => Throw (ItemrefNoContentDocument idref)
      | Some true =>
          let linear := Dom.getAttribute itemref "linear" in
          let linear_value :=
            if bool_decide (linear = Some "no") then false else true in
          Ok {| sl_has_linear :=
                  if linear_value then true else sl_has_linear st;
                sl_itemrefs :=
                  (sl_itemrefs st ++
                     [{| ItemRef.idref := idref;
                         ItemRef.item := item;
                         ItemRef.linear := linear_value;
                         ItemRef.properties := properties_of itemref |}])%list
             |}
      end
  end.

(** [#processSpine(spine)], with [this.toc_item] as it is on return. *)
Definition processSpine (fuel : nat) (manifest : PackageManifest.t)
    (spine : Node) : Res (PackageSpine.t * option string) :=
  let id := Js.nonempty (Dom.getAttribute spine "id") in
  let page_progression :=
    match Js.nonempty (Dom.getAttribute spine "page-progression-direction")
    with
    | Some d => if Js.includes VALID_PAGE_PROGRESSION_DIRS d then d
                else DEFAULT_PAGE_PROGRESSION_DIR
    | None => DEFAULT_PAGE_PROGRESSION_DIR
    end in
  let* toc_item :=
    match Js.nonempty (Dom.getAttribute spine "toc") with
    | Some toc =>
        match items_by_id_get (PackageManifest.items_by_id manifest) toc with
        | Falsy => Throw InvalidTocAttribute
        | AnItem _ | NoItem => Ok (Some toc)
        end
    | None => Ok None
    end in
  let itemrefs := Dom.getElementsByTagName spine "itemref" in
  match itemrefs with
  | [] => Throw MissingItemrefs
  | _ =>
      let* st := for_each (processSpine_itemref fuel manifest) itemrefs
                   {| sl_has_linear := false; sl_itemrefs := [] |} in
      if negb (sl_has_linear st) then Throw MissingLinearItemref
      else Ok ({| PackageSpine.id := id;
                  PackageSpine.page_progression := page_progression;
                  PackageSpine.itemrefs := sl_itemrefs st |}, toc_item)
  end.

(** The fields the constructor has assigned when it reaches the spine. *)
Record ConstructorHead := {
  ch_base_url : string;
  ch_dir : string;
  ch_id : option string;
  ch_prefix : option string;
  ch_lang : option string;
  ch_uid : string;
  ch_primary_identifier : string;
  ch_version : string;
  ch_nav_item : option string;
  ch_cover_item : option string;
  ch_metadata_element : Node;
  ch_metadata : PackageMetadata.t;
  ch_manifest : PackageManifest.t
}.

(** The constructor from its first statement to
    [this.manifest = this.#processManifest(manifest)]; [document] is the
    document element. *)
Definition PackageDocument_head (document : Node) (package_url : Url.t)
  : Res ConstructorHead :=
  let* base := require_some (URL_new "." (Some (Url.href package_url)))
                 TypeError in
  let base_url := Url.href base in
  if negb (String.eqb (Dom.tagName document) "package")
  then Throw InvalidPackageDocument
  else
  let* uid := require (Dom.getAttribute document "unique-identifier")
                MissingUniqueIdentifier in
  let* found := select_primary_identifier document uid in
  let* primary_identifier := require_some found MissingPrimaryIdentifier in
  if negb (String.eqb (Dom.tagName primary_identifier) "dc:identifier")
  then Throw PrimaryIdentifierNotDcIdentifier
  else
  let* version := require (Dom.getAttribute document "version")
                    MissingVersion in
  let dir :=
    match Js.nonempty (Dom.getAttribute document "dir") with
    | Some d => if Js.includes VALID_TEXT_DIRS d then d else DEFAULT_TEXT_DIR
    | None => DEFAULT_TEXT_DIR
    end in
  let id := Js.nonempty (Dom.getAttribute document "id") in
  let prefix := Js.nonempty (Dom.getAttribute document "prefix") in
  let lang := Js.nonempty (Dom.getAttribute document "xml:lang") in
  let* metadata := require_some (Dom.querySelector_type document "metadata")
                     MissingMetadataElement in
  let* '(packageMetadata, lang) := processMetadata lang metadata in
  let* manifest := require_some (Dom.querySelector_type document "manifest")
                     MissingManifestElement in
  let* ml := processManifest base_url (Url.origin package_url) manifest in
  Ok {| ch_base_url := base_url;
        ch_dir := dir;
        ch_id := id;
        ch_prefix := prefix;
        ch_lang := lang;
        ch_uid := uid;
        ch_primary_identifier := Dom.textContent primary_identifier;
        ch_version := version;
        ch_nav_item := ml_nav_item ml;
        ch_cover_item := ml_cover_item ml;
        ch_metadata_element := metadata;
        ch_metadata := packageMetadata;
        ch_manifest :=
          {| PackageManifest.items := ml_items ml;
             PackageManifest.items_by_id := ml_items_by_id ml |} |}.

(** [new PackageDocument(document, ocf, package_url)]: the statements of
    [PackageDocument_head], then the spine and the rendition hints.
    [fuel] bounds each walk of a fallback chain. *)
Definition PackageDocument_new (fuel : nat) (document : Node)
    (ocf : OCFZip.t) (package_url : Url.t) : Res PackageDocument.t :=
  let* head := PackageDocument_head document package_url in
  let* spine := require_some (Dom.querySelector_type document "spine")
                  MissingSpineElement in
  let* '(packageSpine, toc_item) :=
    processSpine fuel (ch_manifest head) spine in
  Ok {| PackageDocument.base_url := ch_base_url head;
        PackageDocument.dir := ch_dir head;
        PackageDocument.id := ch_id head;
        PackageDocument.prefix := ch_prefix head;
        PackageDocument.lang := ch_lang head;
        PackageDocument.uid := ch_uid head;
        PackageDocument.primary_identifier := ch_primary_identifier head;
        PackageDocument.version := ch_version head;
        PackageDocument.nav_item := ch_nav_item head;
        PackageDocument.cover_item := ch_cover_item head;
        PackageDocument.toc_item := toc_item;
        PackageDocument.rendition :=
          processRendition (ch_metadata_element head);
        PackageDocument.metadata := ch_metadata head;
        PackageDocument.manifest := ch_manifest head;
        PackageDocument.spine := packageSpine;
        PackageDocument.document := document;
        PackageDocument.ocf := ocf;
        PackageDocument.package_url := package_url |}.

End Parser.

(* ===================================================================== *)
(** * The two regular expressions of [CSSResource.create] *)
(* ===================================================================== *)

Module Regex.

(** A greedy [\s*] followed by the rest [k] of the pattern: the longest run
    first, then shorter ones. *)
Fixpoint ws_star {R : Type} (k : string -> option R) (s : string)
  : option R :=
  match s with
  | String c s' =>
      if Js.is_space c then
        match ws_star k s' with
        | Some r => Some r
        | None => k s
        end
      else k s
  | EmptyString => k s
  end.

(** A greedy [\s+] followed by [k]. *)
Definition ws_plus {R : Type} (k : string -> option R) (s : string)
  : option R :=
  match s with
  | String c s' => if Js.is_space c then ws_star k s' else None
  | EmptyString => None
  end.

(** One literal character. *)
Definition char (c : ascii) (s : string) : option string :=
  match s with
  | String d s' => if Ascii.eqb d c then Some s' else None
  | EmptyString => None
  end.

(** The backreference to the quote group, then [\s*], then the closing
    character of the pattern. *)
Definition closing (quote : option ascii) (close : ascii) (s : string)
  : option string :=
  match quote with
  | None => ws_star (char close) s
  | Some q =>
      match char q s with
      | Some s' => ws_star (char close) s'
      | None => None
      end
  end.

(** The lazy group [(.*?)] followed by [k]: the shortest text first.  The
    result is the text of the group and what follows the whole match. *)
Fixpoint lazy_dots (k : string -> option string) (s : string)
    (group : string) : option (string * string) :=
  match k s with
  | Some rest => Some (Js.rev group, rest)
  | None =>
      match s with
      | String c s' =>
          if Js.is_dot c then lazy_dots k s' (String c group) else None
      | EmptyString => None
      end
  end.

(** The greedy optional quote group, then the rest of the pattern:
    with the quote first, without it when that fails. *)
Definition quoted (close : ascii) (s : string) : option (string * string) :=
  match s with
  | String c s' =>
      if Ascii.eqb c "'"%char || Ascii.eqb c Js.dquote then
        match lazy_dots (closing (Some c) close) s' EmptyString with
        | Some r => Some r
        | None => lazy_dots (closing None close) s EmptyString
        end
      else lazy_dots (closing None close) s EmptyString
  | EmptyString => lazy_dots (closing None close) s EmptyString
  end.

(** [/@import\s+(['dq]?)(.*?)\1\s*;/] anchored at the start of [s]:
    group 2 and the text after the match. *)
Definition import_at (s : string) : option (string * string) :=
  match Js.strip_prefix "@import" s with
  | Some s' => ws_plus (quoted ";"%char) s'
  | None => None
  end.

(** [/url\(\s*(['dq]?)(.*?)\1\s*\)/] anchored at the start of [s]. *)
Definition url_at (s : string) : option (string * string) :=
  match Js.strip_prefix "url(" s with
  | Some s' => ws_star (quoted ")"%char) s'
  | None => None
  end.

(** The loop [while ((match = regex.exec(s)) !== null)] of a global regular
    expression, collecting group 2: the leftmost match from [lastIndex],
    then on from its end.  Every match takes at least one character, so
    [n] greater than the length of [s] is enough. *)
Fixpoint exec_loop (at_ : string -> option (string * string)) (n : nat)
    (s : string) : list string :=
  match n with
  | O => []
  | S n' =>
      match at_ s with
      | Some (group, rest) => group :: exec_loop at_ n' rest
      | None =>
          match s with
          | String _ s' => exec_loop at_ n' s'
          | EmptyString => []
          end
      end
  end.

Definition exec_all (at_ : string -> option (string * string)) (s : string)
  : list string :=
  exec_loop at_ (S (String.length s)) s.

End Regex.

(* ===================================================================== *)
(** * Resources ([resource.ts]): data *)
(* ===================================================================== *)

Module Blob.
(** [new Blob([content], { type })]. *)
Record t := { content : string; type : string }.
End Blob.

(** The three resource classes.  The fields [resources] hold addresses of
    resource objects in the store; [object_url] is the field of
    [CommonResource]. *)
Inductive Resource :=
  | HTMLResource (doc : Node) (resources : list nat) (blob : option Blob.t)
                 (object_url : option string)
  | CSSResource (content : string) (resources : list nat)
                (object_url : option string)
  | BinaryResource (blob : Blob.t) (object_url : option string).

Module Resource.

Definition resource_type (r : Resource) : string :=
  match r with
  | HTMLResource _ _ _ _ => "html"
  | CSSResource _ _ _ => "css"
  | BinaryResource _ _ => "binary"
  end.

Definition object_url (r : Resource) : option string :=
  match r with
  | HTMLResource _ _ _ u => u
  | CSSResource _ _ u => u
  | BinaryResource _ u => u
  end.

Definition set_object_url (r : Resource) (u : string) : Resource :=
  match r with
  | HTMLResource d rs b _ => HTMLResource d rs b (Some u)
  | CSSResource c rs _ => CSSResource c rs (Some u)
  | BinaryResource b _ => BinaryResource b (Some u)
  end.

(** A consumer changing the tree [resource.doc] refers to. *)
Definition mutate_doc (f : Node -> Node) (r : Resource) : Resource :=
  match r with
  | HTMLResource d rs b u => HTMLResource (f d) rs b u
  | _ => r
  end.

End Resource.

(** A promise returned by [createResourceFromItem].

    - [Pending item bytes base_url]: the call has run up to
      [await item.getContentBuffer()], whose bytes are [bytes];
    - [Running]: the rest of the body has started and is itself suspended
      in an [await];
    - [Fulfilled r], [Rejected e]: settled. *)
Inductive Promise :=
  | Pending (item : PackageItem.t) (bytes : string) (base_url : string)
  | Running
  | Fulfilled (r : nat)
  | Rejected (e : Error).

(** What the resolver does to the outside, in order: a call of
    [item.getContentBuffer()] with the path it reads, and a call of
    [DOMParser.parseFromString] with its text. *)
Inductive Event :=
  | EvRead (path : string)
  | EvParse (text : string).

(** The mutable state behind a [PackageDocument]: the private field
    [#cached_resources] (path to promise), the promises and the resource
    objects created so far, the blobs registered through
    [URL.createObjectURL], and the trace of outside calls. *)
Record State := {
  cached_resources : gmap string nat;
  promises : list Promise;
  store : list Resource;
  object_urls : list Blob.t;
  trace : list Event
}.

Definition initial_state : State :=
  {| cached_resources := ∅; promises := []; store := [];
     object_urls := []; trace := [] |}.

(** Code that reads and writes the state. *)
Definition M (A : Type) : Type := State -> Res A * State.

Definition ret {A} (a : A) : M A := fun st => (Ok a, st).

Definition bind {A B} (m : M A) (k : A -> M B) : M B :=
  fun st =>
    match m st with
    | (Ok a, st') => k a st'
    | (Throw e, st') => (Throw e, st')
    | (OutOfFuel, st') => (OutOfFuel, st')
    | (Hang, st') => (Hang, st')
    end.

Notation "'let!' x ':=' m 'in' k" := (bind m (fun x => k))
  (at level 10, x name, m at level 100, k at level 200).
Notation "'let!' ' pat ':=' m 'in' k" :=
  (bind m (fun x => let 'pat := x in k))
  (at level 10, pat pattern, m at level 100, k at level 200).

(** [o !== undefined] as a boolean. *)
Definition is_Some_b {A} (o : option A) : bool :=
  match o with Some _ => true | None => false end.

(** A pure step that may throw. *)
Definition lift {A} (r : Res A) : M A := fun st => (r, st).

(** [for (const x of xs) body] in [M]. *)
Fixpoint for_eachM {A S : Type} (body : S -> A -> M S) (xs : list A) (s : S)
  : M S :=
  match xs with
  | [] => ret s
  | x :: xs' => let! s' := body s x in for_eachM body xs' s'
  end.

Definition set_promise (p : nat) (v : Promise) : M unit :=
  fun st =>
    (Ok tt, {| cached_resources := cached_resources st;
               promises := <[p := v]> (promises st);
               store := store st;
               object_urls := object_urls st;
               trace := trace st |}).

Definition emit (e : Event) : M unit :=
  fun st =>
    (Ok tt, {| cached_resources := cached_resources st;
               promises := promises st;
               store := store st;
               object_urls := object_urls st;
               trace := (trace st ++ [e])%list |}).

(** [new C(...)]: the address of the new object. *)
Definition new_resource (r : Resource) : M nat :=
  fun st =>
    (Ok (length (store st)),
     {| cached_resources := cached_resources st;
        promises := promises st;
        store := (store st ++ [r])%list;
        object_urls := object_urls st;
        trace := trace st |}).

(* ===================================================================== *)
(** * Resources ([resource.ts]): methods *)
(* ===================================================================== *)

Section Resources.
Context `{host : Host}.

(** [HTMLResource.getSerialized()]. *)
Definition getSerialized (doc : Node) : string := serializeToString doc.

(** [getBlob()] of the three classes: the blob, and the object afterwards
    ([HTMLResource] keeps the blob of its first call in [this.blob]). *)
Definition getBlob (r : Resource) : Blob.t * Resource :=
  match r with
  | HTMLResource d rs (Some b) u => (b, r)
  | HTMLResource d rs None u =>
      let b := {| Blob.content := getSerialized d;
                  Blob.type := "application/xhtml+xml" |} in
      (b, HTMLResource d rs (Some b) u)
  | CSSResource c rs u =>
      ({| Blob.content := c; Blob.type := "text/css" |}, r)
  | BinaryResource b u => (b, r)
  end.

(** [new BinaryResource(content)]. *)
Definition BinaryResource_new (bytes : string) : Resource :=
  BinaryResource {| Blob.content := bytes; Blob.type := EmptyString |} None.

(** [CommonResource.getURL()] on the object at address [r]. *)
Definition getURL (r : nat) : M string :=
  fun st =>
    match store st !! r with
    | None => (Throw TypeError, st)
    | Some res =>
        match Js.nonempty (Resource.object_url res) with
        | Some u => (Ok u, st)
        | None =>
            let '(b, res') := getBlob res in
            let u := objectURL (length (object_urls st)) in
            (Ok u,
             {| cached_resources := cached_resources st;
                promises := promises st;
                store := <[r := Resource.set_object_url res' u]> (store st);
                object_urls := (object_urls st ++ [b])%list;
                trace := trace st |})
        end
    end.

(** [this.manifest.items.find(item => resolved_url.href ===
    this.parseURL(item.href).href)]. *)
Fixpoint find_item (base_url resolved_href : string)
    (items : list PackageItem.t) : Res (option PackageItem.t) :=
  match items with
  | [] => Ok None
  | item :: items' =>
      match URL_new (PackageItem.href item) (Some base_url) with
      | None => Throw TypeError
      | Some u =>
          if String.eqb resolved_href (Url.href u) then Ok (Some item)
          else find_item base_url resolved_href items'
      end
  end.

(** The call [createResourceFromItem(item, opf, base_url)] up to its first
    suspension: it calls [item.getContentBuffer()] and returns a promise,
    already rejected when that call throws. *)
Definition createResourceFromItem_start (opf : PackageDocument.t)
    (item : PackageItem.t) (base_url : string) : M nat :=
  fun st =>
    let promise :=
      match OCFZip.getUint8Array (PackageDocument.ocf opf)
              (PackageItem.content_path item) with
      | inr bytes => Pending item bytes base_url
      | inl e => Rejected e
      end in
    (Ok (length (promises st)),
     {| cached_resources := cached_resources st;
        promises := (promises st ++ [promise])%list;
        store := store st;
        object_urls := object_urls st;
        trace := (trace st ++ [EvRead (PackageItem.content_path item)])%list |}).

(** [PackageDocument.getResource(url, base_url = this.base_url)]: the
    promise it returns. *)
Definition getResource (opf : PackageDocument.t) (url : string)
    (base_url : option string) : M nat :=
  fun st =>
    match URL_new url (Some (default (PackageDocument.base_url opf) base_url))
    with
    | None => (Throw TypeError, st)
    | Some resolved_url =>
        if negb (String.eqb (Url.origin resolved_url)
                   (Url.origin (PackageDocument.package_url opf)))
        then (Throw OriginMismatch, st)
        else
          match cached_resources st !! Url.pathname resolved_url with
          | Some p => (Ok p, st)
          | None =>
              match find_item (PackageDocument.base_url opf)
                      (Url.href resolved_url)
                      (PackageManifest.items (PackageDocument.manifest opf))
              with
              | Ok (Some item) =>
                  match createResourceFromItem_start opf item
                          (Url.href resolved_url) st with
                  | (Ok p, st') =>
                      (Ok p,
                       {| cached_resources :=
                            <[Url.pathname resolved_url := p]>
                              (cached_resources st');
                          promises := promises st';
                          store := store st';
                          object_urls := object_urls st';
                          trace := trace st' |})
                  | other => other
                  end
              | Ok None => (Throw (ResourceNotFound url), st)
              | Throw e => (Throw e, st)
              | OutOfFuel => (OutOfFuel, st)
              | Hang => (Hang, st)
              end
          end
    end.

(** One row of the table [tag_attribute_matchers]. *)
Record Matcher := {
  tag : string;
  attribute : string;
  rels : option (list string);
  names : option (list string);
  properties : option (list string);
  itemprops : option (list string)
}.

Definition plain_matcher (tag attribute : string) : Matcher :=
  {| tag := tag; attribute := attribute; rels := None; names := None;
     properties := None; itemprops := None |}.

Definition LINK_RELS : list string :=
  [ "stylesheet"; "icon"; "shortcut icon"; "mask-icon"; "apple-touch-icon";
    "apple-touch-icon-precomposed"; "apple-touch-startup-image"; "manifest";
    "prefetch"; "preload" ].

Definition link_matcher (attribute : string) : Matcher :=
  {| tag := "link"; attribute := attribute; rels := Some LINK_RELS;
     names := None; properties := None; itemprops := None |}.

Definition meta_matcher : Matcher :=
  {| tag := "meta"; attribute := "content"; rels := None;
     names := Some [ "msapplication-tileimage";
                     "msapplication-square70x70logo";
                     "msapplication-square150x150logo";
                     "msapplication-wide310x150logo";
                     "msapplication-square310x310logo";
                     "msapplication-config"; "twitter:image" ];
     properties := Some [ "og:image"; "og:image:url"; "og:image:secure_url";
                          "og:audio"; "og:audio:secure_url"; "og:video";
                          "og:video:secure_url"; "vk:image" ];
     itemprops := Some [ "image"; "logo"; "screenshot"; "thumbnailurl";
                         "contenturl"; "downloadurl"; "duringmedia";
                         "embedurl"; "installurl"; "layoutimage" ] |}.

Definition tag_attribute_matchers : list Matcher :=
  [ plain_matcher "audio" "src"; plain_matcher "embed" "src";
    plain_matcher "img" "src"; plain_matcher "input" "src";
    plain_matcher "script" "src"; plain_matcher "source" "src";
    plain_matcher "track" "src"; plain_matcher "video" "src";
    plain_matcher "script" "href"; plain_matcher "image" "href";
    plain_matcher "use" "href"; link_matcher "href";
    plain_matcher "img" "srcset"; plain_matcher "source" "srcset";
    plain_matcher "video" "poster"; plain_matcher "object" "data";
    meta_matcher; link_matcher "imagesrcset" ].

(** One of the four filters of a matcher: without the filter every
    candidate passes; with it the candidate's attribute, trimmed and
    lower-cased, has to be non-empty and among the values. *)
Definition passes (values : option (list string)) (candidate : Node)
    (name : string) : bool :=
  match values with
  | None => true
  | Some vs =>
      match Dom.getAttribute candidate name with
      | None => false
      | Some v =>
          let v' := Js.toLowerCase (Js.trim v) in
          Js.truthy v' && Js.includes vs v'
      end
  end.

(** [f] applied to the elements of a tree that [sel] selects, in document
    order, the tree keeping the attributes [f] returns. *)
Fixpoint map_elements {S : Type} (sel : Node -> bool)
    (f : S -> Node -> M (Node * S)) (n : Node) (s : S) {struct n}
  : M (Node * S) :=
  match n with
  | Text d => ret (Text d, s)
  | Elem t a cs =>
      let! '(n', s1) := (if sel n then f s n else ret (n, s)) in
      let! '(cs', s2) :=
        (fix go (cs : list Node) (s : S) {struct cs} : M (list Node * S) :=
           match cs with
           | [] => ret ([], s)
           | c :: cs0 =>
               let! '(c', s') := map_elements sel f c s in
               let! '(cs0', s'') := go cs0 s' in
               ret (c' :: cs0', s'')
           end) cs s1 in
      ret (Elem t (Dom.attributes n') cs', s2)
  end.

Section Create.
(** [await_ p] is [await] on the promise [p]; [opf] the package document. *)
Variable await_ : nat -> M nat.
Variable opf : PackageDocument.t.

(** The block under [if (attr)] and the one under [if (xlinkHref)] in
    [HTMLResource.create]; [None] is its [continue]. *)
Definition rewrite_reference (base_url base_origin : string)
    (name value : string) (candidate : Node) (resources : list nat)
  : M (option (Node * list nat)) :=
  let! url := lift (require_some (URL_new value (Some base_url)) TypeError) in
  if negb (String.eqb (Url.origin url) base_origin) then ret None
  else
    let! p := getResource opf value (Some base_url) in
    let! item := await_ p in
    let! u := getURL item in
    ret (Some (Dom.setAttribute candidate name u, (resources ++ [item])%list)).

(** The body of the inner loop of [HTMLResource.create]. *)
Definition process_candidate (base_url base_origin : string)
    (matcher : Matcher) (resources : list nat) (candidate : Node)
  : M (Node * list nat) :=
  let attr := Js.nonempty (Dom.getAttribute candidate (attribute matcher)) in
  let xlinkHref := Js.nonempty (Dom.getAttribute candidate "xlink:href") in
  if negb (is_Some_b attr || is_Some_b xlinkHref)
  then ret (candidate, resources)
  else if negb (passes (rels matcher) candidate "rel"
                && passes (names matcher) candidate "name"
                && passes (properties matcher) candidate "property"
                && passes (itemprops matcher) candidate "itemprop")
  then ret (candidate, resources)
  else
    let! first :=
      match attr with
      | Some a => rewrite_reference base_url base_origin (attribute matcher)
                    a candidate resources
      | None => ret (Some (candidate, resources))
      end in
    match first with
    | None => ret (candidate, resources)
    | Some (candidate', resources') =>
        match xlinkHref with
        | Some x =>
            let! second :=
              rewrite_reference base_url base_origin "xlink:href" x
                candidate' resources' in
            ret (default (candidate', resources') second)
        | None => ret (candidate', resources')
        end
    end.

(** [HTMLResource.create(content, opf, base_url)]: the address of the new
    resource. *)
Definition HTMLResource_create (content base_url : string) : M nat :=
  let content_str := decode content in
  let! _ := emit (EvParse content_str) in
  let doc := parseFromString content_str in
  let! base := lift (require_some (URL_new base_url None) TypeError) in
  let base_origin := Url.origin base in
  let! '(doc', resources) :=
    for_eachM (fun '(doc, resources) matcher =>
                 map_elements
                   (fun e => String.eqb (Dom.tagName e) (tag matcher))
                   (process_candidate base_url base_origin matcher)
                   doc resources)
      tag_attribute_matchers (doc, []) in
  new_resource (HTMLResource doc' resources None None).

(** The body of the two loops of [CSSResource.create]; they differ in the
    base they hand to [getResource]. *)
Definition rewrite_css (base_url base_origin : string)
    (getResource_base : option string) (st : string * list nat)
    (candidate : string) : M (string * list nat) :=
  let '(content_str, resources) := st in
  let! url :=
    lift (require_some (URL_new candidate (Some base_url)) TypeError) in
  if negb (String.eqb (Url.origin url) base_origin)
  then ret (content_str, resources)
  else
    let! p := getResource opf candidate getResource_base in
    let! item := await_ p in
    let! u := getURL item in
    ret (Js.replace content_str candidate u, (resources ++ [item])%list).

(** [opf.getResource(candidate_import, base_url)] in the first loop. *)
Definition rewrite_import (base_url base_origin : string) :=
  rewrite_css base_url base_origin (Some base_url).

(** [opf.getResource(candidate_url)] in the second loop. *)
Definition rewrite_url (base_url base_origin : string) :=
  rewrite_css base_url base_origin None.

(** The targets of the [@import] statements that are not written as
    [url(...)]. *)
Definition filtered_imports (content_str : string) : list string :=
  filter (fun i => negb (Js.startsWith "url(" i))
         (map Js.trim (Regex.exec_all Regex.import_at content_str)).

(** [CSSResource.create(content, opf, base_url)]. *)
Definition CSSResource_create (content base_url : string) : M nat :=
  let content_str := decode content in
  let! base := lift (require_some (URL_new base_url None) TypeError) in
  let base_origin := Url.origin base in
  let! st1 :=
    for_eachM (rewrite_import base_url base_origin)
      (filtered_imports content_str) (content_str, []) in
  let urls := Regex.exec_all Regex.url_at (fst st1) in
  let! '(content_str', resources) :=
    for_eachM (rewrite_url base_url base_origin) urls st1 in
  new_resource (CSSResource content_str' resources None).

(** The body of [createResourceFromItem] after
    [await item.getContentBuffer()]. *)
Definition createResourceFromItem_resume (item : PackageItem.t)
    (item_content base_url : string) : M nat :=
  let mime := Js.toLowerCase (Js.trim (PackageItem.mime item)) in
  let is_html :=
    Js.includes ["text/html"; "application/xhtml"; "application/xhtml+xml"]
      mime in
  let is_css := Js.includes ["text/css"] mime in
  if is_html then HTMLResource_create item_content base_url
  else if is_css then CSSResource_create item_content base_url
  else new_resource (BinaryResource_new item_content).

End Create.

(** [await p] on a promise of [createResourceFromItem]: the resource it is
    fulfilled with.  Awaiting a pending promise runs the rest of its body,
    which may await in turn, at most [fuel] deep; awaiting a promise whose
    body is itself waiting never returns. *)
Fixpoint await_resource (fuel : nat) (opf : PackageDocument.t) (p : nat)
  : M nat :=
  fun st =>
    match promises st !! p with
    | None => (Throw TypeError, st)
    | Some (Fulfilled r) => (Ok r, st)
    | Some (Rejected e) => (Throw e, st)
    | Some Running => (Hang, st)
    | Some (Pending item bytes base_url) =>
        match fuel with
        | O => (OutOfFuel, st)
        | S fuel' =>
            match
              (let! _ := set_promise p Running in
               createResourceFromItem_resume (await_resource fuel' opf) opf
                 item bytes base_url) st
            with
            | (Ok r, st') => (Ok r, snd (set_promise p (Fulfilled r) st'))
            | (Throw e, st') => (Throw e, snd (set_promise p (Rejected e) st'))
            | (OutOfFuel, st') => (OutOfFuel, st')
            | (Hang, st') => (Hang, st')
            end
        end
    end.

End Resources.

(* ===================================================================== *)
(** * A host and a publication for the examples *)
(* ===================================================================== *)

Module Toy.

(** [s] up to the first character satisfying [p], and the rest from it. *)
Fixpoint break (p : ascii -> bool) (s : string) : string * string :=
  match s with
  | EmptyString => (EmptyString, EmptyString)
  | String c s' =>
      if p c then (EmptyString, s)
      else let '(a, b) := break p s' in (String c a, b)
  end.

Definition is_char (c d : ascii) : bool := Ascii.eqb c d.

(** The segments of a path that starts with a slash. *)
Definition segments (path : string) : list string :=
  match Js.split_acc "/"%char path EmptyString with
  | _ :: segs => segs
  | [] => []
  end.

(** Removal of the [.] and [..] segments; [acc] is reversed. *)
Fixpoint normalise (segs acc : list string) : list string :=
  match segs with
  | [] => List.rev acc
  | seg :: segs' =>
      let last := match segs' with [] => true | _ => false end in
      if String.eqb seg ".." then
        normalise segs' (if last then EmptyString :: tl acc else tl acc)
      else if String.eqb seg "." then
        normalise segs' (if last then EmptyString :: acc else acc)
      else normalise segs' (seg :: acc)
  end.

Definition path_of (segs : list string) : string :=
  String "/"%char (String.concat "/" segs).

Record Parts := {
  p_origin : string; p_path : string; p_search : string; p_hash : string
}.

Definition url_of (p : Parts) : Url.t :=
  {| Url.href := p_origin p ++ p_path p ++ p_search p ++ p_hash p;
     Url.origin := p_origin p;
     Url.pathname := p_path p |}.

(** The characters the examples use in addresses. *)
Definition plain (c : ascii) : bool :=
  let n := nat_of_ascii c in
  Nat.ltb 32 n && Nat.ltb n 127 && negb (Nat.eqb n 92).

(** An absolute [http] address with a host. *)
Definition parse_absolute (s : string) : option Parts :=
  match Js.strip_prefix "http://" s with
  | None => None
  | Some rest =>
      let '(host, tail) :=
        break (fun c => is_char c "/" || is_char c "?" || is_char c "#")
          rest in
      let '(before_hash, hash) := break (is_char "#") tail in
      let '(path, search) := break (is_char "?") before_hash in
      if Js.truthy host && Js.all plain s then
        Some {| p_origin := "http://" ++ host;
                p_path := path_of (normalise (segments path) []);
                p_search := search; p_hash := hash |}
      else None
  end.

(** A reference against a parsed base: an absolute [http] address, or a
    reference without a scheme and without an authority. *)
Definition resolve (ref : string) (base : Parts) : option Parts :=
  let '(before_hash, hash) := break (is_char "#") ref in
  let '(path, search) := break (is_char "?") before_hash in
  if Js.startsWith "http://" ref then parse_absolute ref
  else if negb (Js.all (fun c => plain c && negb (is_char c ":")) ref)
          || Js.startsWith "//" ref
  then None
  else if negb (Js.truthy path) then
    Some {| p_origin := p_origin base; p_path := p_path base;
            p_search := if Js.truthy search then search
                        else if Js.truthy before_hash then search
                        else p_search base;
            p_hash := hash |}
  else if Js.startsWith "/" path then
    Some {| p_origin := p_origin base;
            p_path := path_of (normalise (segments path) []);
            p_search := search; p_hash := hash |}
  else
    Some {| p_origin := p_origin base;
            p_path :=
              path_of (normalise
                         (removelast (segments (p_path base))
                            ++ segments (String "/"%char path))%list []);
            p_search := search; p_hash := hash |}.

(** [new URL(url, base)] on the addresses above; [None] everywhere else. *)
Definition new_URL (url : string) (base : option string) : option Url.t :=
  match base with
  | None => url_of <$> parse_absolute url
  | Some b =>
      match parse_absolute b with
      | Some pb => url_of <$> resolve url pb
      | None => None
      end
  end.

(** A serializer without escaping. *)
Fixpoint serialize (n : Node) : string :=
  match n with
  | Text d => d
  | Elem t a cs =>
      "<" ++ t
      ++ String.concat EmptyString
           (map (fun kv => " " ++ fst kv ++ "=" ++ String Js.dquote (snd kv)
                           ++ String Js.dquote EmptyString) a)
      ++ ">" ++ String.concat EmptyString (map serialize cs)
      ++ "</" ++ t ++ ">"
  end.

(** The texts the example parser knows, with their trees. *)
Definition chapter1_text : string := "<chapter1/>".
Definition chapter1_doc : Node :=
  Elem "html" []
    [ Elem "head" []
        [ Elem "link" [("rel", "stylesheet"); ("href", "style.css")] [];
          Elem "link" [("rel", "stylesheet");
                       ("href", "http://cdn.example/site.css")] [] ];
      Elem "body" []
        [ Elem "img" [("src", "cover.png")] [];
          Elem "p" [] [Text "Down the rabbit hole"] ] ].

Definition parse (text : string) : Node :=
  if String.eqb text chapter1_text then chapter1_doc
  else Elem "parsererror" [] [Text text].

Definition decimal (n : nat) : string :=
  NilEmpty.string_of_uint (Nat.to_uint n).

#[export] Instance host : Host := {|
  URL_new := new_URL;
  querySelector := fun _ _ => None;
  decode := fun bytes => bytes;
  parseFromString := parse;
  serializeToString := serialize;
  objectURL := fun n => "blob:http://reader.example/" ++ decimal n
|}.

End Toy.

Module Example.
Import Toy.

Definition package_url : Url.t :=
  {| Url.href := "http://book.local/OEBPS/content.opf";
     Url.origin := "http://book.local";
     Url.pathname := "/OEBPS/content.opf" |}.

Definition style_text : string :=
  "@import url(fonts.css); body { background: url(fonts.css); }".
Definition fonts_text : string := "@font-face { font-family: Alice; }".
Definition deep_text : string :=
  "@import 'fonts.css'; h1 { background: url(fonts.css); }".
Definition mixed_text : string :=
  "a{background:url(http://evil.example/a.css)}b{background:url(a.css)}".
Definition loop_text : string := "@import 'loop.css';".

Definition file (bytes : string) : Entry.t :=
  {| Entry.directory := false; Entry.getData := Some bytes |}.

Definition ocf : OCFZip.t :=
  {| OCFZip.dirtree :=
       list_to_map
         [ ("/OEBPS/chapter1.xhtml", file chapter1_text);
           ("/OEBPS/style.css", file style_text);
           ("/OEBPS/fonts.css", file fonts_text);
           ("/OEBPS/cover.png", file "PNG");
           ("/OEBPS/css/deep.css", file deep_text);
           ("/OEBPS/css/fonts.css", file fonts_text);
           ("/OEBPS/mixed.css", file mixed_text);
           ("/OEBPS/a.css", file "a { color: red; }");
           ("/OEBPS/loop.css", file loop_text) ] |}.

Definition item (id href media_type : string) : Node :=
  Elem "item" [("id", id); ("href", href); ("media-type", media_type)] [].

Definition metadata_el : Node :=
  Elem "metadata" []
    [ Elem "dc:identifier" [("id", "pub-id")] [Text "urn:uuid:alice"];
      Elem "dc:title" [] [Text "Alice in Wonderland"];
      Elem "dc:language" [] [Text "en"];
      Elem "meta" [("property", "rendition:layout")] [Text "pre-paginated"];
      Elem "meta" [("property", "rendition:flow")] [Text "sideways"];
      Elem "meta" [("property", "rendition:page-spread")] [Text "left"] ].

Definition manifest_el : Node :=
  Elem "manifest" []
    [ item "ch1" "chapter1.xhtml" "application/xhtml+xml";
      item "style" "style.css" "text/css";
      item "fonts" "fonts.css" "text/css";
      Elem "item" [("id", "cover"); ("href", "cover.png");
                   ("media-type", "image/png");
                   ("properties", "cover-image")] [];
      item "deep" "css/deep.css" "text/css";
      item "deepfonts" "css/fonts.css" "text/css";
      item "mixed" "mixed.css" "text/css";
      item "a" "a.css" "text/css";
      item "loop" "loop.css" "text/css" ].

Definition spine_el : Node :=
  Elem "spine" []
    [ Elem "itemref" [("idref", "ch1")] [];
      Elem "itemref" [("idref", "ch1"); ("linear", "no")] [] ].

Definition package_attrs : list (string * string) :=
  [("unique-identifier", "pub-id"); ("version", "3.0")].

Definition package_doc : Node :=
  Elem "package" package_attrs [metadata_el; manifest_el; spine_el].

(** The package document the constructor builds from [package_doc]; the
    record of an internal error stands in when it does not. *)
Definition opf : PackageDocument.t :=
  match PackageDocument_new 1 package_doc ocf package_url with
  | Ok o => o
  | _ =>
      {| PackageDocument.base_url := EmptyString;
         PackageDocument.dir := EmptyString;
         PackageDocument.id := None;
         PackageDocument.prefix := None;
         PackageDocument.lang := None;
         PackageDocument.uid := EmptyString;
         PackageDocument.primary_identifier := EmptyString;
         PackageDocument.version := EmptyString;
         PackageDocument.nav_item := None;
         PackageDocument.cover_item := None;
         PackageDocument.toc_item := None;
         PackageDocument.rendition := processRendition (Text EmptyString);
         PackageDocument.metadata :=
           {| PackageMetadata.element := Text EmptyString;
              PackageMetadata.identifiers := [];
              PackageMetadata.titles := [];
              PackageMetadata.languages := [];
              PackageMetadata.modified := None;
              PackageMetadata.contributors := None;
              PackageMetadata.coverages := None;
              PackageMetadata.creators := None;
              PackageMetadata.dates := None;
              PackageMetadata.descriptions := None;
              PackageMetadata.formats := None;
              PackageMetadata.publishers := None;
              PackageMetadata.relations := None;
              PackageMetadata.rights := None;
              PackageMetadata.sources := None;
              PackageMetadata.subjects := None;
              PackageMetadata.types := None |};
         PackageDocument.manifest :=
           {| PackageManifest.items := [];
              PackageManifest.items_by_id := ∅ |};
         PackageDocument.spine :=
           {| PackageSpine.id := None;
              PackageSpine.page_progression := EmptyString;
              PackageSpine.itemrefs := [] |};
         PackageDocument.document := package_doc;
         PackageDocument.ocf := ocf;
         PackageDocument.package_url := package_url |}
  end.

(** The addresses of two stylesheets of the publication, as [getResource]
    hands them to [createResourceFromItem]. *)
Definition style_base : string := "http://book.local/OEBPS/style.css".
Definition deep_base : string := "http://book.local/OEBPS/css/deep.css".

(** The address of [fonts.css] against the base of the package and against
    [deep_base]. *)
Definition fonts_url : Url.t :=
  {| Url.href := "http://book.local/OEBPS/fonts.css";
     Url.origin := "http://book.local";
     Url.pathname := "/OEBPS/fonts.css" |}.

Definition deep_fonts_url : Url.t :=
  {| Url.href := "http://book.local/OEBPS/css/fonts.css";
     Url.origin := "http://book.local";
     Url.pathname := "/OEBPS/css/fonts.css" |}.

(** The state after a first [opf.getResource("fonts.css")], then after an
    [await] on its promise, then after [getURL()] on the resource. *)
Definition fonts_requested : State :=
  snd (getResource opf "fonts.css" None initial_state).

Definition fonts_resolved : State :=
  snd (await_resource 1 opf 0 fonts_requested).

Definition fonts_addressed : State := snd (getURL 0 fonts_resolved).

(** A package document without the [unique-identifier] attribute. *)
Definition no_uid_doc : Node :=
  Elem "package" [("version", "3.0")] [metadata_el; manifest_el; spine_el].

Definition package_with (manifest spine : Node) : Node :=
  Elem "package" package_attrs [metadata_el; manifest; spine].

(** A spine whose only entry is a binary file without fallback. *)
Definition octet_doc : Node :=
  package_with
    (Elem "manifest" [] [item "bin" "data.bin" "application/octet-stream"])
    (Elem "spine" [] [Elem "itemref" [("idref", "bin")] []]).

(** Two binary files, each the fallback of the other. *)
Definition cyclic_manifest_el : Node :=
  Elem "manifest" []
    [ Elem "item" [("id", "a"); ("href", "a.bin");
                   ("media-type", "application/octet-stream");
                   ("fallback", "b")] [];
      Elem "item" [("id", "b"); ("href", "b.bin");
                   ("media-type", "application/octet-stream");
                   ("fallback", "a")] [] ].

(** The two items as the parser records them. *)
Definition cyclic_a : PackageItem.t :=
  {| PackageItem.fallback := Some "b";
     PackageItem.href := "a.bin";
     PackageItem.mime := "application/octet-stream";
     PackageItem.overlay := None;
     PackageItem.properties := [];
     PackageItem.content_path := "/OEBPS/a.bin" |}.

Definition cyclic_b : PackageItem.t :=
  {| PackageItem.fallback := Some "a";
     PackageItem.href := "b.bin";
     PackageItem.mime := "application/octet-stream";
     PackageItem.overlay := None;
     PackageItem.properties := [];
     PackageItem.content_path := "/OEBPS/b.bin" |}.

Definition cyclic_doc : Node :=
  package_with cyclic_manifest_el
    (Elem "spine" [] [Elem "itemref" [("idref", "a")] []]).

Definition cyclic_nonlinear_doc : Node :=
  package_with cyclic_manifest_el
    (Elem "spine" [] [Elem "itemref" [("idref", "b"); ("linear", "no")] []]).

(** A spine of valid entries, none of them linear. *)
Definition nonlinear_doc : Node :=
  package_with manifest_el
    (Elem "spine" []
       [ Elem "itemref" [("idref", "ch1"); ("linear", "no")] [];
         Elem "itemref" [("idref", "ch1"); ("linear", "no")] [] ]).

(** A markup resource nobody has asked for its blob yet, and a change a
    consumer makes to its tree. *)
Definition chapter1_resource : Resource :=
  HTMLResource chapter1_doc [] None None.

Definition add_lang (d : Node) : Node := Dom.setAttribute d "lang" "en".

(** A manifest with an item outside the origin of the package. *)
Definition foreign_doc : Node :=
  package_with
    (Elem "manifest" []
       [ item "ch1" "chapter1.xhtml" "application/xhtml+xml";
         item "far" "http://cdn.example/site.css" "text/css" ])
    spine_el.

End Example.

(* ===================================================================== *)
(** * The statements of the specification, in its words *)
(* ===================================================================== *)

Module Spec.

(** A [meta] element carrying the rendition property [property]. *)
Definition meta_with (property : string) (e : Node) : Prop :=
  Dom.localName e = "meta" /\ Dom.getAttribute e "property" = Some property.

(** [m] is the first such element below [metadata], in document order. *)
Definition first_meta (metadata : Node) (property : string) (m : Node)
  : Prop :=
  exists before after,
    Dom.descendants metadata = (before ++ m :: after)%list
    /\ Forall (fun e => ~ meta_with property e) before
    /\ meta_with property m.

(** A rendition hint with value [v]: the default without a [meta] element
    of the property; the text of the first one, trimmed, when it lies in
    the enumeration; the default when it does not. *)
Definition hint_rule (metadata : Node) (property : string)
    (values : list string) (default_value v : string) : Prop :=
  (Forall (fun e => ~ meta_with property e) (Dom.descendants metadata)
   -> v = default_value)
  /\ (forall m, first_meta metadata property m ->
                In (Js.trim (Dom.textContent m)) values ->
                v = Js.trim (Dom.textContent m))
  /\ (forall m, first_meta metadata property m ->
                ~ In (Js.trim (Dom.textContent m)) values ->
                v = default_value).

(** The fallback chain of [it] ends, after finitely many items, without an
    item of a content-document type: at an item without fallback or at a
    fallback that names no item. *)
Inductive dead_end (items_by_id : gmap string PackageItem.t)
  : PackageItem.t -> Prop :=
  | dead_end_last it :
      Js.includes CONTENT_DOCUMENT_MIMES (PackageItem.mime it) = false ->
      Js.nonempty (PackageItem.fallback it) = None ->
      dead_end items_by_id it
  | dead_end_dangling it f :
      Js.includes CONTENT_DOCUMENT_MIMES (PackageItem.mime it) = false ->
      Js.nonempty (PackageItem.fallback it) = Some f ->
      items_by_id !! f = None ->
      dead_end items_by_id it
  | dead_end_next it f it' :
      Js.includes CONTENT_DOCUMENT_MIMES (PackageItem.mime it) = false ->
      Js.nonempty (PackageItem.fallback it) = Some f ->
      items_by_id !! f = Some it' ->
      dead_end items_by_id it' ->
      dead_end items_by_id it.

(** The [linear] flag the specification gives an [itemref] element. *)
Definition linear_flag (itemref : Node) : bool :=
  match Dom.getAttribute itemref "linear" with
  | Some value => negb (String.eqb value "no")
  | None => true
  end.

End Spec.

(* ===================================================================== *)
(** * Vocabulary of the statements *)
(* ===================================================================== *)

(** A result that is an exception. *)
Definition throws {A} (r : Res A) : Prop := exists e, r = Throw e.

(** A promise that has been fulfilled or rejected. *)
Definition settled (v : Promise) : Prop :=
  match v with
  | Fulfilled _ | Rejected _ => True
  | Pending _ _ _ | Running => False
  end.

(** [st'] is a later state than [st]: the cache has kept every entry, no
    promise or resource has gone, and every promise that was settled is
    settled the same way. *)
Definition later (st st' : State) : Prop :=
  cached_resources st ⊆ cached_resources st'
  /\ length (promises st) <= length (promises st')
  /\ length (store st) <= length (store st')
  /\ forall q v, promises st !! q = Some v -> settled v ->
                 promises st' !! q = Some v.

(** Code that only moves to later states. *)
Definition grows {A} (m : M A) : Prop :=
  forall st r st', m st = (r, st') -> later st st'.

(** A replacement text without a dollar sign. *)
Definition no_dollar (s : string) : bool :=
  Js.all (fun c => negb (Ascii.eqb c "$"%char)) s.

(** [pat] occurs nowhere in [s]: [s.indexOf(pat)] is [-1]. *)
Definition absent (pat s : string) : Prop :=
  Js.find_first pat s EmptyString = None.

(** [c] is not a character of [s]. *)
Definition lacks (c : ascii) (s : string) : bool :=
  Js.all (fun d => negb (Ascii.eqb d c)) s.

(** No occurrence of [pat] in [x ++ rest] starts inside [x]. *)
Fixpoint no_start (pat x rest : string) : Prop :=
  match x with
  | EmptyString => True
  | String c x' =>
      Js.strip_prefix pat (x ++ rest) = None /\ no_start pat x' rest
  end.

(** A stylesheet with the two statements of the scenario, in any context. *)
Definition scenario_stylesheet (before between after : string) : string :=
  before ++ "@import url(fonts.css);" ++ between
  ++ "background: url(fonts.css);" ++ after.

(** That stylesheet with both references replaced by [h]. *)
Definition scenario_rewritten (h before between after : string) : string :=
  before ++ "@import url(" ++ h ++ ");" ++ between
  ++ "background: url(" ++ h ++ ");" ++ after.

Section Vocabulary.
Context `{host : Host}.

(** What the two loops of [CSSResource.create] do with the promise [p] that
    [getResource] has returned for [candidate]. *)
Definition rewrite_with (await_ : nat -> M nat) (content_str : string)
    (resources : list nat) (candidate : string) (p : nat)
  : M (string * list nat) :=
  let! item := await_ p in
  let! u := getURL item in
  ret (Js.replace content_str candidate u, (resources ++ [item])%list).

(** An [itemref] that passes every check but the one on [linear]. *)
Definition valid_itemref (fuel : nat) (manifest : PackageManifest.t)
    (itemref : Node) : Prop :=
  exists idref item,
    Js.nonempty (Dom.getAttribute itemref "idref") = Some idref
    /\ PackageManifest.items_by_id manifest !! idref = Some item
    /\ fallback_walk fuel (PackageManifest.items_by_id manifest) (Some item)
       = Some true.

(** The address [opf.getResource(url, base_url)] resolves. *)
Definition resolved (opf : PackageDocument.t) (url : string)
    (base_url : option string) (u : Url.t) : Prop :=
  URL_new url (Some (default (PackageDocument.base_url opf) base_url))
  = Some u.

(** An address in the origin of the package. *)
Definition same_origin (opf : PackageDocument.t) (u : Url.t) : Prop :=
  Url.origin u = Url.origin (PackageDocument.package_url opf).

(** No item of the manifest has the absolute address [href]. *)
Definition unlisted (opf : PackageDocument.t) (href : string) : Prop :=
  Forall (fun item => exists v,
            URL_new (PackageItem.href item)
              (Some (PackageDocument.base_url opf)) = Some v
            /\ Url.href v <> href)
         (PackageManifest.items (PackageDocument.manifest opf)).

End Vocabulary.

(* ===================================================================== *)
(** * The container ([ocf.ts]): loading and the package document *)
(* ===================================================================== *)

(** [generateUniqueURL()]; [uuid] is what [crypto.randomUUID()] returns. *)
Definition generateUniqueURL (uuid : string) : string :=
  "http://" ++ uuid ++ ".local".

(** The base class of [OCFZip], with its one field. *)
Module OCFAbstractContainer.
Record t := { container_root_url : string }.

Definition new (uuid : string) : t :=
  {| container_root_url := generateUniqueURL uuid |}.
End OCFAbstractContainer.

(** What [getPackageDocument] takes from the browser and from zip.js:
    [parseXML] is [DOMParser.parseFromString(_, 'application/xml')], giving
    the document element, and [readText] is the text a [TextWriter] delivers
    for the bytes of an entry. *)
Class ContainerHost := {
  parseXML : string -> Node;
  readText : string -> string
}.

(** The exceptions of [getPackageDocument] itself, one per [throw], and
    [ContainerTypeError] for the one of [new URL]. *)
Inductive ContainerError :=
  | MissingContainerXml
  | ContainerXmlIsDirectory
  | ContainerXmlMissingGetData
  | MissingRootfile
  | MissingFullPath
  | UnexpectedMediaType
  | MissingPackageDocument
  | PackageDocumentIsDirectory
  | PackageDocumentMissingGetData
  | ContainerTypeError.

(** A zip entry as [getEntries()] lists it: its file name and the entry. *)
Definition ZipEntry : Type := string * Entry.t.

(** [document.querySelector("local")] on a document with the document
    element [root]: the first element, [root] included, whose local name is
    [local]. *)
Definition document_querySelector_type (root : Node) (local : string)
  : option Node :=
  head (filter (fun e => String.eqb (Dom.localName e) local)
               (root :: Dom.descendants root)).

Section Container.
Context `{host : Host} `{chost : ContainerHost}.

(** [OCFAbstractContainer.parseURL(url)], [None] when [new URL] throws. *)
Definition OCFAbstractContainer_parseURL (c : OCFAbstractContainer.t)
    (url : string) : option Url.t :=
  URL_new url (Some (OCFAbstractContainer.container_root_url c)).

(** The loop of [OCFZip.load()] over the entries of the archive: what it
    returns or throws, and [this.dirtree] as it leaves it. *)
Fixpoint OCFZip_load (c : OCFAbstractContainer.t) (entries : list ZipEntry)
    (ocf : OCFZip.t) : Res unit * OCFZip.t :=
  match entries with
  | [] => (Ok tt, ocf)
  | (filename, entry) :: entries' =>
      match OCFAbstractContainer_parseURL c filename with
      | None => (Throw TypeError, ocf)
      | Some url =>
          OCFZip_load c entries'
            {| OCFZip.dirtree :=
                 <[Url.pathname url := entry]> (OCFZip.dirtree ocf) |}
      end
  end.

(** [OCFZip.getPackageDocument()]: an exception of its own, or what the
    constructor of [PackageDocument] does with the package it has found. *)
Definition OCFZip_getPackageDocument (fuel : nat)
    (c : OCFAbstractContainer.t) (ocf : OCFZip.t)
  : ContainerError + Res PackageDocument.t :=
  match OCFZip.dirtree ocf !! "/META-INF/container.xml" with
  | None => inl MissingContainerXml
  | Some rootfile =>
  if Entry.directory rootfile then inl ContainerXmlIsDirectory else
  match Entry.getData rootfile with
  | None => inl ContainerXmlMissingGetData
  | Some container_bytes =>
  let containerDoc := parseXML (readText container_bytes) in
  match document_querySelector_type containerDoc "rootfile" with
  | None => inl MissingRootfile
  | Some rootfileElement =>
  match Js.nonempty (Dom.getAttribute rootfileElement "full-path") with
  | None => inl MissingFullPath
  | Some rootfileFullPath =>
  if negb (bool_decide (Dom.getAttribute rootfileElement "media-type"
                        = Some "application/oebps-package+xml"))
  then inl UnexpectedMediaType else
  match OCFAbstractContainer_parseURL c rootfileFullPath with
  | None => inl ContainerTypeError
  | Some resolvedRootFileURL =>
  match OCFZip.dirtree ocf !! Url.pathname resolvedRootFileURL with
  | None => inl MissingPackageDocument
  | Some packageDocument =>
  if Entry.directory packageDocument then inl PackageDocumentIsDirectory else
  match Entry.getData packageDocument with
  | None => inl PackageDocumentMissingGetData
  | Some package_bytes =>
      inr (PackageDocument_new fuel (parseXML (readText package_bytes)) ocf
             resolvedRootFileURL)
  end end end end end end end.

End Container.

(* ===================================================================== *)
(** * Resources ([resource.ts]): releasing an address *)
(* ===================================================================== *)

(** [CommonResource.clean()] on the object at address [r]: the address it
    hands to [URL.revokeObjectURL], if it has one.  The object itself is
    left as it is. *)
Definition clean (r : nat) : M (option string) :=
  fun st =>
    match store st !! r with
    | None => (Throw TypeError, st)
    | Some res => (Ok (Js.nonempty (Resource.object_url res)), st)
    end.

(* ===================================================================== *)
(** * Vocabulary of the further properties *)
(* ===================================================================== *)

Section ManifestVocabulary.
Context `{host : Host}.

(** The item [it] holds what [#processManifest] records for the element
    [el]: its attributes, and the path of its address inside the origin of
    the package. *)
Definition records (base_url package_origin : string) (el : Node)
    (it : PackageItem.t) : Prop :=
  Dom.getAttribute el "href" = Some (PackageItem.href it)
  /\ Dom.getAttribute el "media-type" = Some (PackageItem.mime it)
  /\ PackageItem.fallback it = Dom.getAttribute el "fallback"
  /\ PackageItem.overlay it = Dom.getAttribute el "media-overlay"
  /\ PackageItem.properties it = properties_of el
  /\ exists u, URL_new (PackageItem.href it) (Some base_url) = Some u
               /\ Url.origin u = package_origin
               /\ PackageItem.content_path it = Url.pathname u.
End ManifestVocabulary.

(** The entry [ref] holds what [#processSpine] records for the element
    [el], given the items of the manifest by id. *)
Definition refers (fuel : nat) (items_by_id : gmap string PackageItem.t)
    (el : Node) (ref : ItemRef.t) : Prop :=
  Dom.getAttribute el "idref" = Some (ItemRef.idref ref)
  /\ items_by_id !! ItemRef.idref ref = Some (ItemRef.item ref)
  /\ fallback_walk fuel items_by_id (Some (ItemRef.item ref)) = Some true
  /\ ItemRef.linear ref
     = (if bool_decide (Dom.getAttribute el "linear" = Some "no")
        then false else true)
  /\ ItemRef.properties ref = properties_of el.

(** An element with text that is not blank: [textContent?.trim()] is
    truthy. *)
Definition nonblank (el : Node) : bool :=
  Js.truthy (Js.trim (Dom.textContent el)).

(** The trimmed text of an element. *)
Definition trimmed_text (el : Node) : string := Js.trim (Dom.textContent el).

(** A field that stays [undefined] until something is pushed. *)
Definition optional_list {A} (l : list A) : option (list A) :=
  match l with [] => None | _ => Some l end.

(** The language a text run of [el] gets in a package of language [lang]. *)
Definition run_lang (lang : option string) (el : Node) : option string :=
  match Js.nonempty (Dom.getAttribute el "xml:lang") with
  | Some l => Some l
  | None => lang
  end.

(** The elements of a document with the document element [n], in document
    order. *)
Definition document_elements (n : Node) : list Node :=
  if Dom.is_element n then n :: Dom.descendants n else [].

(** The two tests at the head of the inner loop of [HTMLResource.create]
    that end in [continue]: the candidate has neither the attribute of the
    row nor [xlink:href], or it fails one of the filters of the row. *)
Definition row_skips (matcher : Matcher) (candidate : Node) : bool :=
  negb (is_Some_b (Js.nonempty (Dom.getAttribute candidate (attribute matcher)))
        || is_Some_b (Js.nonempty (Dom.getAttribute candidate "xlink:href")))
  || negb (passes (rels matcher) candidate "rel"
           && passes (names matcher) candidate "name"
           && passes (properties matcher) candidate "property"
           && passes (itemprops matcher) candidate "itemprop").

(** The state after [DOMParser.parseFromString] has been called on [text]
    and a new resource [r] has been made. *)
Definition parsed_and_stored (text : string) (r : Resource) (st : State)
  : State :=
  {| cached_resources := cached_resources st;
     promises := promises st;
     store := (store st ++ [r])%list;
     object_urls := object_urls st;
     trace := (trace st ++ [EvParse text])%list |}.

(** A character of a target written without anything special: no white
    space, no line terminator, no quote and no parenthesis or semicolon. *)
Definition target_char (c : ascii) : bool :=
  negb (Js.is_space c) && Js.is_dot c
  && negb (Ascii.eqb c "'"%char) && negb (Ascii.eqb c Js.dquote)
  && negb (Ascii.eqb c "("%char) && negb (Ascii.eqb c ")"%char)
  && negb (Ascii.eqb c ";"%char).

(** The three ways to quote a target: not at all, or between two single
    or two double quotes. *)
Definition quotes : list string :=
  [EmptyString; "'"; String Js.dquote EmptyString].

(* ===================================================================== *)
(** * More of the example publication *)
(* ===================================================================== *)

Module Fixture.
Import Toy Example.

(** The container of the example publication: its root address is
    [http://book.local]. *)
Definition container : OCFAbstractContainer.t :=
  OCFAbstractContainer.new "book".

Definition container_text : string := "<container/>".
Definition package_text : string := "<package/>".

Definition container_doc : Node :=
  Elem "container" [("version", "1.0")]
    [ Elem "rootfiles" []
        [ Elem "rootfile"
            [ ("full-path", "OEBPS/content.opf");
              ("media-type", "application/oebps-package+xml") ] [] ] ].

(** The texts the example XML parser knows, with their trees. *)
Definition parse_xml (text : string) : Node :=
  if String.eqb text container_text then container_doc
  else if String.eqb text package_text then package_doc
  else Elem "parsererror" [] [Text text].

#[export] Instance container_host : ContainerHost := {|
  parseXML := parse_xml;
  readText := fun bytes => bytes
|}.

(** The entries of the archive, with a draft of the package document that
    a later entry of the same name replaces. *)
Definition entries : list ZipEntry :=
  [ ("mimetype", file "application/epub+zip");
    ("META-INF/", {| Entry.directory := true; Entry.getData := None |});
    ("META-INF/container.xml", file container_text);
    ("OEBPS/content.opf", file "<draft/>");
    ("OEBPS/content.opf", file package_text);
    ("OEBPS/chapter1.xhtml", file chapter1_text) ].

Definition loaded : OCFZip.t :=
  snd (OCFZip_load container entries {| OCFZip.dirtree := ∅ |}).

(** The package document [getPackageDocument] returns for [loaded]; the
    one of the examples stands in when it does not. *)
Definition loaded_opf : PackageDocument.t :=
  match OCFZip_getPackageDocument 1 container loaded with
  | inr (Ok o) => o
  | _ => opf
  end.

(** A package document over another archive. *)
Definition with_ocf (o : PackageDocument.t) (ocf : OCFZip.t)
  : PackageDocument.t :=
  {| PackageDocument.base_url := PackageDocument.base_url o;
     PackageDocument.dir := PackageDocument.dir o;
     PackageDocument.id := PackageDocument.id o;
     PackageDocument.prefix := PackageDocument.prefix o;
     PackageDocument.lang := PackageDocument.lang o;
     PackageDocument.uid := PackageDocument.uid o;
     PackageDocument.primary_identifier := PackageDocument.primary_identifier o;
     PackageDocument.version := PackageDocument.version o;
     PackageDocument.nav_item := PackageDocument.nav_item o;
     PackageDocument.cover_item := PackageDocument.cover_item o;
     PackageDocument.toc_item := PackageDocument.toc_item o;
     PackageDocument.rendition := PackageDocument.rendition o;
     PackageDocument.metadata := PackageDocument.metadata o;
     PackageDocument.manifest := PackageDocument.manifest o;
     PackageDocument.spine := PackageDocument.spine o;
     PackageDocument.document := PackageDocument.document o;
     PackageDocument.ocf := ocf;
     PackageDocument.package_url := PackageDocument.package_url o |}.

(** The example publication in an archive that lacks the cover image. *)
Definition ocf_without_cover : OCFZip.t :=
  {| OCFZip.dirtree := delete "/OEBPS/cover.png" (OCFZip.dirtree ocf) |}.

Definition opf_without_cover : PackageDocument.t :=
  with_ocf opf ocf_without_cover.

(** The first chapter asked for in that archive, and awaited. *)
Definition chapter1_requested : State :=
  snd (getResource opf_without_cover "chapter1.xhtml" None initial_state).

Definition chapter1_failed : State :=
  snd (await_resource 1 opf_without_cover 0 chapter1_requested).


(** The cover image and the stylesheet [loop.css] asked for. *)
Definition cover_requested : State :=
  snd (getResource opf "cover.png" None initial_state).

Definition loop_requested : State :=
  snd (getResource opf "loop.css" None initial_state).

(** What the parser of the manifest has recorded for [manifest_el]. *)
Definition manifest_loop : ManifestLoop :=
  {| ml_items := PackageManifest.items (PackageDocument.manifest opf);
     ml_items_by_id :=
       PackageManifest.items_by_id (PackageDocument.manifest opf);
     ml_nav_item := PackageDocument.nav_item opf;
     ml_cover_item := PackageDocument.cover_item opf |}.

(** A manifest that uses the id [ch1] twice. *)
Definition twice_manifest_el : Node :=
  Elem "manifest" []
    [ item "ch1" "draft.xhtml" "application/xhtml+xml";
      item "style" "style.css" "text/css";
      item "ch1" "chapter1.xhtml" "application/xhtml+xml" ].

Definition twice_loop : ManifestLoop :=
  match processManifest "http://book.local/OEBPS/" "http://book.local"
          twice_manifest_el with
  | Ok ml => ml
  | _ => manifest_loop
  end.

(** An SVG content document. *)
Definition map_item : PackageItem.t :=
  {| PackageItem.fallback := None;
     PackageItem.href := "map.svg";
     PackageItem.mime := "image/svg+xml";
     PackageItem.overlay := None;
     PackageItem.properties := [];
     PackageItem.content_path := "/OEBPS/map.svg" |}.

(** A document without references: its [link] is no stylesheet, its
    [meta] has a property only and its [img] has no [src]. *)
Definition plain_text : string := "<plain/>".
Definition plain_doc : Node :=
  Elem "html" []
    [ Elem "head" []
        [ Elem "link" [("rel", "alternate"); ("href", "feed.xml")] [];
          Elem "meta" [("property", "og:image"); ("content", "cover.png")] [] ];
      Elem "body" []
        [ Elem "img" [("alt", "A white rabbit")] [];
          Elem "p" [] [Text "Down the rabbit hole"] ] ].

(** The host of the examples with a parser that knows [plain_text]. *)
Definition plain_host : Host := {|
  URL_new := new_URL;
  querySelector := fun _ _ => None;
  decode := fun bytes => bytes;
  parseFromString := fun text =>
    if String.eqb text plain_text then plain_doc else parse text;
  serializeToString := serialize;
  objectURL := fun n => "blob:http://reader.example/" ++ decimal n
|}.

(** The [img] and the [meta] of the two documents. *)
Definition cover_img : Node := Elem "img" [("src", "cover.png")] [].
Definition og_meta : Node :=
  Elem "meta" [("property", "og:image"); ("content", "cover.png")] [].

Definition chapter1_base : string := "http://book.local/OEBPS/chapter1.xhtml".

(** The spine of the example publication with a [toc] attribute that is
    the id of no item and the name of a method every object has. *)
Definition toc_spine_el : Node :=
  Elem "spine" [("toc", "toString")]
    [ Elem "itemref" [("idref", "ch1")] [];
      Elem "itemref" [("idref", "ch1"); ("linear", "no")] [] ].

(** The stylesheet of the example publication after a comment that names
    the file it refers to, and the publication with that text as its
    [style.css]. *)
Definition commented_text : string :=
  "/* fonts.css */ @import url(fonts.css); body { background: url(fonts.css); }".

Definition ocf_commented : OCFZip.t :=
  {| OCFZip.dirtree :=
       <["/OEBPS/style.css" := file commented_text]> (OCFZip.dirtree ocf) |}.

Definition opf_commented : PackageDocument.t := with_ocf opf ocf_commented.

(** A publication that keeps its stylesheets in a directory of their own:
    [css/style.css] has the text of [style.css] and lies beside
    [css/fonts.css]. *)
Definition css_dir_ocf : OCFZip.t :=
  {| OCFZip.dirtree :=
       list_to_map
         [ ("/OEBPS/chapter1.xhtml", file chapter1_text);
           ("/OEBPS/css/style.css", file style_text);
           ("/OEBPS/css/fonts.css", file fonts_text) ] |}.

Definition css_dir_doc : Node :=
  package_with
    (Elem "manifest" []
       [ item "ch1" "chapter1.xhtml" "application/xhtml+xml";
         item "style" "css/style.css" "text/css";
         item "fonts" "css/fonts.css" "text/css" ])
    spine_el.

Definition css_dir_opf : PackageDocument.t :=
  match PackageDocument_new 1 css_dir_doc css_dir_ocf package_url with
  | Ok o => o
  | _ => opf
  end.

(** The states [CSSResource.create] goes through on [css/deep.css]: after
    the lookup of the first loop, the [await] on its promise and [getURL()]
    on the resource, and after the same three steps of the second loop. *)
Definition deep_import_requested : State :=
  snd (getResource opf "fonts.css" (Some deep_base) initial_state).

Definition deep_import_resolved : State :=
  snd (await_resource 1 opf 0 deep_import_requested).

Definition deep_import_addressed : State :=
  snd (getURL 0 deep_import_resolved).

Definition deep_url_requested : State :=
  snd (getResource opf "fonts.css" None deep_import_addressed).

Definition deep_url_resolved : State :=
  snd (await_resource 1 opf 1 deep_url_requested).

Definition deep_url_addressed : State :=
  snd (getURL 1 deep_url_resolved).

End Fixture.

(* ===================================================================== *)
(** * Facts about strings *)
(* ===================================================================== *)

#[local] Arguments String.append !_ _ : simpl nomatch.

Lemma string_app_nil_r (s : string) : s ++ EmptyString = s.
Proof. induction s as [|c s IH]; simpl; [reflexivity | now rewrite IH]. Qed.

Lemma string_app_assoc (a b c : string) : (a ++ b) ++ c = a ++ b ++ c.
Proof. induction a as [|x a IH]; simpl; [reflexivity | now rewrite IH]. Qed.

Lemma rev_acc_rev_acc x acc z :
  Js.rev_acc (Js.rev_acc x acc) z = Js.rev_acc acc (x ++ z).
Proof.
  revert acc z. induction x as [|c x IH]; intros acc z; simpl; [reflexivity|].
  now rewrite IH.
Qed.

Lemma rev_rev_acc x : Js.rev (Js.rev_acc x EmptyString) = x.
Proof.
  unfold Js.rev. rewrite rev_acc_rev_acc. simpl. apply string_app_nil_r.
Qed.

Lemma getSubstitution_plain template matched before after :
  no_dollar template = true ->
  Js.getSubstitution template matched before after = template.
Proof.
  unfold no_dollar. induction template as [|c t IH]; simpl; [reflexivity|].
  intros [Hc Ht]%andb_true_iff. apply negb_true_iff in Hc. rewrite Hc.
  now rewrite IH.
Qed.

Lemma find_first_skip pat x rest acc :
  no_start pat x rest ->
  Js.find_first pat (x ++ rest) acc
  = Js.find_first pat rest (Js.rev_acc x acc).
Proof.
  revert acc. induction x as [|c x IH]; intros acc; [reflexivity|].
  intros [Hc Hx]. cbn [append] in *. cbn [Js.find_first]. rewrite Hc.
  cbn [Js.rev_acc]. now apply IH.
Qed.

Lemma no_start_app pat x y rest :
  no_start pat x (y ++ rest) -> no_start pat y rest ->
  no_start pat (x ++ y) rest.
Proof.
  induction x as [|c x IH]; intros Hx Hy; [exact Hy|].
  destruct Hx as [Hc Hx]. cbn [append no_start]. split.
  - change (String c (x ++ y)) with (String c x ++ y).
    now rewrite string_app_assoc.
  - now apply IH.
Qed.

(** A text without the first character of [pat]. *)
Lemma no_start_lacks a pat x rest :
  lacks a x = true -> no_start (String a pat) x rest.
Proof.
  unfold lacks. induction x as [|c x IH]; simpl; [trivial|].
  intros [Hc Hx]%andb_true_iff. split; [|now apply IH].
  apply negb_true_iff in Hc. rewrite Ascii.eqb_sym in Hc. now rewrite Hc.
Qed.

Lemma strip_prefix_app_None pat s c rest :
  Js.strip_prefix pat s = None ->
  lacks c pat = true ->
  Js.strip_prefix pat (s ++ String c rest) = None.
Proof.
  unfold lacks.
  revert s. induction pat as [|a pat IH]; intros s; simpl; [discriminate|].
  intros Hs [Ha Hp]%andb_true_iff. destruct s as [|b s]; simpl.
  - apply negb_true_iff in Ha. now rewrite Ha.
  - destruct (Ascii.eqb a b); [now apply IH | reflexivity].
Qed.

Lemma find_first_None_acc pat s acc acc' :
  Js.find_first pat s acc = None -> Js.find_first pat s acc' = None.
Proof.
  revert acc acc'. induction s as [|c s IH]; intros acc acc'; simpl.
  - destruct (Js.strip_prefix pat EmptyString); [discriminate | reflexivity].
  - destruct (Js.strip_prefix pat (String c s)); [discriminate|].
    apply IH.
Qed.

(** A text in which [pat] does not occur, before a character that is not
    in [pat]. *)
Lemma no_start_absent pat x c rest :
  absent pat x -> lacks c pat = true -> no_start pat x (String c rest).
Proof.
  unfold absent. intros Habs Hc. induction x as [|b x IH]; [exact I|].
  cbn [Js.find_first] in Habs.
  destruct (Js.strip_prefix pat (String b x)) eqn:Hb; [discriminate|].
  split.
  - now apply strip_prefix_app_None.
  - apply IH. eapply find_first_None_acc. exact Habs.
Qed.

Lemma strip_prefix_app pat rest : Js.strip_prefix pat (pat ++ rest) = Some rest.
Proof.
  induction pat as [|a pat IH]; simpl; [reflexivity|].
  now rewrite Ascii.eqb_refl.
Qed.

Lemma find_first_unfold pat s before :
  Js.find_first pat s before
  = match Js.strip_prefix pat s with
    | Some rest => Some (Js.rev before, rest)
    | None =>
        match s with
        | String c s' => Js.find_first pat s' (String c before)
        | EmptyString => None
        end
    end.
Proof. destruct s; reflexivity. Qed.

Lemma find_first_here pat x rest :
  no_start pat x (pat ++ rest) ->
  Js.find_first pat (x ++ pat ++ rest) EmptyString = Some (x, rest).
Proof.
  intros Hx. rewrite find_first_skip by exact Hx.
  rewrite find_first_unfold, strip_prefix_app. now rewrite rev_rev_acc.
Qed.

(** The first occurrence of [pat] is the one [replace] rewrites. *)
Lemma replace_here pat x rest h :
  no_start pat x (pat ++ rest) -> no_dollar h = true ->
  Js.replace (x ++ pat ++ rest) pat h = x ++ h ++ rest.
Proof.
  intros Hx Hd. unfold Js.replace. rewrite find_first_here by exact Hx.
  now rewrite getSubstitution_plain.
Qed.

(** The two statements of the scenario in a context without [fonts.css];
    the replacement [h] neither contains [fonts.css] nor a dollar sign.
    Replacing twice puts [h] at both places. *)
Lemma replace_scenario before between after h :
  absent "fonts.css" before -> absent "fonts.css" between ->
  no_dollar h = true -> absent "fonts.css" h ->
  Js.replace
    (Js.replace (scenario_stylesheet before between after) "fonts.css" h)
    "fonts.css" h
  = scenario_rewritten h before between after.
Proof.
  intros Hbefore Hbetween Hd Hh.
  unfold scenario_stylesheet, scenario_rewritten.
  change "@import url(fonts.css);" with ("@import url(" ++ "fonts.css" ++ ");").
  change "background: url(fonts.css);"
    with ("background: url(" ++ "fonts.css" ++ ");").
  rewrite !string_app_assoc.
  rewrite <- (string_app_assoc before "@import url(").
  rewrite replace_here; [|
    apply no_start_app;
    [ now apply no_start_absent | now apply (no_start_lacks "f") ] | exact Hd ].
  rewrite !string_app_assoc.
  replace (before ++ "@import url(" ++ h ++ ");" ++ between
           ++ "background: url(" ++ "fonts.css" ++ ");" ++ after)
    with ((before ++ "@import url(" ++ h ++ ");" ++ between
           ++ "background: url(") ++ "fonts.css" ++ ");" ++ after)
    by now rewrite !string_app_assoc.
  rewrite replace_here; [now rewrite !string_app_assoc| |exact Hd].
  apply no_start_app; [now apply no_start_absent|].
  apply no_start_app; [now apply (no_start_lacks "f")|].
  apply no_start_app; [now apply no_start_absent|].
  apply no_start_app; [now apply (no_start_lacks "f")|].
  apply no_start_app; [now apply no_start_absent|].
  now apply (no_start_lacks "f").
Qed.

(* ===================================================================== *)
(** * Facts about the parser *)
(* ===================================================================== *)

Section ParserFacts.
Context `{host : Host}.

Lemma require_cases o e :
  (exists s, Js.nonempty o = Some s /\ require o e = Ok s)
  \/ (Js.nonempty o = None /\ require o e = Throw e).
Proof. unfold require. destruct (Js.nonempty o); eauto. Qed.

Lemma includes_In l s : Js.includes l s = true <-> In s l.
Proof.
  unfold Js.includes. rewrite existsb_exists. split.
  - intros (x & Hin & Heq). apply String.eqb_eq in Heq. now subst.
  - intros Hin. exists s. split; [assumption | apply String.eqb_refl].
Qed.

Lemma includes_not_In l s : Js.includes l s = false <-> ~ In s l.
Proof.
  rewrite <- includes_In. destruct (Js.includes l s); split; congruence.
Qed.

(** ** The loop combinator *)

Lemma for_each_throws {A S} (body : S -> A -> Res S) xs x :
  In x xs ->
  (forall s, throws (body s x)) ->
  (forall s y, body s y <> OutOfFuel /\ body s y <> Hang) ->
  forall s, throws (for_each body xs s).
Proof.
  intros Hin Hx Htotal. induction xs as [|y ys IH]; intros s; [destruct Hin|].
  simpl. destruct Hin as [->|Hin].
  - destruct (Hx s) as [e ->]. now exists e.
  - destruct (body s y) as [s'| e | |] eqn:Hb; simpl.
    + now apply IH.
    + now exists e.
    + now destruct (Htotal s y).
    + now destruct (Htotal s y).
Qed.

(** ** Manifest *)

Lemma processManifest_item_total base_url package_origin st item :
  processManifest_item base_url package_origin st item <> OutOfFuel
  /\ processManifest_item base_url package_origin st item <> Hang.
Proof.
  unfold processManifest_item, require, require_some.
  repeat (match goal with
          | |- context [match ?x with _ => _ end] => destruct x
          | |- context [if ?x then _ else _] => destruct x
          end; simpl); split; discriminate.
Qed.

Lemma processManifest_item_cross_origin base_url package_origin st item h u :
  Dom.getAttribute item "href" = Some h ->
  URL_new h (Some base_url) = Some u ->
  Url.origin u <> package_origin ->
  throws (processManifest_item base_url package_origin st item).
Proof.
  intros Hh Hu Ho. unfold processManifest_item, require. rewrite Hh.
  destruct (Js.nonempty (Some h)) as [h'|] eqn:Hne; simpl; [|now eexists].
  assert (h' = h) as ->.
  { unfold Js.nonempty in Hne. destruct (Js.truthy h); congruence. }
  destruct (Js.nonempty (Dom.getAttribute item "media-type")); simpl;
    [|now eexists].
  destruct (Js.nonempty (Dom.getAttribute item "id")); simpl; [|now eexists].
  rewrite Hu. simpl.
  destruct (String.eqb_spec (Url.origin u) package_origin); [contradiction|].
  simpl. now eexists.
Qed.

Lemma processManifest_cross_origin base_url package_origin manifest item h u :
  In item (Dom.getElementsByTagName manifest "item") ->
  Dom.getAttribute item "href" = Some h ->
  URL_new h (Some base_url) = Some u ->
  Url.origin u <> package_origin ->
  throws (processManifest base_url package_origin manifest).
Proof.
  intros Hin Hh Hu Ho. unfold processManifest.
  eapply for_each_throws; eauto.
  - intros s. eapply processManifest_item_cross_origin; eauto.
  - intros. apply processManifest_item_total.
Qed.

Lemma processMetadata_total lang metadata :
  processMetadata lang metadata <> OutOfFuel
  /\ processMetadata lang metadata <> Hang.
Proof.
  unfold processMetadata.
  destruct (Dom.getElementsByTagName metadata "dc:identifier");
  destruct (Dom.getElementsByTagName metadata "dc:title");
  destruct (Dom.getElementsByTagName metadata "dc:language");
  split; discriminate.
Qed.

(** A manifest with an item outside the origin of the package makes the
    constructor throw before it reaches the spine. *)
Lemma PackageDocument_head_cross_origin document package_url
    base manifest item h u :
  URL_new "." (Some (Url.href package_url)) = Some base ->
  Dom.querySelector_type document "manifest" = Some manifest ->
  In item (Dom.getElementsByTagName manifest "item") ->
  Dom.getAttribute item "href" = Some h ->
  URL_new h (Some (Url.href base)) = Some u ->
  Url.origin u <> Url.origin package_url ->
  throws (PackageDocument_head document package_url).
Proof.
  intros Hbase Hman Hin Hh Hu Ho. unfold PackageDocument_head.
  rewrite Hbase. simpl.
  destruct (negb _); [now eexists|].
  destruct (require_cases (Dom.getAttribute document "unique-identifier")
              MissingUniqueIdentifier) as [(uid & _ & ->)|[_ ->]];
    simpl; [|now eexists].
  unfold select_primary_identifier.
  destruct (css_plain uid); simpl.
  2: destruct (querySelector _ _) as [found|]; simpl; [|now eexists].
  all: match goal with
       | |- context [require_some ?o MissingPrimaryIdentifier] =>
           destruct o as [primary|]; simpl; [|now eexists]
       end.
  all: destruct (negb _); [now eexists|].
  all: destruct (require_cases (Dom.getAttribute document "version")
                   MissingVersion) as [(v & _ & ->)|[_ ->]];
         simpl; [|now eexists].
  all: destruct (Dom.querySelector_type document "metadata") as [md|]; simpl;
         [|now eexists].
  all: destruct (processMetadata _ md) as [[pm lang]|e| |] eqn:Hmd; simpl;
         [| now eexists
          | now apply processMetadata_total in Hmd
          | now apply processMetadata_total in Hmd].
  all: rewrite Hman; simpl.
  all: destruct (processManifest_cross_origin _ _ _ _ _ _ Hin Hh Hu Ho)
         as [e ->]; simpl; now eexists.
Qed.

Lemma PackageDocument_new_head_throws fuel document ocf package_url :
  throws (PackageDocument_head document package_url) ->
  throws (PackageDocument_new fuel document ocf package_url).
Proof.
  intros [e He]. unfold PackageDocument_new. rewrite He. now exists e.
Qed.

(** ** Spine *)

Lemma fallback_walk_dead_end items_by_id it :
  Spec.dead_end items_by_id it ->
  exists n, forall fuel, n <= fuel ->
    fallback_walk fuel items_by_id (Some it) = Some false.
Proof.
  induction 1 as [it Hm Hf | it f Hm Hf Hnone | it f it' Hm Hf Hsome _ [n IH]].
  - exists 1. intros [|fuel] Hle; [lia|]. cbn [fallback_walk].
    now rewrite Hm, Hf.
  - exists 2. intros [|[|fuel]] Hle; try lia. cbn [fallback_walk].
    now rewrite Hm, Hf, Hnone.
  - exists (S n). intros [|fuel] Hle; [lia|]. cbn [fallback_walk].
    rewrite Hm, Hf, Hsome. apply IH. lia.
Qed.

Lemma fallback_walk_cycle items_by_id a b fa fb :
  Js.includes CONTENT_DOCUMENT_MIMES (PackageItem.mime a) = false ->
  Js.includes CONTENT_DOCUMENT_MIMES (PackageItem.mime b) = false ->
  Js.nonempty (PackageItem.fallback a) = Some fa ->
  Js.nonempty (PackageItem.fallback b) = Some fb ->
  items_by_id !! fa = Some b ->
  items_by_id !! fb = Some a ->
  forall fuel, fallback_walk fuel items_by_id (Some a) = None.
Proof.
  intros Hma Hmb Hfa Hfb Hb Ha fuel.
  enough (fallback_walk fuel items_by_id (Some a) = None
          /\ fallback_walk fuel items_by_id (Some b) = None) by tauto.
  induction fuel as [|fuel [IHa IHb]]; [now split|].
  cbn [fallback_walk]. now rewrite Hma, Hmb, Hfa, Hfb, Hb, Ha.
Qed.

Lemma linear_value_flag itemref :
  (if bool_decide (Dom.getAttribute itemref "linear" = Some "no")
   then false else true) = Spec.linear_flag itemref.
Proof.
  unfold Spec.linear_flag.
  destruct (Dom.getAttribute itemref "linear") as [v|].
  - case_bool_decide as Hd.
    + injection Hd as ->. reflexivity.
    + destruct (String.eqb_spec v "no"); [congruence | reflexivity].
  - now case_bool_decide.
Qed.

(** A key the dictionary has been given reads as the item stored under
    it, and only such a key reads as an item. *)
Lemma items_by_id_get_own items_by_id key item :
  items_by_id !! key = Some item ->
  items_by_id_get items_by_id key = AnItem item.
Proof. intros H. unfold items_by_id_get. now rewrite H. Qed.

Lemma items_by_id_get_AnItem items_by_id key item :
  items_by_id_get items_by_id key = AnItem item ->
  items_by_id !! key = Some item.
Proof.
  unfold items_by_id_get. destruct (items_by_id !! key) as [it|].
  - now intros [= ->].
  - now destruct (match _ ≫= _ with Some b => b | None => _ end).
Qed.

Lemma processSpine_itemref_Ok fuel manifest st itemref st' :
  processSpine_itemref fuel manifest st itemref = Ok st' ->
  exists ref,
    sl_itemrefs st' = (sl_itemrefs st ++ [ref])%list
    /\ ItemRef.linear ref = Spec.linear_flag itemref
    /\ sl_has_linear st' = Spec.linear_flag itemref || sl_has_linear st.
Proof.
  unfold processSpine_itemref, require.
  destruct (Js.nonempty _) as [idref|]; simpl; [|discriminate].
  destruct (items_by_id_get _ idref) as [item| |]; simpl;
    [| destruct (fallback_walk _ _ None); discriminate | discriminate].
  destruct (fallback_walk _ _ _) as [[|]|]; try discriminate.
  rewrite linear_value_flag. intros [= <-]. simpl.
  eexists. split; [reflexivity|]. simpl.
  now destruct (Spec.linear_flag itemref).
Qed.

Lemma processSpine_loop_Ok fuel manifest itemrefs st st' :
  for_each (processSpine_itemref fuel manifest) itemrefs st = Ok st' ->
  map ItemRef.linear (sl_itemrefs st')
  = (map ItemRef.linear (sl_itemrefs st) ++ map Spec.linear_flag itemrefs)%list
  /\ sl_has_linear st' = existsb Spec.linear_flag itemrefs || sl_has_linear st.
Proof.
  revert st. induction itemrefs as [|x xs IH]; intros st; simpl.
  - intros [= <-]. now rewrite app_nil_r.
  - destruct (processSpine_itemref fuel manifest st x) as [s1| | |] eqn:Hx;
      simpl; try discriminate.
    intros Hrest. apply IH in Hrest as [-> ->].
    apply processSpine_itemref_Ok in Hx as (ref & -> & Hl & ->).
    rewrite map_app. simpl. rewrite Hl, <- app_assoc. simpl.
    split; [reflexivity|].
    destruct (Spec.linear_flag x), (existsb Spec.linear_flag xs);
      reflexivity.
Qed.

(** The spine the parser returns carries, in order, the flag the
    specification gives each [itemref] element, and one flag is true. *)
Lemma processSpine_linear fuel manifest spine sp toc :
  processSpine fuel manifest spine = Ok (sp, toc) ->
  map ItemRef.linear (PackageSpine.itemrefs sp)
  = map Spec.linear_flag (Dom.getElementsByTagName spine "itemref")
  /\ existsb Spec.linear_flag (Dom.getElementsByTagName spine "itemref")
     = true.
Proof.
  unfold processSpine.
  destruct (match Js.nonempty (Dom.getAttribute spine "toc") with
            | Some _ => _ | None => _ end) as [t| | |]; simpl;
    try discriminate.
  destruct (Dom.getElementsByTagName spine "itemref") as [|x xs] eqn:Hels;
    [discriminate|].
  destruct (for_each _ _ _) as [st| | |] eqn:Hloop; simpl; try discriminate.
  apply processSpine_loop_Ok in Hloop as [Hmap Hhas]. simpl in Hmap.
  destruct (sl_has_linear st) eqn:Hl; simpl; [|discriminate].
  intros [= <- _]. simpl. split; [assumption|].
  cbn [sl_has_linear] in Hhas. rewrite orb_false_r in Hhas.
  symmetry. exact Hhas.
Qed.

(** Without a linear [itemref] the spine is never accepted. *)
Lemma processSpine_no_linear fuel manifest spine :
  Forall (fun el => Spec.linear_flag el = false)
         (Dom.getElementsByTagName spine "itemref") ->
  forall r, processSpine fuel manifest spine <> Ok r.
Proof.
  intros Hall [sp toc] Hok. apply processSpine_linear in Hok as [_ Hex].
  apply existsb_exists in Hex as (x & Hin & Hx).
  rewrite List.Forall_forall in Hall. rewrite (Hall x Hin) in Hx.
  discriminate.
Qed.

Lemma processSpine_loop_valid fuel manifest itemrefs st :
  Forall (valid_itemref fuel manifest) itemrefs ->
  exists st', for_each (processSpine_itemref fuel manifest) itemrefs st
              = Ok st'.
Proof.
  intros Hall. revert st. induction Hall as [|x xs Hx _ IH]; intros st.
  - now exists st.
  - destruct Hx as (idref & item & Hid & Hitem & Hwalk). simpl.
    unfold processSpine_itemref at 1. unfold require.
    rewrite Hid. simpl. rewrite (items_by_id_get_own _ _ _ Hitem).
    rewrite Hwalk. simpl. apply IH.
Qed.

(** A spine of otherwise valid entries, none of them linear, is rejected
    for the lack of a linear entry, or before that for its [toc]. *)
Lemma processSpine_valid_no_linear fuel manifest spine :
  Forall (valid_itemref fuel manifest)
         (Dom.getElementsByTagName spine "itemref") ->
  Forall (fun el => Spec.linear_flag el = false)
         (Dom.getElementsByTagName spine "itemref") ->
  processSpine fuel manifest spine = Throw MissingLinearItemref
  \/ processSpine fuel manifest spine = Throw InvalidTocAttribute
  \/ processSpine fuel manifest spine = Throw MissingItemrefs.
Proof.
  intros Hvalid Hno. pose proof (processSpine_no_linear fuel manifest spine Hno)
    as Hnok.
  unfold processSpine in *.
  destruct (Js.nonempty (Dom.getAttribute spine "toc")) as [toc|].
  1: destruct (items_by_id_get _ toc); simpl; [| |now right; left].
  all: simpl in *.
  all: destruct (Dom.getElementsByTagName spine "itemref") as [|x xs] eqn:Hels;
         [now right; right|].
  all: edestruct (processSpine_loop_valid fuel manifest (x :: xs)) as [st' Hst];
         [eassumption|].
  all: rewrite Hst in *; simpl in *.
  all: destruct (sl_has_linear st'); simpl in *; [|now left].
  all: exfalso; eapply Hnok; reflexivity.
Qed.

(** The scenario of the specification: an entry of a binary type without
    fallback. *)
Lemma processSpine_itemref_no_content manifest st itemref idref item :
  Js.nonempty (Dom.getAttribute itemref "idref") = Some idref ->
  PackageManifest.items_by_id manifest !! idref = Some item ->
  Spec.dead_end (PackageManifest.items_by_id manifest) item ->
  exists n, forall fuel, n <= fuel ->
    processSpine_itemref fuel manifest st itemref
    = Throw (ItemrefNoContentDocument idref).
Proof.
  intros Hid Hitem Hdead.
  destruct (fallback_walk_dead_end _ _ Hdead) as [n Hn].
  exists n. intros fuel' Hle. unfold processSpine_itemref, require.
  rewrite Hid. simpl. rewrite (items_by_id_get_own _ _ _ Hitem).
  now rewrite (Hn fuel' Hle).
Qed.

Lemma processSpine_OutOfFuel fuel manifest spine x xs idref item :
  Js.nonempty (Dom.getAttribute spine "toc") = None ->
  Dom.getElementsByTagName spine "itemref" = x :: xs ->
  Js.nonempty (Dom.getAttribute x "idref") = Some idref ->
  PackageManifest.items_by_id manifest !! idref = Some item ->
  fallback_walk fuel (PackageManifest.items_by_id manifest) (Some item)
  = None ->
  processSpine fuel manifest spine = OutOfFuel.
Proof.
  intros Htoc Hels Hid Hitem Hwalk. unfold processSpine.
  rewrite Htoc, Hels. simpl.
  unfold processSpine_itemref at 1. unfold require.
  rewrite Hid. simpl. rewrite (items_by_id_get_own _ _ _ Hitem).
  now rewrite Hwalk.
Qed.

Lemma PackageDocument_new_OutOfFuel fuel document ocf package_url head spine :
  PackageDocument_head document package_url = Ok head ->
  Dom.querySelector_type document "spine" = Some spine ->
  processSpine fuel (ch_manifest head) spine = OutOfFuel ->
  PackageDocument_new fuel document ocf package_url = OutOfFuel.
Proof.
  intros Hh Hs Hp. unfold PackageDocument_new. rewrite Hh. simpl.
  rewrite Hs. simpl. now rewrite Hp.
Qed.

(** Without a linear [itemref] in its spine element a document is never
    accepted. *)
Lemma PackageDocument_new_no_linear fuel document ocf package_url spine :
  Dom.querySelector_type document "spine" = Some spine ->
  Forall (fun el => Spec.linear_flag el = false)
         (Dom.getElementsByTagName spine "itemref") ->
  forall r, PackageDocument_new fuel document ocf package_url <> Ok r.
Proof.
  intros Hs Hno r. unfold PackageDocument_new.
  destruct (PackageDocument_head document package_url) as [head| | |];
    simpl; try discriminate.
  rewrite Hs. simpl.
  destruct (processSpine fuel (ch_manifest head) spine) as [[sp toc]| | |]
    eqn:Hp; simpl; try discriminate.
  now apply processSpine_no_linear in Hp.
Qed.

(** A document whose spine holds otherwise valid entries, none of them
    linear, makes the constructor throw. *)
Lemma PackageDocument_new_valid_no_linear fuel document ocf package_url
    head spine :
  PackageDocument_head document package_url = Ok head ->
  Dom.querySelector_type document "spine" = Some spine ->
  Forall (valid_itemref fuel (ch_manifest head))
         (Dom.getElementsByTagName spine "itemref") ->
  Forall (fun el => Spec.linear_flag el = false)
         (Dom.getElementsByTagName spine "itemref") ->
  throws (PackageDocument_new fuel document ocf package_url).
Proof.
  intros Hh Hs Hvalid Hno. unfold PackageDocument_new.
  rewrite Hh. simpl. rewrite Hs. simpl.
  destruct (processSpine_valid_no_linear fuel (ch_manifest head) spine
              Hvalid Hno) as [-> | [-> | ->]]; simpl; now eexists.
Qed.

(** The unique-identifier check comes before everything the constructor
    does with the children of the document element. *)
Lemma PackageDocument_head_missing_uid document package_url base :
  URL_new "." (Some (Url.href package_url)) = Some base ->
  Dom.tagName document = "package" ->
  Js.nonempty (Dom.getAttribute document "unique-identifier") = None ->
  PackageDocument_head document package_url = Throw MissingUniqueIdentifier.
Proof.
  intros Hbase Htag Huid. unfold PackageDocument_head.
  rewrite Hbase, Htag. simpl. unfold require. now rewrite Huid.
Qed.

(** ** Rendition hints *)

Lemma meta_with_spec property e :
  (String.eqb (Dom.localName e) "meta"
   && bool_decide (Dom.getAttribute e "property" = Some property)) = true
  <-> Spec.meta_with property e.
Proof.
  unfold Spec.meta_with. rewrite andb_true_iff, String.eqb_eq.
  now rewrite bool_decide_eq_true.
Qed.

Lemma filter_none {A} (p : A -> bool) l :
  Forall (fun x => p x = false) l -> filter p l = [].
Proof.
  induction 1 as [|x xs Hx _ IH]; [reflexivity|].
  cbn. rewrite Hx. exact IH.
Qed.

Lemma head_filter_first {A} (p : A -> bool) before x after :
  Forall (fun y => p y = false) before -> p x = true ->
  head (filter p (before ++ x :: after)%list) = Some x.
Proof.
  intros Hb Hx. induction Hb as [|y ys Hy _ IH]; cbn.
  - now rewrite Hx.
  - now rewrite Hy.
Qed.

Lemma not_meta_with property e :
  ~ Spec.meta_with property e ->
  (String.eqb (Dom.localName e) "meta"
   && bool_decide (Dom.getAttribute e "property" = Some property)) = false.
Proof.
  intros Hn. apply not_true_is_false. intros H. apply Hn.
  now apply meta_with_spec.
Qed.

Lemma querySelector_no_meta metadata property :
  Forall (fun e => ~ Spec.meta_with property e) (Dom.descendants metadata) ->
  Dom.querySelector_type_attr metadata "meta" "property" property = None.
Proof.
  intros Hall. unfold Dom.querySelector_type_attr.
  rewrite filter_none; [reflexivity|].
  eapply List.Forall_impl; [|exact Hall]. intros e. apply not_meta_with.
Qed.

Lemma querySelector_first_meta metadata property m :
  Spec.first_meta metadata property m ->
  Dom.querySelector_type_attr metadata "meta" "property" property = Some m.
Proof.
  intros (before & after & Hd & Hb & Hm).
  unfold Dom.querySelector_type_attr. rewrite Hd.
  apply head_filter_first.
  - eapply List.Forall_impl; [|exact Hb]. intros e. apply not_meta_with.
  - now apply meta_with_spec.
Qed.

(** An override of [#processRendition] follows the rule of the
    specification, for an enumeration without the empty string. *)
Lemma rendition_override_rule metadata property values default_value :
  ~ In EmptyString values ->
  Spec.hint_rule metadata property values default_value
    (rendition_override metadata property values default_value).
Proof.
  intros Hne. unfold Spec.hint_rule, rendition_override. repeat split.
  - intros Hnone. now rewrite querySelector_no_meta.
  - intros m Hfirst Hin. rewrite (querySelector_first_meta _ _ _ Hfirst).
    apply includes_In in Hin as Hinc. rewrite Hinc.
    destruct (Js.trim (Dom.textContent m)); [contradiction | reflexivity].
  - intros m Hfirst Hnin. rewrite (querySelector_first_meta _ _ _ Hfirst).
    apply includes_not_In in Hnin as ->. now rewrite andb_false_r.
Qed.

(** The walk leaves its loop with [is_valid] false only on a chain that
    ends without a content document. *)
Lemma fallback_walk_false_dead_end fuel items_by_id it :
  fallback_walk fuel items_by_id (Some it) = Some false ->
  Spec.dead_end items_by_id it.
Proof.
  revert it. induction fuel as [|fuel IH]; intros it; [discriminate|].
  cbn [fallback_walk].
  destruct (Js.includes CONTENT_DOCUMENT_MIMES (PackageItem.mime it)) eqn:Hm;
    [discriminate|].
  destruct (Js.nonempty (PackageItem.fallback it)) as [f|] eqn:Hf.
  - destruct (items_by_id !! f) as [it'|] eqn:Hnext.
    + intros Hw. eapply Spec.dead_end_next; eauto.
    + intros _. eapply Spec.dead_end_dangling; eauto.
  - intros _. now apply Spec.dead_end_last.
Qed.

(** The first [itemref] of a spine on a chain that ends without a content
    document: with enough steps for the walk, the spine is rejected for
    it. *)
Lemma processSpine_first_no_content manifest spine x xs idref item :
  Js.nonempty (Dom.getAttribute spine "toc") = None ->
  Dom.getElementsByTagName spine "itemref" = x :: xs ->
  Js.nonempty (Dom.getAttribute x "idref") = Some idref ->
  PackageManifest.items_by_id manifest !! idref = Some item ->
  Spec.dead_end (PackageManifest.items_by_id manifest) item ->
  exists n, forall fuel, n <= fuel ->
    processSpine fuel manifest spine = Throw (ItemrefNoContentDocument idref).
Proof.
  intros Htoc Hels Hid Hitem Hdead.
  destruct (processSpine_itemref_no_content manifest
              {| sl_has_linear := false; sl_itemrefs := [] |}
              x idref item Hid Hitem Hdead) as [n Hn].
  exists n. intros fuel Hle. unfold processSpine. rewrite Htoc, Hels.
  cbn [Res_bind for_each]. now rewrite (Hn fuel Hle).
Qed.

(** The same for the constructor. *)
Lemma PackageDocument_new_first_no_content document ocf package_url head
    spine x xs idref item :
  PackageDocument_head document package_url = Ok head ->
  Dom.querySelector_type document "spine" = Some spine ->
  Js.nonempty (Dom.getAttribute spine "toc") = None ->
  Dom.getElementsByTagName spine "itemref" = x :: xs ->
  Js.nonempty (Dom.getAttribute x "idref") = Some idref ->
  PackageManifest.items_by_id (ch_manifest head) !! idref = Some item ->
  Spec.dead_end (PackageManifest.items_by_id (ch_manifest head)) item ->
  exists n, forall fuel, n <= fuel ->
    PackageDocument_new fuel document ocf package_url
    = Throw (ItemrefNoContentDocument idref).
Proof.
  intros Hh Hs Htoc Hels Hid Hitem Hdead.
  destruct (processSpine_first_no_content _ _ _ _ _ _ Htoc Hels Hid Hitem
              Hdead) as [n Hn].
  exists n. intros fuel Hle. unfold PackageDocument_new.
  rewrite Hh. cbn [Res_bind]. rewrite Hs. cbn [Res_bind require_some].
  now rewrite (Hn fuel Hle).
Qed.

End ParserFacts.


(* ===================================================================== *)
(** * Facts about the resolver *)
(* ===================================================================== *)

(** ** Induction on trees *)

Lemma Node_ind' (P : Node -> Prop) :
  (forall d, P (Text d)) ->
  (forall t a cs, Forall P cs -> P (Elem t a cs)) ->
  forall n, P n.
Proof.
  intros Htext Helem.
  fix IH 1. intros [t a cs | d]; [|apply Htext].
  apply Helem. induction cs as [|c cs IHcs]; constructor.
  - apply IH.
  - exact IHcs.
Qed.

(** ** States only grow *)

Lemma later_refl st : later st st.
Proof. repeat split; auto. Qed.

Lemma later_trans st1 st2 st3 : later st1 st2 -> later st2 st3 -> later st1 st3.
Proof.
  intros (Hc1 & Hp1 & Hs1 & Hv1) (Hc2 & Hp2 & Hs2 & Hv2).
  split; [etrans; eassumption|]. split; [lia|]. split; [lia|]. eauto.
Qed.

(** Settling a promise that was not settled leads to a later state. *)
Lemma later_set_promise st st1 p v w :
  later st st1 ->
  promises st !! p = Some w -> ~ settled w ->
  later st (snd (set_promise p v st1)).
Proof.
  intros (Hc & Hp & Hs & Hv) Hw Hn. unfold later, set_promise.
  cbn [snd promises cached_resources store].
  split; [exact Hc|]. split; [now rewrite length_insert|].
  split; [exact Hs|]. intros q x Hq Hx.
  rewrite list_lookup_insert_ne; [now apply Hv|].
  intros <-. rewrite Hw in Hq. injection Hq as <-. contradiction.
Qed.

Lemma bind_Ok {A B} (m : M A) (k : A -> M B) st a st' :
  m st = (Ok a, st') -> bind m k st = k a st'.
Proof. intros H. unfold bind. now rewrite H. Qed.

Lemma grows_ret {A} (a : A) : grows (ret a).
Proof. intros st r st' [= <- <-]. apply later_refl. Qed.

Lemma grows_lift {A} (x : Res A) : grows (lift x).
Proof. intros st r st' [= <- <-]. apply later_refl. Qed.

Lemma grows_bind {A B} (m : M A) (k : A -> M B) :
  grows m -> (forall a, grows (k a)) -> grows (bind m k).
Proof.
  intros Hm Hk st r st'. unfold bind.
  destruct (m st) as [[a|e| |] st1] eqn:Hmst; intros H.
  - eapply later_trans; [eapply Hm | eapply Hk]; eassumption.
  - injection H as <- <-. eapply Hm; eassumption.
  - injection H as <- <-. eapply Hm; eassumption.
  - injection H as <- <-. eapply Hm; eassumption.
Qed.

Lemma grows_emit e : grows (emit e).
Proof. intros st r st' [= <- <-]. repeat split; simpl; auto. Qed.

Lemma grows_new_resource r : grows (new_resource r).
Proof.
  intros st x st' [= <- <-]. repeat split; simpl; auto.
  rewrite length_app. lia.
Qed.

Lemma grows_for_eachM {A S} (body : S -> A -> M S) xs :
  (forall s x, grows (body s x)) -> forall s, grows (for_eachM body xs s).
Proof.
  intros Hb. induction xs as [|x xs IH]; intros s; simpl.
  - apply grows_ret.
  - apply grows_bind; [apply Hb | intros; apply IH].
Qed.

Lemma grows_map_elements {S} sel (f : S -> Node -> M (Node * S)) :
  (forall s n, grows (f s n)) ->
  forall n s, grows (map_elements sel f n s).
Proof.
  intros Hf. induction n as [d | t a cs IH] using Node_ind'; intros s.
  - apply grows_ret.
  - cbn [map_elements]. apply grows_bind.
    { destruct (sel _); [apply Hf | apply grows_ret]. }
    intros [n' s1]. apply grows_bind.
    2: { intros [cs' s2]. apply grows_ret. }
    clear n'. revert s1. induction IH as [|c cs Hc _ IHcs]; intros s1.
    + apply grows_ret.
    + apply grows_bind; [apply Hc|]. intros [c' s'].
      apply grows_bind; [apply IHcs|]. intros [cs0 s'']. apply grows_ret.
Qed.

Section ResolverFacts.
Context `{host : Host}.

Lemma grows_getURL r : grows (getURL r).
Proof.
  intros st x st'. unfold getURL.
  destruct (store st !! r) as [res|]; [|intros [= <- <-]; apply later_refl].
  destruct (Js.nonempty _); [intros [= <- <-]; apply later_refl|].
  destruct (getBlob res) as [b res']. intros [= <- <-].
  repeat split; simpl; auto. now rewrite length_insert.
Qed.

Lemma grows_getResource opf url base : grows (getResource opf url base).
Proof.
  intros st x st'. unfold getResource.
  destruct (URL_new _ _) as [u|]; [|intros [= <- <-]; apply later_refl].
  destruct (negb _); [intros [= <- <-]; apply later_refl|].
  destruct (cached_resources st !! Url.pathname u) eqn:Hc;
    [intros [= <- <-]; apply later_refl|].
  destruct (find_item _ _ _) as [[item|]| | |];
    try (intros [= <- <-]; apply later_refl).
  simpl. intros [= <- <-]. repeat split; simpl.
  - now apply insert_subseteq.
  - rewrite length_app. lia.
  - lia.
  - intros q v Hq _. now apply lookup_app_l_Some.
Qed.

Section WithAwait.
Variable await_ : nat -> M nat.
Variable opf : PackageDocument.t.
Hypothesis grows_await : forall p, grows (await_ p).

Lemma grows_rewrite_reference base_url base_origin name value candidate rs :
  grows (rewrite_reference await_ opf base_url base_origin name value
           candidate rs).
Proof.
  unfold rewrite_reference. apply grows_bind; [apply grows_lift|].
  intros u. destruct (negb _); [apply grows_ret|].
  apply grows_bind; [apply grows_getResource|]. intros p.
  apply grows_bind; [apply grows_await|]. intros item.
  apply grows_bind; [apply grows_getURL|]. intros h. apply grows_ret.
Qed.

Lemma grows_process_candidate base_url base_origin matcher rs candidate :
  grows (process_candidate await_ opf base_url base_origin matcher rs
           candidate).
Proof.
  unfold process_candidate.
  destruct (negb (is_Some_b _ || _)); [apply grows_ret|].
  destruct (negb (passes _ _ _ && _ && _ && _)); [apply grows_ret|].
  apply grows_bind.
  { destruct (Js.nonempty (Dom.getAttribute candidate (attribute matcher)));
      [apply grows_rewrite_reference | apply grows_ret]. }
  intros [[c' rs']|]; [|apply grows_ret].
  destruct (Js.nonempty (Dom.getAttribute candidate "xlink:href"));
    [|apply grows_ret].
  apply grows_bind; [apply grows_rewrite_reference|].
  intros second. apply grows_ret.
Qed.

Lemma grows_HTMLResource_create content base_url :
  grows (HTMLResource_create await_ opf content base_url).
Proof.
  unfold HTMLResource_create.
  apply grows_bind; [apply grows_emit|]. intros _.
  apply grows_bind; [apply grows_lift|]. intros base.
  apply grows_bind.
  - apply grows_for_eachM. intros [doc rs] matcher.
    apply grows_map_elements. intros. apply grows_process_candidate.
  - intros [doc' rs]. apply grows_new_resource.
Qed.

Lemma grows_rewrite_css base_url base_origin b st candidate :
  grows (rewrite_css await_ opf base_url base_origin b st candidate).
Proof.
  unfold rewrite_css. destruct st as [content rs].
  apply grows_bind; [apply grows_lift|].
  intros u. destruct (negb _); [apply grows_ret|].
  apply grows_bind; [apply grows_getResource|]. intros p.
  apply grows_bind; [apply grows_await|]. intros item.
  apply grows_bind; [apply grows_getURL|]. intros h. apply grows_ret.
Qed.

Lemma grows_CSSResource_create content base_url :
  grows (CSSResource_create await_ opf content base_url).
Proof.
  unfold CSSResource_create.
  apply grows_bind; [apply grows_lift|]. intros base.
  apply grows_bind.
  { apply grows_for_eachM. intros. apply grows_rewrite_css. }
  intros st1. apply grows_bind.
  { apply grows_for_eachM. intros. apply grows_rewrite_css. }
  intros [c rs]. apply grows_new_resource.
Qed.

Lemma grows_createResourceFromItem_resume item bytes base_url :
  grows (createResourceFromItem_resume await_ opf item bytes base_url).
Proof.
  unfold createResourceFromItem_resume.
  destruct (Js.includes _ _); [apply grows_HTMLResource_create|].
  destruct (Js.includes _ _); [apply grows_CSSResource_create|].
  apply grows_new_resource.
Qed.

End WithAwait.

Lemma grows_await_resource fuel opf p : grows (await_resource fuel opf p).
Proof.
  revert p. induction fuel as [|fuel IH]; intros p st r st'.
  - simpl. destruct (promises st !! p) as [[| | |]|];
      intros [= <- <-]; apply later_refl.
  - simpl. destruct (promises st !! p) as [[item bytes base_url| | |]|] eqn:Hp;
      try (intros [= <- <-]; apply later_refl).
    rewrite (bind_Ok _ _ st tt (snd (set_promise p Running st)))
      by reflexivity.
    destruct (createResourceFromItem_resume _ _ _ _ _ _) as [res st1]
      eqn:Hbody.
    assert (later st st1) as Hl.
    { eapply later_trans.
      - eapply later_set_promise; [apply later_refl | exact Hp | auto].
      - eapply grows_createResourceFromItem_resume; [exact IH | exact Hbody]. }
    destruct res; intros [= <- <-]; try exact Hl.
    + eapply later_set_promise; [exact Hl | exact Hp | auto].
    + eapply later_set_promise; [exact Hl | exact Hp | auto].
Qed.

(** ** Awaiting *)

Lemma await_resource_settled fuel opf p r st :
  promises st !! p = Some (Fulfilled r) ->
  await_resource fuel opf p st = (Ok r, st).
Proof. intros H. destruct fuel; simpl; now rewrite H. Qed.

Lemma await_resource_Ok fuel opf p r st st' :
  await_resource fuel opf p st = (Ok r, st') ->
  promises st' !! p = Some (Fulfilled r).
Proof.
  destruct fuel as [|fuel]; simpl.
  - destruct (promises st !! p) as [[| | |]|] eqn:Hp; intros [= <- <-];
      exact Hp.
  - destruct (promises st !! p) as [[item bytes base_url| | |]|] eqn:Hp;
      try (intros [= <- <-]; exact Hp); try discriminate.
    rewrite (bind_Ok _ _ st tt (snd (set_promise p Running st)))
      by reflexivity.
    destruct (createResourceFromItem_resume _ _ _ _ _ _) as [res st1]
      eqn:Hbody.
    assert (later (snd (set_promise p Running st)) st1) as (_ & Hlen & _).
    { eapply grows_createResourceFromItem_resume; [|exact Hbody].
      intros q. apply grows_await_resource. }
    destruct res; intros [= <- <-]. simpl in *.
    apply list_lookup_insert_eq. apply lookup_lt_Some in Hp.
    rewrite length_insert in Hlen. lia.
Qed.

(** ** [getResource] *)

Section GetResource.
Variable opf : PackageDocument.t.

Lemma getResource_hit url base u st p :
  resolved opf url base u -> same_origin opf u ->
  cached_resources st !! Url.pathname u = Some p ->
  getResource opf url base st = (Ok p, st).
Proof.
  unfold resolved, same_origin, getResource. intros -> -> Hc.
  now rewrite String.eqb_refl, Hc.
Qed.

Lemma getResource_Ok url base u st p st' :
  resolved opf url base u ->
  getResource opf url base st = (Ok p, st') ->
  same_origin opf u
  /\ cached_resources st' !! Url.pathname u = Some p
  /\ match cached_resources st !! Url.pathname u with
     | Some q => q = p /\ st' = st
     | None =>
         p = length (promises st)
         /\ length (promises st') = S (length (promises st))
         /\ store st' = store st
         /\ exists item,
              find_item (PackageDocument.base_url opf) (Url.href u)
                (PackageManifest.items (PackageDocument.manifest opf))
              = Ok (Some item)
              /\ trace st'
                 = (trace st ++ [EvRead (PackageItem.content_path item)])%list
     end.
Proof.
  unfold resolved, same_origin, getResource. intros ->.
  destruct (String.eqb_spec (Url.origin u)
              (Url.origin (PackageDocument.package_url opf))) as [Ho|Ho];
    simpl; [|discriminate].
  destruct (cached_resources st !! Url.pathname u) as [q|] eqn:Hc.
  - intros [= <- <-]. now rewrite Hc.
  - destruct (find_item _ _ _) as [[item|]| | |]; try discriminate.
    simpl. intros [= <- <-]. simpl. rewrite lookup_insert_eq.
    split; [assumption|]. split; [reflexivity|]. split; [reflexivity|].
    split; [rewrite length_app; simpl; lia|]. split; [reflexivity|].
    now exists item.
Qed.

Lemma getResource_miss url base u st p st' :
  resolved opf url base u ->
  cached_resources st !! Url.pathname u = None ->
  getResource opf url base st = (Ok p, st') ->
  cached_resources st' = <[Url.pathname u := p]> (cached_resources st).
Proof.
  unfold resolved, getResource. intros -> Hc. rewrite Hc.
  destruct (negb _); [discriminate|].
  destruct (find_item _ _ _) as [[item|]| | |]; try discriminate.
  simpl. now intros [= <- <-].
Qed.

Lemma find_item_None base_url href items :
  Forall (fun item => exists u,
            URL_new (PackageItem.href item) (Some base_url) = Some u
            /\ Url.href u <> href) items ->
  find_item base_url href items = Ok None.
Proof.
  induction 1 as [|item items (u & Hu & Hne) _ IH]; simpl; [reflexivity|].
  rewrite Hu. destruct (String.eqb_spec href (Url.href u)); [congruence|].
  exact IH.
Qed.

Lemma getResource_not_found url base u st :
  resolved opf url base u -> same_origin opf u ->
  cached_resources st !! Url.pathname u = None ->
  unlisted opf (Url.href u) ->
  getResource opf url base st = (Throw (ResourceNotFound url), st).
Proof.
  unfold resolved, same_origin, unlisted, getResource. intros -> -> Hc Hall.
  rewrite String.eqb_refl, Hc. simpl. now rewrite find_item_None.
Qed.

End GetResource.

End ResolverFacts.

Section MoreResolverFacts.
Context `{host : Host}.

Lemma getURL_keeps r st x st' :
  getURL r st = (x, st') ->
  cached_resources st' = cached_resources st
  /\ promises st' = promises st
  /\ trace st' = trace st.
Proof.
  unfold getURL. destruct (store st !! r) as [res|]; [|now intros [= <- <-]].
  destruct (Js.nonempty _); [now intros [= <- <-]|].
  destruct (getBlob res). now intros [= <- <-].
Qed.

Lemma object_url_set res u :
  Resource.object_url (Resource.set_object_url res u) = Some u.
Proof. now destruct res. Qed.

(** The address [getURL] returns is the one it returns from then on. *)
Lemma getURL_memo r st h st' :
  getURL r st = (Ok h, st') -> Js.truthy h = true ->
  getURL r st' = (Ok h, st').
Proof.
  unfold getURL at 1. destruct (store st !! r) as [res|] eqn:Hr;
    [|discriminate].
  destruct (Js.nonempty (Resource.object_url res)) as [u|] eqn:Hu.
  - intros [= <- <-] _. unfold getURL. now rewrite Hr, Hu.
  - destruct (getBlob res) as [b res']. intros [= <- <-] Ht.
    unfold getURL. simpl.
    rewrite list_lookup_insert_eq by (eapply lookup_lt_Some; eassumption).
    rewrite object_url_set. simpl. now rewrite Ht.
Qed.

(** ** References outside the origin *)

Section InContent.
Variable await_ : nat -> M nat.
Variable opf : PackageDocument.t.

(** A reference outside the origin of the base leaves the loop of
    [CSSResource.create] through [continue]. *)
Lemma rewrite_css_external base_url base_origin b content rs candidate u st :
  URL_new candidate (Some base_url) = Some u ->
  Url.origin u <> base_origin ->
  rewrite_css await_ opf base_url base_origin b (content, rs) candidate st
  = (Ok (content, rs), st).
Proof.
  intros Hu Ho. unfold rewrite_css. rewrite Hu.
  rewrite (bind_Ok _ _ st u st) by reflexivity.
  destruct (String.eqb_spec (Url.origin u) base_origin); [contradiction|].
  reflexivity.
Qed.

Lemma rewrite_reference_external base_url base_origin name value candidate
    rs u st :
  URL_new value (Some base_url) = Some u ->
  Url.origin u <> base_origin ->
  rewrite_reference await_ opf base_url base_origin name value candidate rs st
  = (Ok None, st).
Proof.
  intros Hu Ho. unfold rewrite_reference. rewrite Hu.
  rewrite (bind_Ok _ _ st u st) by reflexivity.
  destruct (String.eqb_spec (Url.origin u) base_origin); [contradiction|].
  reflexivity.
Qed.

(** A candidate whose attribute points outside the origin of the base is
    left as it is, and nothing is resolved for it. *)
Lemma process_candidate_external_attr base_url base_origin matcher rs
    candidate a u st :
  Js.nonempty (Dom.getAttribute candidate (attribute matcher)) = Some a ->
  URL_new a (Some base_url) = Some u ->
  Url.origin u <> base_origin ->
  process_candidate await_ opf base_url base_origin matcher rs candidate st
  = (Ok (candidate, rs), st).
Proof.
  intros Ha Hu Ho. unfold process_candidate. rewrite Ha.
  cbn [is_Some_b orb negb].
  destruct (negb _); [reflexivity|].
  now rewrite (bind_Ok _ _ _ _ _
                 (rewrite_reference_external _ _ _ _ _ _ _ _ Hu Ho)).
Qed.

(** The same for [xlink:href], when the attribute of the matcher is absent
    or empty. *)
Lemma process_candidate_external_xlink base_url base_origin matcher rs
    candidate x u st :
  Js.nonempty (Dom.getAttribute candidate (attribute matcher)) = None ->
  Js.nonempty (Dom.getAttribute candidate "xlink:href") = Some x ->
  URL_new x (Some base_url) = Some u ->
  Url.origin u <> base_origin ->
  process_candidate await_ opf base_url base_origin matcher rs candidate st
  = (Ok (candidate, rs), st).
Proof.
  intros Ha Hx Hu Ho. unfold process_candidate. rewrite Ha, Hx.
  cbn [is_Some_b orb negb].
  destruct (negb _); [reflexivity|].
  rewrite (bind_Ok _ _ st (Some (candidate, rs)) st) by reflexivity.
  now rewrite (bind_Ok _ _ _ _ _
                 (rewrite_reference_external _ _ _ _ _ _ _ _ Hu Ho)).
Qed.

End InContent.

(** ** Blobs *)

Lemma getBlob_HTMLResource_first d rs u :
  getBlob (HTMLResource d rs None u)
  = ({| Blob.content := getSerialized d;
        Blob.type := "application/xhtml+xml" |},
     HTMLResource d rs
       (Some {| Blob.content := getSerialized d;
                Blob.type := "application/xhtml+xml" |}) u).
Proof. reflexivity. Qed.

Lemma getBlob_HTMLResource_again d rs b u f :
  getBlob (Resource.mutate_doc f (HTMLResource d rs (Some b) u))
  = (b, HTMLResource (f d) rs (Some b) u).
Proof. reflexivity. Qed.

End MoreResolverFacts.

(* ===================================================================== *)
(** * The claims of the specification *)
(* ===================================================================== *)

Section Claims.
Context `{host : Host}.

(** ** C1: single flight of [getResource] *)

(** C1, as amended.  When a call of [getResource] returns a promise [p] for
    an address with path [pathname u1], then: on a cache without an entry
    for that path it has created exactly one promise and asked for the
    bytes of exactly one item, and on a cache with an entry it has changed
    nothing; every call made in any later state for an address of the
    package's origin with the same path returns the same [p] and changes
    nothing; and once an [await] on [p] has delivered a resource, every
    [await] on [p] in any later state delivers the same resource and
    changes nothing, so the body of the resolution has run once. *)
Theorem C1_getResource_single_flight opf url1 base1 url2 base2 u1 u2
    st p st1 :
  resolved opf url1 base1 u1 ->
  resolved opf url2 base2 u2 ->
  Url.pathname u2 = Url.pathname u1 ->
  same_origin opf u2 ->
  getResource opf url1 base1 st = (Ok p, st1) ->
  match cached_resources st !! Url.pathname u1 with
  | Some q => q = p /\ st1 = st
  | None =>
      p = length (promises st)
      /\ length (promises st1) = S (length (promises st))
      /\ exists item,
           trace st1
           = (trace st ++ [EvRead (PackageItem.content_path item)])%list
  end
  /\ (forall st2, later st1 st2 ->
        getResource opf url2 base2 st2 = (Ok p, st2))
  /\ (forall fuel r st2 st3,
        await_resource fuel opf p st2 = (Ok r, st3) ->
        forall st4 fuel', later st3 st4 ->
          await_resource fuel' opf p st4 = (Ok r, st4)).
Proof.
  intros H1 H2 Hpath Ho2 Hget.
  destruct (getResource_Ok _ _ _ _ _ _ _ H1 Hget) as (Ho1 & Hc1 & Hfirst).
  split; [|split].
  - destruct (cached_resources st !! Url.pathname u1); [exact Hfirst|].
    destruct Hfirst as (Hp & Hlen & _ & item & _ & Ht). eauto.
  - intros st2 (Hsub & _). eapply getResource_hit; eauto.
    rewrite Hpath. eapply lookup_weaken; eassumption.
  - intros fuel r st2 st3 Hawait st4 fuel' (_ & _ & _ & Hkeep).
    apply await_resource_settled. apply Hkeep; [|exact I].
    eapply await_resource_Ok; eassumption.
Qed.

(** ** C2: one reference, written twice in a stylesheet *)

(** Where the scenario of C2 goes as the specification says.
    [CSSResource.create] on a stylesheet that contains
    [@import url(fonts.css);] and, separately, [background: url(fonts.css);]
    and no other reference ([fonts.css] occurs nowhere else before the
    second statement, no other [@import] and no other [url(...)] is found),
    from a cache without an entry for the path of [fonts.css]: the first
    lookup creates one promise and asks for the bytes of one item; when that
    promise delivers the resource [r] and [r.getURL()] is [h], the second
    lookup finds the entry of the first and changes nothing, and the
    resource created has both occurrences of [fonts.css] replaced by [h]
    and lists [r] twice.  [h] is an address as [URL.createObjectURL] makes
    them: not empty, without a dollar sign, and it does not contain
    [fonts.css]. *)
Lemma same_reference_twice fuel opf bytes before between after
    base_url base checked u st p st1 r st2 h st3 :
  decode bytes = scenario_stylesheet before between after ->
  absent "fonts.css" before -> absent "fonts.css" between ->
  filtered_imports (scenario_stylesheet before between after) = [] ->
  Regex.exec_all Regex.url_at (scenario_stylesheet before between after)
  = ["fonts.css"; "fonts.css"] ->
  URL_new base_url None = Some base ->
  URL_new "fonts.css" (Some base_url) = Some checked ->
  Url.origin checked = Url.origin base ->
  resolved opf "fonts.css" None u ->
  cached_resources st !! Url.pathname u = None ->
  getResource opf "fonts.css" None st = (Ok p, st1) ->
  await_resource fuel opf p st1 = (Ok r, st2) ->
  getURL r st2 = (Ok h, st3) ->
  Js.truthy h = true -> no_dollar h = true -> absent "fonts.css" h ->
  (length (promises st1) = S (length (promises st))
   /\ exists item,
        trace st1
        = (trace st ++ [EvRead (PackageItem.content_path item)])%list)
  /\ getResource opf "fonts.css" None st3 = (Ok p, st3)
  /\ CSSResource_create (await_resource fuel opf) opf bytes base_url st
     = new_resource
         (CSSResource (scenario_rewritten h before between after) [r; r] None)
         st3.
Proof.
  set (content := scenario_stylesheet before between after).
  intros Hdec Hbefore Hbetween Himports Hurls Hbase Hchk Horigin Hu
    Hcold Hget Hawait Hurl Ht Hd Habs.
  destruct (getResource_Ok opf "fonts.css" None u st p st1 Hu Hget)
    as (Ho & Hc1 & Hfirst).
  rewrite Hcold in Hfirst. destruct Hfirst as (_ & Hlen & _ & item & _ & Htr).
  destruct (getURL_keeps _ _ _ _ Hurl) as (Hc3 & Hp3 & _).
  assert (Hhit : getResource opf "fonts.css" None st3 = (Ok p, st3)).
  { eapply getResource_hit; [exact Hu | exact Ho |]. rewrite Hc3.
    eapply lookup_weaken; [exact Hc1|].
    eapply grows_await_resource. exact Hawait. }
  assert (Hsettled : await_resource fuel opf p st3 = (Ok r, st3)).
  { apply await_resource_settled. rewrite Hp3.
    eapply await_resource_Ok. exact Hawait. }
  split; [split; [exact Hlen | now exists item]|].
  split; [exact Hhit|].
  unfold CSSResource_create. rewrite Hdec, Hbase, Himports.
  cbn [lift require_some for_eachM].
  rewrite (bind_Ok _ _ st base st) by reflexivity.
  rewrite (bind_Ok _ _ st (content, []) st) by reflexivity.
  cbn [fst]. rewrite Hurls.
  cbn [for_eachM].
  assert (Hstep1 :
    rewrite_url (await_resource fuel opf) opf base_url (Url.origin base)
      (content, []) "fonts.css" st
    = (Ok (Js.replace content "fonts.css" h, [r]), st3)).
  { unfold rewrite_url, rewrite_css. rewrite Hchk. cbn [lift require_some].
    rewrite (bind_Ok _ _ st checked st) by reflexivity.
    rewrite Horigin, String.eqb_refl. cbn [negb].
    rewrite (bind_Ok _ _ _ _ _ Hget), (bind_Ok _ _ _ _ _ Hawait),
      (bind_Ok _ _ _ _ _ Hurl). reflexivity. }
  assert (Hstep2 :
    rewrite_url (await_resource fuel opf) opf base_url (Url.origin base)
      (Js.replace content "fonts.css" h, [r]) "fonts.css" st3
    = (Ok (scenario_rewritten h before between after, [r; r]), st3)).
  { unfold rewrite_url, rewrite_css. rewrite Hchk. cbn [lift require_some].
    rewrite (bind_Ok _ _ st3 checked st3) by reflexivity.
    rewrite Horigin, String.eqb_refl. cbn [negb].
    rewrite (bind_Ok _ _ _ _ _ Hhit), (bind_Ok _ _ _ _ _ Hsettled),
      (bind_Ok _ _ _ _ _ (getURL_memo _ _ _ _ Hurl Ht)).
    unfold ret, content. now rewrite replace_scenario. }
  rewrite (bind_Ok _ _ st (scenario_rewritten h before between after, [r; r])
             st3); [reflexivity|].
  rewrite (bind_Ok _ _ _ _ _ Hstep1), (bind_Ok _ _ _ _ _ Hstep2).
  reflexivity.
Qed.

(** ** C5: what [getBlob] returns *)

(** C5, as amended.  The first [getBlob()] of a markup resource serializes
    the tree as it is then and keeps the blob; every later call returns
    that blob, whatever has been done to the tree in between
    ([getSerialized] is what follows the tree).  A stylesheet resource
    gives its text as it is at the call, a binary resource the bytes it was
    made from. *)
Theorem C5_getBlob :
  (forall doc resources object_url,
     getBlob (HTMLResource doc resources None object_url)
     = ({| Blob.content := getSerialized doc;
           Blob.type := "application/xhtml+xml" |},
        HTMLResource doc resources
          (Some {| Blob.content := getSerialized doc;
                   Blob.type := "application/xhtml+xml" |}) object_url))
  /\ (forall doc resources blob object_url change,
        fst (getBlob (Resource.mutate_doc change
                        (HTMLResource doc resources (Some blob) object_url)))
        = blob)
  /\ (forall content resources object_url,
        fst (getBlob (CSSResource content resources object_url))
        = {| Blob.content := content; Blob.type := "text/css" |})
  /\ (forall bytes,
        fst (getBlob (BinaryResource_new bytes))
        = {| Blob.content := bytes; Blob.type := EmptyString |}).
Proof. repeat split. Qed.

(** ** C7: rendition hints *)

(** C7, as amended.  Layout, orientation, spread and flow start at
    reflowable, auto, auto and auto; each takes the trimmed text of the
    first [meta] element with its property when that text lies in the
    enumeration of the hint, and keeps the default when there is no such
    element or its text lies outside.  The page spread is center and
    [align_x_center] is false whatever the metadata holds. *)
Theorem C7_rendition_hints (metadata : Node) :
  let r := processRendition metadata in
  Spec.hint_rule metadata "rendition:layout" RENDITION_LAYOUT_VALUES
    "reflowable" (PackageRendition.layout r)
  /\ Spec.hint_rule metadata "rendition:orientation"
       RENDITION_ORIENTATION_VALUES "auto" (PackageRendition.orientation r)
  /\ Spec.hint_rule metadata "rendition:spread" RENDITION_SPREAD_VALUES
       "auto" (PackageRendition.spread r)
  /\ Spec.hint_rule metadata "rendition:flow" RENDITION_FLOW_VALUES
       "auto" (PackageRendition.flow r)
  /\ PackageRendition.page_spread r = "center"
  /\ PackageRendition.align_x_center r = false.
Proof.
  cbn [processRendition PackageRendition.layout PackageRendition.orientation
       PackageRendition.spread PackageRendition.flow
       PackageRendition.page_spread PackageRendition.align_x_center].
  repeat split; try apply rendition_override_rule;
    cbn; intuition discriminate.
Qed.

(** ** C8: the unique-identifier check comes first *)

(** C8.  A document element [package] without the attribute
    [unique-identifier] makes the constructor throw the error of the
    unique-identifier check, whatever its children are and for every bound
    on the fallback walks: the statements up to the manifest throw it
    themselves, before they look at any child. *)
Theorem C8_missing_unique_identifier fuel attributes childNodes ocf
    package_url base :
  URL_new "." (Some (Url.href package_url)) = Some base ->
  Dom.getAttribute (Elem "package" attributes childNodes) "unique-identifier"
  = None ->
  PackageDocument_head (Elem "package" attributes childNodes) package_url
  = Throw MissingUniqueIdentifier
  /\ PackageDocument_new fuel (Elem "package" attributes childNodes) ocf
       package_url
     = Throw MissingUniqueIdentifier.
Proof.
  intros Hbase Huid.
  assert (PackageDocument_head (Elem "package" attributes childNodes)
            package_url = Throw MissingUniqueIdentifier) as Hhead.
  { eapply PackageDocument_head_missing_uid; [exact Hbase | reflexivity |].
    now rewrite Huid. }
  split; [exact Hhead|]. unfold PackageDocument_new. now rewrite Hhead.
Qed.

(** ** C9: the cache goes by path, the manifest by address *)

(** C9.  Two addresses [u1] and [u2] of one origin with the same path.
    After a call for [u1] has returned the promise [p], the call for [u2]
    returns [p] and leaves the state as it is.  On a cache without an entry
    for the path, and when no item of the manifest has the absolute address
    of [u2], the same call throws the not-found error. *)
Theorem C9_cache_by_path_lookup_by_href opf url1 base1 url2 base2 u1 u2 st :
  resolved opf url1 base1 u1 ->
  resolved opf url2 base2 u2 ->
  Url.pathname u2 = Url.pathname u1 ->
  Url.origin u2 = Url.origin u1 ->
  (forall p st1, getResource opf url1 base1 st = (Ok p, st1) ->
     getResource opf url2 base2 st1 = (Ok p, st1))
  /\ (same_origin opf u2 ->
      cached_resources st !! Url.pathname u2 = None ->
      unlisted opf (Url.href u2) ->
      getResource opf url2 base2 st = (Throw (ResourceNotFound url2), st)).
Proof.
  intros H1 H2 Hpath Ho. split.
  - intros p st1 Hget.
    destruct (getResource_Ok _ _ _ _ _ _ _ H1 Hget) as (Ho1 & Hc1 & _).
    eapply getResource_hit; eauto.
    + unfold same_origin in *. congruence.
    + now rewrite Hpath.
  - intros Ho2 Hc Hall. now apply getResource_not_found with (u := u2).
Qed.

(** ** C10: the two passes over a stylesheet *)

(** C10, as amended.  [CSSResource.create] on a stylesheet with one
    [@import] that is not written as [url(...)], of the reference [c], and,
    once that is rewritten, one [url(...)], of the same [c].  Both loops
    test the origin [c] has against the base of the stylesheet, and when it
    is not the origin of that base neither of them looks anything up.  When
    it is, the first loop hands [getResource] the base of the stylesheet
    and the second hands it none: the resource created holds what these two
    lookups led to, the request of the first is filed under the path [c]
    has against the base of the stylesheet, and the request of the second
    under the path [c] has against the base of the package.  Where the two
    paths are equal the second loop gets the promise and the resource of
    the first, and its lookup and its [await] change nothing; where they
    differ, and the cache has the path of neither when it is asked, the
    second loop gets another promise, and each loop has the archive read
    the item of its own address. *)
Theorem C10_bases_of_the_two_passes fuel opf bytes base_url base c ui st :
  URL_new base_url None = Some base ->
  URL_new c (Some base_url) = Some ui ->
  filtered_imports (decode bytes) = [c] ->
  (Url.origin ui <> Url.origin base ->
   Regex.exec_all Regex.url_at (decode bytes) = [c] ->
   CSSResource_create (await_resource fuel opf) opf bytes base_url st
   = new_resource (CSSResource (decode bytes) [] None) st)
  /\ (Url.origin ui = Url.origin base ->
      forall uu p st1 r st2 h st3 q st4 r' st5 h' st6,
        resolved opf c None uu ->
        getResource opf c (Some base_url) st = (Ok p, st1) ->
        await_resource fuel opf p st1 = (Ok r, st2) ->
        getURL r st2 = (Ok h, st3) ->
        Regex.exec_all Regex.url_at (Js.replace (decode bytes) c h) = [c] ->
        getResource opf c None st3 = (Ok q, st4) ->
        await_resource fuel opf q st4 = (Ok r', st5) ->
        getURL r' st5 = (Ok h', st6) ->
        CSSResource_create (await_resource fuel opf) opf bytes base_url st
        = new_resource
            (CSSResource
               (Js.replace (Js.replace (decode bytes) c h) c h')
               [r; r'] None) st6
        /\ cached_resources st1 !! Url.pathname ui = Some p
        /\ cached_resources st4 !! Url.pathname uu = Some q
        /\ (Url.pathname ui = Url.pathname uu ->
            q = p /\ st4 = st3 /\ r' = r /\ st5 = st3)
        /\ (Url.pathname ui <> Url.pathname uu ->
            cached_resources st !! Url.pathname ui = None ->
            cached_resources st3 !! Url.pathname uu = None ->
            q <> p
            /\ exists item item',
                 find_item (PackageDocument.base_url opf) (Url.href ui)
                   (PackageManifest.items (PackageDocument.manifest opf))
                 = Ok (Some item)
                 /\ trace st1
                    = (trace st
                       ++ [EvRead (PackageItem.content_path item)])%list
                 /\ find_item (PackageDocument.base_url opf) (Url.href uu)
                      (PackageManifest.items (PackageDocument.manifest opf))
                    = Ok (Some item')
                 /\ trace st4
                    = (trace st3
                       ++ [EvRead (PackageItem.content_path item')])%list)).
Proof.
  intros Hbase Hui Himports.
  assert (Hskip : forall b content rs s,
            Url.origin ui <> Url.origin base ->
            rewrite_css (await_resource fuel opf) opf base_url
              (Url.origin base) b (content, rs) c s
            = (Ok (content, rs), s)).
  { intros b content rs s Hne. unfold rewrite_css. rewrite Hui.
    cbn [lift require_some].
    rewrite (bind_Ok _ _ s ui s) by reflexivity.
    destruct (String.eqb_spec (Url.origin ui) (Url.origin base));
      [contradiction | reflexivity]. }
  assert (Hstep : forall b content rs s x s1 y s2 z s3,
            Url.origin ui = Url.origin base ->
            getResource opf c b s = (Ok x, s1) ->
            await_resource fuel opf x s1 = (Ok y, s2) ->
            getURL y s2 = (Ok z, s3) ->
            rewrite_css (await_resource fuel opf) opf base_url
              (Url.origin base) b (content, rs) c s
            = (Ok (Js.replace content c z, (rs ++ [y])%list), s3)).
  { intros b content rs s x s1 y s2 z s3 Ho Hg Ha Hz.
    unfold rewrite_css. rewrite Hui. cbn [lift require_some].
    rewrite (bind_Ok _ _ s ui s) by reflexivity.
    rewrite Ho, String.eqb_refl. cbn [negb].
    now rewrite (bind_Ok _ _ _ _ _ Hg), (bind_Ok _ _ _ _ _ Ha),
      (bind_Ok _ _ _ _ _ Hz). }
  split.
  - intros Hne Hurls. unfold CSSResource_create.
    rewrite Hbase, Himports. cbn [lift require_some for_eachM].
    rewrite (bind_Ok _ _ st base st) by reflexivity.
    rewrite (bind_Ok _ _ st (decode bytes, []) st).
    2: { unfold rewrite_import.
         now rewrite (bind_Ok _ _ _ _ _ (Hskip _ _ _ _ Hne)). }
    cbn [fst]. rewrite Hurls. cbn [for_eachM].
    rewrite (bind_Ok _ _ st (decode bytes, []) st); [reflexivity|].
    unfold rewrite_url.
    now rewrite (bind_Ok _ _ _ _ _ (Hskip _ _ _ _ Hne)).
  - intros Ho uu p st1 r st2 h st3 q st4 r' st5 h' st6
      Huu Hget1 Hawait1 Hurl1 Hurls Hget2 Hawait2 Hurl2.
    assert (Hres : resolved opf c (Some base_url) ui) by exact Hui.
    destruct (getResource_Ok opf c (Some base_url) ui st p st1 Hres Hget1)
      as (_ & Hc1 & Hfirst).
    destruct (getResource_Ok opf c None uu st3 q st4 Huu Hget2)
      as (Hso & Hc4 & Hsecond).
    destruct (getURL_keeps _ _ _ _ Hurl1) as (Hc3 & Hp3 & _).
    split; [|split; [exact Hc1 | split; [exact Hc4 | split]]].
    + unfold CSSResource_create.
      rewrite Hbase, Himports. cbn [lift require_some for_eachM].
      rewrite (bind_Ok _ _ st base st) by reflexivity.
      rewrite (bind_Ok _ _ st (Js.replace (decode bytes) c h, [r]) st3).
      2: { unfold rewrite_import.
           now rewrite (bind_Ok _ _ _ _ _
                          (Hstep _ _ _ _ _ _ _ _ _ _ Ho Hget1 Hawait1 Hurl1)). }
      cbn [fst]. rewrite Hurls. cbn [for_eachM].
      rewrite (bind_Ok _ _ st3
                 (Js.replace (Js.replace (decode bytes) c h) c h', [r; r'])
                 st6); [reflexivity|].
      unfold rewrite_url.
      now rewrite (bind_Ok _ _ _ _ _
                     (Hstep _ _ _ _ _ _ _ _ _ _ Ho Hget2 Hawait2 Hurl2)).
    + intros Hpath.
      assert (Hc3p : cached_resources st3 !! Url.pathname uu = Some p).
      { rewrite <- Hpath, Hc3. eapply lookup_weaken; [exact Hc1|].
        eapply grows_await_resource. exact Hawait1. }
      rewrite Hc3p in Hsecond. destruct Hsecond as [<- ->].
      split; [reflexivity|]. split; [reflexivity|].
      assert (Hsettled : await_resource fuel opf p st3 = (Ok r, st3)).
      { apply await_resource_settled. rewrite Hp3.
        eapply await_resource_Ok. exact Hawait1. }
      rewrite Hsettled in Hawait2. now injection Hawait2 as -> ->.
    + intros Hpath Hcold1 Hcold2.
      rewrite Hcold1 in Hfirst.
      destruct Hfirst as (-> & Hlen1 & _ & item & Hitem & Htr1).
      rewrite Hcold2 in Hsecond.
      destruct Hsecond as (-> & _ & _ & item' & Hitem' & Htr4).
      split; [|now exists item, item'].
      destruct (grows_await_resource _ _ _ _ _ _ Hawait1) as (_ & Hlen2 & _).
      rewrite <- Hp3 in Hlen2. lia.
Qed.

End Claims.

(* ===================================================================== *)
(** * The claims on the example publication *)
(* ===================================================================== *)

Section Concrete.
Import Toy Example.

(** The constructor accepts the example publication. *)
Example opf_constructed :
  PackageDocument_new 1 package_doc ocf package_url = Ok opf.
Proof. vm_compute. reflexivity. Qed.

(** ** C1 *)

(** C1, witness of the amended statement: [fonts.css] and then
    [fonts.css#top] on the example publication. *)
Lemma C1_witness :
  resolved opf "fonts.css" None fonts_url
  /\ (exists u2, resolved opf "fonts.css#top" None u2
                 /\ Url.pathname u2 = Url.pathname fonts_url
                 /\ same_origin opf u2)
  /\ getResource opf "fonts.css" None initial_state = (Ok 0, fonts_requested)
  /\ length (promises fonts_requested) = 1
  /\ trace fonts_requested = [EvRead "/OEBPS/fonts.css"]
  /\ getResource opf "fonts.css#top" None fonts_requested
     = (Ok 0, fonts_requested).
Proof.
  assert (H1 : resolved opf "fonts.css" None fonts_url) by reflexivity.
  assert (H2 : resolved opf "fonts.css#top" None
                 {| Url.href := "http://book.local/OEBPS/fonts.css#top";
                    Url.origin := "http://book.local";
                    Url.pathname := "/OEBPS/fonts.css" |}) by reflexivity.
  assert (Hget : getResource opf "fonts.css" None initial_state
                 = (Ok 0, fonts_requested)) by reflexivity.
  pose proof (C1_getResource_single_flight opf "fonts.css" None
                "fonts.css#top" None _ _ initial_state 0 fonts_requested
                H1 H2 eq_refl eq_refl Hget) as (_ & Hlater & _).
  split; [exact H1|]. split; [eexists; split; [exact H2 | split; reflexivity]|].
  split; [exact Hget|]. split; [reflexivity|]. split; [reflexivity|].
  apply Hlater. apply later_refl.
Defined.

(** C1, counterexample to the statement as given: [missing.css] resolves
    to a path in the origin of the package, and both calls throw the
    not-found error, return nothing and start no resolution. *)
Lemma C1_counterexample :
  (exists u, resolved opf "missing.css" None u /\ same_origin opf u)
  /\ getResource opf "missing.css" None initial_state
     = (Throw (ResourceNotFound "missing.css"), initial_state)
  /\ ~ (exists p st1 st2,
          getResource opf "missing.css" None initial_state = (Ok p, st1)
          /\ getResource opf "missing.css" None st1 = (Ok p, st2)
          /\ length (promises st2) = 1).
Proof.
  split; [eexists; split; reflexivity|].
  assert (getResource opf "missing.css" None initial_state
          = (Throw (ResourceNotFound "missing.css"), initial_state)) as H
    by reflexivity.
  split; [exact H|]. intros (p & st1 & st2 & Hget & _). congruence.
Qed.

(** ** C2 *)

(** C2, evaluated on a failing input: the example publication with a
    [style.css] that names [fonts.css] in a comment ahead of the two
    statements.  The first loop has nothing to do, the second finds the
    reference twice and has the archive read [fonts.css] once; its first
    replacement lands in the comment and its second in the [@import]
    statement, and [background: url(fonts.css)] comes out as it was. *)
Theorem C2_comment_rewritten_reference_left :
  let run := (let! p := getResource Fixture.opf_commented "style.css" None in
              await_resource 2 Fixture.opf_commented p) initial_state in
  filtered_imports Fixture.commented_text = []
  /\ Regex.exec_all Regex.url_at Fixture.commented_text
     = ["fonts.css"; "fonts.css"]
  /\ fst run = Ok 1
  /\ store (snd run) !! 1
     = Some (CSSResource
               "/* blob:http://reader.example/0 */ @import url(blob:http://reader.example/0); body { background: url(fonts.css); }"
               [0; 0] None)
  /\ trace (snd run) = [EvRead "/OEBPS/style.css"; EvRead "/OEBPS/fonts.css"].
Proof. vm_compute. repeat split; reflexivity. Qed.

(** The lookups of the second loop go by the base of the package: where
    [style.css] lies in a directory [css], beside [css/fonts.css], its
    [fonts.css] is looked up as [/OEBPS/fonts.css], which the manifest does
    not list, and the resolution of the stylesheet fails. *)
Example stylesheet_beside_its_import :
  let run :=
    (let! p := getResource Fixture.css_dir_opf "css/style.css" None in
     await_resource 2 Fixture.css_dir_opf p) initial_state in
  PackageDocument_new 1 Fixture.css_dir_doc Fixture.css_dir_ocf package_url
  = Ok Fixture.css_dir_opf
  /\ fst run = Throw (ResourceNotFound "fonts.css")
  /\ trace (snd run) = [EvRead "/OEBPS/css/style.css"].
Proof. vm_compute. repeat split; reflexivity. Qed.

(** The stylesheet [style.css] of the example publication is one of those
    on which the scenario goes as the specification says: the two
    statements with [ body { ] between them and [ }] after them. *)
Example same_reference_twice_in_style_css :
  decode style_text = scenario_stylesheet EmptyString " body { " " }"
  /\ absent "fonts.css" EmptyString
  /\ absent "fonts.css" " body { "
  /\ filtered_imports (scenario_stylesheet EmptyString " body { " " }") = []
  /\ Regex.exec_all Regex.url_at
       (scenario_stylesheet EmptyString " body { " " }")
     = ["fonts.css"; "fonts.css"]
  /\ (exists base checked,
        URL_new style_base None = Some base
        /\ URL_new "fonts.css" (Some style_base) = Some checked
        /\ Url.origin checked = Url.origin base)
  /\ resolved opf "fonts.css" None fonts_url
  /\ cached_resources initial_state !! Url.pathname fonts_url = None
  /\ getResource opf "fonts.css" None initial_state = (Ok 0, fonts_requested)
  /\ await_resource 1 opf 0 fonts_requested = (Ok 0, fonts_resolved)
  /\ getURL 0 fonts_resolved
     = (Ok "blob:http://reader.example/0", fonts_addressed)
  /\ Js.truthy "blob:http://reader.example/0" = true
  /\ no_dollar "blob:http://reader.example/0" = true
  /\ absent "fonts.css" "blob:http://reader.example/0"
  /\ CSSResource_create (await_resource 1 opf) opf style_text style_base
       initial_state
     = new_resource
         (CSSResource
            "@import url(blob:http://reader.example/0); body { background: url(blob:http://reader.example/0); }"
            [0; 0] None) fonts_addressed.
Proof.
  assert (Hbase : URL_new style_base None
                  = Some {| Url.href := style_base;
                            Url.origin := "http://book.local";
                            Url.pathname := "/OEBPS/style.css" |})
    by reflexivity.
  assert (Hchk : URL_new "fonts.css" (Some style_base) = Some fonts_url)
    by reflexivity.
  assert (Hu : resolved opf "fonts.css" None fonts_url) by reflexivity.
  assert (Hget : getResource opf "fonts.css" None initial_state
                 = (Ok 0, fonts_requested)) by reflexivity.
  assert (Hawait : await_resource 1 opf 0 fonts_requested
                   = (Ok 0, fonts_resolved)) by reflexivity.
  assert (Hurl : getURL 0 fonts_resolved
                 = (Ok "blob:http://reader.example/0", fonts_addressed))
    by reflexivity.
  pose proof (same_reference_twice 1 opf style_text
                EmptyString " body { " " }" style_base _ _ _
                initial_state 0 _ 0 _ _ _
                eq_refl eq_refl eq_refl eq_refl eq_refl
                Hbase Hchk eq_refl Hu eq_refl Hget Hawait Hurl
                eq_refl eq_refl eq_refl) as (_ & _ & Hcreate).
  split; [reflexivity|]. split; [reflexivity|]. split; [reflexivity|].
  split; [reflexivity|]. split; [reflexivity|].
  split; [eexists _, _; repeat split; eassumption|].
  split; [exact Hu|]. split; [reflexivity|]. split; [exact Hget|].
  split; [exact Hawait|]. split; [exact Hurl|].
  split; [reflexivity|]. split; [reflexivity|]. split; [reflexivity|].
  exact Hcreate.
Qed.

(** ** C3 *)

(** C3, evaluated on a failing input: the only [itemref] of [cyclic_doc]
    names an item of a binary type whose fallback is an item of a binary
    type whose fallback is the first.  The walk never reaches a content
    document and never leaves its loop: for every bound on its steps the
    constructor has neither thrown nor returned. *)
Theorem C3_cyclic_fallback_never_returns :
  Js.includes CONTENT_DOCUMENT_MIMES (PackageItem.mime cyclic_a) = false
  /\ Js.includes CONTENT_DOCUMENT_MIMES (PackageItem.mime cyclic_b) = false
  /\ forall fuel,
       PackageDocument_new fuel cyclic_doc ocf package_url = OutOfFuel.
Proof.
  split; [reflexivity|]. split; [reflexivity|]. intros fuel.
  destruct (PackageDocument_head cyclic_doc package_url)
    as [head| | |] eqn:Hhead;
    try (vm_compute in Hhead; discriminate).
  assert (Ha : PackageManifest.items_by_id (ch_manifest head) !! "a"
               = Some cyclic_a)
    by (vm_compute in Hhead; injection Hhead as <-; vm_compute; reflexivity).
  assert (Hb : PackageManifest.items_by_id (ch_manifest head) !! "b"
               = Some cyclic_b)
    by (vm_compute in Hhead; injection Hhead as <-; vm_compute; reflexivity).
  eapply PackageDocument_new_OutOfFuel; [exact Hhead | reflexivity |].
  eapply processSpine_OutOfFuel with (idref := "a");
    [reflexivity | reflexivity | reflexivity | exact Ha |].
  now apply (fallback_walk_cycle _ cyclic_a cyclic_b "b" "a").
Qed.

(** The scenario of C3 holds: a spine entry of a binary type without
    fallback makes the constructor throw the error of the fallback walk. *)
Example octet_stream_rejected fuel :
  PackageDocument_new (S fuel) octet_doc ocf package_url
  = Throw (ItemrefNoContentDocument "bin").
Proof.
  unfold PackageDocument_new.
  destruct (PackageDocument_head octet_doc package_url)
    as [head| | |] eqn:Hhead;
    try (vm_compute in Hhead; discriminate).
  vm_compute in Hhead. injection Hhead as <-.
  reflexivity.
Qed.

(** ** C4 *)

(** C4, evaluated on a failing input: in [mixed.css] the first reference
    lies outside the origin and is skipped, the second is [a.css]; the
    replacement made for the second lands inside the first, which comes out
    rewritten, and the second comes out as it was. *)
Theorem C4_external_reference_rewritten :
  let run := (let! p := getResource opf "mixed.css" None in
              await_resource 2 opf p) initial_state in
  Regex.exec_all Regex.url_at mixed_text
  = ["http://evil.example/a.css"; "a.css"]
  /\ fst run = Ok 1
  /\ store (snd run) !! 1
     = Some (CSSResource
               "a{background:url(http://evil.example/blob:http://reader.example/0)}b{background:url(a.css)}"
               [0] None).
Proof. vm_compute. repeat split; reflexivity. Qed.

(** The part of C4 on the manifest holds on the example. *)
Example foreign_item_rejected fuel :
  PackageDocument_new fuel foreign_doc ocf package_url = Throw OriginMismatch.
Proof.
  unfold PackageDocument_new.
  replace (PackageDocument_head foreign_doc package_url)
    with (@Throw ConstructorHead OriginMismatch)
    by (vm_compute; reflexivity).
  reflexivity.
Qed.

(** ** C5 *)

(** C5, counterexample to the statement as given: after a first
    [getBlob()] the tree gets an attribute; the second [getBlob()] returns
    the blob of the first call, which is not the serialization of the tree
    as it is now. *)
Lemma C5_counterexample :
  let r1 := snd (getBlob chapter1_resource) in
  let r2 := Resource.mutate_doc add_lang r1 in
  fst (getBlob r2) = fst (getBlob chapter1_resource)
  /\ Blob.content (fst (getBlob r2)) <> getSerialized (add_lang chapter1_doc).
Proof. split; [reflexivity | vm_compute; discriminate]. Qed.

(** ** C6 *)

(** C6, evaluated on a failing input: the only [itemref] of
    [cyclic_nonlinear_doc] has [linear] set to [no] and names an item on a
    cycle of fallbacks between items of a binary type.  No entry is linear,
    and for every bound on the steps of the walk the constructor has
    neither thrown nor returned.  The defect is the one of C3. *)
Theorem C6_cyclic_fallback_no_linear_never_returns :
  Forall (fun el => Spec.linear_flag el = false)
         (Dom.getElementsByTagName
            (Elem "spine" []
               [Elem "itemref" [("idref", "b"); ("linear", "no")] []])
            "itemref")
  /\ forall fuel,
       PackageDocument_new fuel cyclic_nonlinear_doc ocf package_url
       = OutOfFuel.
Proof.
  split; [repeat constructor|]. intros fuel.
  destruct (PackageDocument_head cyclic_nonlinear_doc package_url)
    as [head| | |] eqn:Hhead;
    try (vm_compute in Hhead; discriminate).
  assert (Ha : PackageManifest.items_by_id (ch_manifest head) !! "a"
               = Some cyclic_a)
    by (vm_compute in Hhead; injection Hhead as <-; vm_compute; reflexivity).
  assert (Hb : PackageManifest.items_by_id (ch_manifest head) !! "b"
               = Some cyclic_b)
    by (vm_compute in Hhead; injection Hhead as <-; vm_compute; reflexivity).
  eapply PackageDocument_new_OutOfFuel; [exact Hhead | reflexivity |].
  eapply processSpine_OutOfFuel with (idref := "b");
    [reflexivity | reflexivity | reflexivity | exact Hb |].
  now apply (fallback_walk_cycle _ cyclic_b cyclic_a "a" "b").
Qed.

(** The rest of C6 holds on the example: valid entries, none linear. *)
Example nonlinear_spine_rejected :
  PackageDocument_new 1 nonlinear_doc ocf package_url
  = Throw MissingLinearItemref.
Proof. vm_compute. reflexivity. Qed.

(** ** C7 *)

(** C7, counterexample to the statement as given: the metadata of the
    example has a [meta] element with the property [rendition:page-spread]
    and the text [left], a value of the enumeration of the hint; the page
    spread does not follow the rule of the other hints, it stays
    [center]. *)
Lemma C7_counterexample :
  In "left" RENDITION_PAGE_SPREAD_VALUES
  /\ PackageRendition.page_spread (processRendition metadata_el) = "center"
  /\ ~ Spec.hint_rule metadata_el "rendition:page-spread"
         RENDITION_PAGE_SPREAD_VALUES "center"
         (PackageRendition.page_spread (processRendition metadata_el)).
Proof.
  split; [cbn; tauto|]. split; [reflexivity|].
  intros (_ & Hoverride & _).
  specialize (Hoverride
    (Elem "meta" [("property", "rendition:page-spread")] [Text "left"])).
  assert ("center" = "left"); [|discriminate].
  apply Hoverride; [|cbn; tauto].
  exists [ Elem "dc:identifier" [("id", "pub-id")] [Text "urn:uuid:alice"];
           Elem "dc:title" [] [Text "Alice in Wonderland"];
           Elem "dc:language" [] [Text "en"];
           Elem "meta" [("property", "rendition:layout")]
             [Text "pre-paginated"];
           Elem "meta" [("property", "rendition:flow")] [Text "sideways"] ],
         [].
  split; [reflexivity|]. split; [|split; reflexivity].
  repeat constructor; intros [Hl Hp]; discriminate.
Qed.

(** The four other hints on the example: a value of the enumeration
    replaces the default, a value outside leaves it. *)
Example rendition_of_example :
  PackageDocument.rendition opf
  = {| PackageRendition.layout := "pre-paginated";
       PackageRendition.orientation := "auto";
       PackageRendition.spread := "auto";
       PackageRendition.page_spread := "center";
       PackageRendition.flow := "auto";
       PackageRendition.align_x_center := false |}.
Proof. vm_compute. reflexivity. Qed.

(** ** C8 *)

(** C8, witness: the example document without its [unique-identifier]. *)
Lemma C8_witness :
  URL_new "." (Some (Url.href package_url))
  = Some {| Url.href := "http://book.local/OEBPS/";
            Url.origin := "http://book.local";
            Url.pathname := "/OEBPS/" |}
  /\ Dom.getAttribute no_uid_doc "unique-identifier" = None
  /\ PackageDocument_head no_uid_doc package_url
     = Throw MissingUniqueIdentifier
  /\ PackageDocument_new 0 no_uid_doc ocf package_url
     = Throw MissingUniqueIdentifier.
Proof.
  split; [reflexivity|]. split; [reflexivity|].
  exact (C8_missing_unique_identifier 0 [("version", "3.0")]
           [metadata_el; manifest_el; spine_el] ocf package_url _
           eq_refl eq_refl).
Defined.

(** ** C9 *)

(** C9, witness: [fonts.css] and [fonts.css?v=2] on the example. *)
Lemma C9_witness :
  resolved opf "fonts.css" None fonts_url
  /\ (exists u2, resolved opf "fonts.css?v=2" None u2
                 /\ Url.pathname u2 = Url.pathname fonts_url
                 /\ Url.origin u2 = Url.origin fonts_url
                 /\ Url.href u2 <> Url.href fonts_url
                 /\ unlisted opf (Url.href u2))
  /\ getResource opf "fonts.css?v=2" None fonts_requested
     = (Ok 0, fonts_requested)
  /\ getResource opf "fonts.css?v=2" None initial_state
     = (Throw (ResourceNotFound "fonts.css?v=2"), initial_state).
Proof.
  assert (H1 : resolved opf "fonts.css" None fonts_url) by reflexivity.
  assert (H2 : resolved opf "fonts.css?v=2" None
                 {| Url.href := "http://book.local/OEBPS/fonts.css?v=2";
                    Url.origin := "http://book.local";
                    Url.pathname := "/OEBPS/fonts.css" |}) by reflexivity.
  assert (Hun : unlisted opf "http://book.local/OEBPS/fonts.css?v=2").
  { unfold unlisted.
    repeat (apply List.Forall_cons;
            [eexists; split; [vm_compute; reflexivity | discriminate]|]).
    apply List.Forall_nil. }
  pose proof (C9_cache_by_path_lookup_by_href opf "fonts.css" None
                "fonts.css?v=2" None _ _ initial_state H1 H2 eq_refl eq_refl)
    as (Hwarm & Hcold).
  split; [exact H1|].
  split; [eexists; split; [exact H2|];
          repeat split; try reflexivity; [discriminate | exact Hun]|].
  split; [apply Hwarm; reflexivity|].
  apply Hcold; [reflexivity | reflexivity | exact Hun].
Defined.

(** ** C10 *)

(** C10, witness of the amended statement: [css/deep.css] lies one
    directory below the package document, imports [fonts.css] and uses
    [url(fonts.css)].  The first loop asks for [/OEBPS/css/fonts.css] and
    the second for [/OEBPS/fonts.css]; the resource created holds two
    resources and two addresses. *)
Lemma C10_witness :
  URL_new deep_base None
  = Some {| Url.href := deep_base;
            Url.origin := "http://book.local";
            Url.pathname := "/OEBPS/css/deep.css" |}
  /\ URL_new "fonts.css" (Some deep_base) = Some deep_fonts_url
  /\ filtered_imports (decode deep_text) = ["fonts.css"]
  /\ resolved opf "fonts.css" None fonts_url
  /\ getResource opf "fonts.css" (Some deep_base) initial_state
     = (Ok 0, Fixture.deep_import_requested)
  /\ await_resource 1 opf 0 Fixture.deep_import_requested
     = (Ok 0, Fixture.deep_import_resolved)
  /\ getURL 0 Fixture.deep_import_resolved
     = (Ok "blob:http://reader.example/0", Fixture.deep_import_addressed)
  /\ Regex.exec_all Regex.url_at
       (Js.replace (decode deep_text) "fonts.css"
          "blob:http://reader.example/0")
     = ["fonts.css"]
  /\ getResource opf "fonts.css" None Fixture.deep_import_addressed
     = (Ok 1, Fixture.deep_url_requested)
  /\ await_resource 1 opf 1 Fixture.deep_url_requested
     = (Ok 1, Fixture.deep_url_resolved)
  /\ getURL 1 Fixture.deep_url_resolved
     = (Ok "blob:http://reader.example/1", Fixture.deep_url_addressed)
  /\ CSSResource_create (await_resource 1 opf) opf deep_text deep_base
       initial_state
     = new_resource
         (CSSResource
            "@import 'blob:http://reader.example/0'; h1 { background: url(blob:http://reader.example/1); }"
            [0; 1] None) Fixture.deep_url_addressed
  /\ cached_resources Fixture.deep_import_requested !! "/OEBPS/css/fonts.css"
     = Some 0
  /\ cached_resources Fixture.deep_url_requested !! "/OEBPS/fonts.css"
     = Some 1
  /\ (exists item item',
        find_item (PackageDocument.base_url opf) (Url.href deep_fonts_url)
          (PackageManifest.items (PackageDocument.manifest opf))
        = Ok (Some item)
        /\ trace Fixture.deep_import_requested
           = (trace initial_state
              ++ [EvRead (PackageItem.content_path item)])%list
        /\ find_item (PackageDocument.base_url opf) (Url.href fonts_url)
             (PackageManifest.items (PackageDocument.manifest opf))
           = Ok (Some item')
        /\ trace Fixture.deep_url_requested
           = (trace Fixture.deep_import_addressed
              ++ [EvRead (PackageItem.content_path item')])%list)
  /\ trace Fixture.deep_url_addressed
     = [EvRead "/OEBPS/css/fonts.css"; EvRead "/OEBPS/fonts.css"].
Proof.
  assert (Hbase : URL_new deep_base None
                  = Some {| Url.href := deep_base;
                            Url.origin := "http://book.local";
                            Url.pathname := "/OEBPS/css/deep.css" |})
    by reflexivity.
  assert (Hui : URL_new "fonts.css" (Some deep_base) = Some deep_fonts_url)
    by reflexivity.
  assert (Himports : filtered_imports (decode deep_text) = ["fonts.css"])
    by reflexivity.
  assert (Huu : resolved opf "fonts.css" None fonts_url) by reflexivity.
  assert (Hget1 : getResource opf "fonts.css" (Some deep_base) initial_state
                  = (Ok 0, Fixture.deep_import_requested)) by reflexivity.
  assert (Hawait1 : await_resource 1 opf 0 Fixture.deep_import_requested
                    = (Ok 0, Fixture.deep_import_resolved)) by reflexivity.
  assert (Hurl1 : getURL 0 Fixture.deep_import_resolved
                  = (Ok "blob:http://reader.example/0",
                     Fixture.deep_import_addressed)) by reflexivity.
  assert (Hurls : Regex.exec_all Regex.url_at
                    (Js.replace (decode deep_text) "fonts.css"
                       "blob:http://reader.example/0")
                  = ["fonts.css"]) by reflexivity.
  assert (Hget2 : getResource opf "fonts.css" None
                    Fixture.deep_import_addressed
                  = (Ok 1, Fixture.deep_url_requested)) by reflexivity.
  assert (Hawait2 : await_resource 1 opf 1 Fixture.deep_url_requested
                    = (Ok 1, Fixture.deep_url_resolved)) by reflexivity.
  assert (Hurl2 : getURL 1 Fixture.deep_url_resolved
                  = (Ok "blob:http://reader.example/1",
                     Fixture.deep_url_addressed)) by reflexivity.
  destruct (C10_bases_of_the_two_passes 1 opf deep_text deep_base _
              "fonts.css" deep_fonts_url initial_state Hbase Hui Himports)
    as [_ Hsame].
  destruct (Hsame eq_refl fonts_url _ _ _ _ _ _ _ _ _ _ _ _
              Huu Hget1 Hawait1 Hurl1 Hurls Hget2 Hawait2 Hurl2)
    as (Hcreate & Hc1 & Hc4 & _ & Hdiffer).
  destruct Hdiffer as (_ & item & item' & Hitem & Htr1 & Hitem' & Htr4);
    [discriminate | reflexivity | reflexivity |].
  split; [exact Hbase|]. split; [exact Hui|]. split; [exact Himports|].
  split; [exact Huu|]. split; [exact Hget1|]. split; [exact Hawait1|].
  split; [exact Hurl1|]. split; [exact Hurls|]. split; [exact Hget2|].
  split; [exact Hawait2|]. split; [exact Hurl2|].
  split; [exact Hcreate|]. split; [exact Hc1|]. split; [exact Hc4|].
  split; [|reflexivity].
  exists item, item'. repeat split; assumption.
Defined.

(** C10, counterexample to the statement as given: the base of
    [style.css] is not the base of the package, and yet [fonts.css] has one
    path against both; a request made as the first loop makes it and one
    made as the second loop makes it get the same promise, filed under that
    one path.  From [css/deep.css], whose base lies in another directory,
    the reference [/OEBPS/fonts.css] has one path against both bases as
    well.  [CSSResource.create] on the text of [css/deep.css] with the base
    of [style.css] gets one resource for the [@import] and for the
    [url(...)], and writes one address in both places. *)
Lemma C10_counterexample :
  style_base <> PackageDocument.base_url opf
  /\ URL_new "fonts.css" (Some style_base) = Some fonts_url
  /\ resolved opf "fonts.css" None fonts_url
  /\ (exists st1,
        getResource opf "fonts.css" (Some style_base) initial_state
        = (Ok 0, st1)
        /\ getResource opf "fonts.css" None st1 = (Ok 0, st1)
        /\ map_to_list (cached_resources st1) = [("/OEBPS/fonts.css", 0)])
  /\ URL_new "/OEBPS/fonts.css" (Some deep_base) = Some fonts_url
  /\ resolved opf "/OEBPS/fonts.css" None fonts_url
  /\ CSSResource_create (await_resource 1 opf) opf deep_text style_base
       initial_state
     = new_resource
         (CSSResource
            "@import 'blob:http://reader.example/0'; h1 { background: url(blob:http://reader.example/0); }"
            [0; 0] None) fonts_addressed.
Proof.
  split; [vm_compute; discriminate|].
  split; [reflexivity|]. split; [reflexivity|].
  split; [eexists; repeat split; vm_compute; reflexivity|].
  split; [reflexivity|]. split; [reflexivity|].
  vm_compute. reflexivity.
Qed.

(** What the model computes for the first chapter of the example: the
    image and the stylesheet become dependencies, in the order of the
    table of matchers; the link outside the origin stays as it is. *)
Example chapter1_resolved :
  let run := (let! p := getResource opf "chapter1.xhtml" None in
              await_resource 3 opf p) initial_state in
  fst run = Ok 3
  /\ store (snd run) !! 3
     = Some (HTMLResource
               (Elem "html" []
                  [ Elem "head" []
                      [ Elem "link" [("rel", "stylesheet");
                                     ("href", "blob:http://reader.example/2")]
                          [];
                        Elem "link" [("rel", "stylesheet");
                                     ("href", "http://cdn.example/site.css")]
                          [] ];
                    Elem "body" []
                      [ Elem "img" [("src", "blob:http://reader.example/0")]
                          [];
                        Elem "p" [] [Text "Down the rabbit hole"] ] ])
               [0; 2] None None)
  /\ trace (snd run)
     = [ EvRead "/OEBPS/chapter1.xhtml"; EvParse "<chapter1/>";
         EvRead "/OEBPS/cover.png"; EvRead "/OEBPS/style.css";
         EvRead "/OEBPS/fonts.css" ].
Proof. vm_compute. repeat split; reflexivity. Qed.

(** A stylesheet that imports itself waits for its own promise: the
    second lookup finds the entry of the first, nothing is read twice, and
    the [await] never returns. *)
Example self_import_hangs :
  let run := (let! p := getResource opf "loop.css" None in
              await_resource 3 opf p) initial_state in
  fst run = Hang
  /\ promises (snd run) = [Running]
  /\ trace (snd run) = [EvRead "/OEBPS/loop.css"].
Proof. vm_compute. repeat split; reflexivity. Qed.

End Concrete.

(* ===================================================================== *)
(** * Further properties of the code *)
(* ===================================================================== *)

Section ManifestFacts.
Context `{host : Host}.

Lemma require_Ok o e s : require o e = Ok s -> Js.nonempty o = Some s.
Proof. unfold require. destruct (Js.nonempty o); congruence. Qed.

Lemma nonempty_Some o s : Js.nonempty o = Some s -> o = Some s.
Proof.
  unfold Js.nonempty. destruct o as [x|]; [|discriminate].
  destruct (Js.truthy x); congruence.
Qed.

Lemma for_each_app {A S} (body : S -> A -> Res S) xs ys s :
  for_each body (xs ++ ys)%list s
  = (let* s' := for_each body xs s in for_each body ys s').
Proof.
  revert s. induction xs as [|x xs IH]; intros s; simpl; [reflexivity|].
  destruct (body s x); simpl; auto.
Qed.

Lemma processManifest_item_Ok base_url package_origin st el st' :
  processManifest_item base_url package_origin st el = Ok st' ->
  exists id it,
    Js.nonempty (Dom.getAttribute el "id") = Some id
    /\ records base_url package_origin el it
    /\ ml_items st' = (ml_items st ++ [it])%list
    /\ ml_items_by_id st' = <[id := it]> (ml_items_by_id st)
    /\ ml_nav_item st'
       = (if Js.includes (properties_of el) "nav" then Some id
          else ml_nav_item st)
    /\ ml_cover_item st'
       = (if Js.includes (properties_of el) "cover-image" then Some id
          else ml_cover_item st).
Proof.
  unfold processManifest_item.
  destruct (require (Dom.getAttribute el "href") _) as [href| | |] eqn:Hh;
    try discriminate.
  destruct (require (Dom.getAttribute el "media-type") _) as [mime| | |] eqn:Hm;
    try discriminate.
  destruct (require (Dom.getAttribute el "id") _) as [id| | |] eqn:Hi;
    try discriminate.
  cbn [Res_bind].
  destruct (URL_new href (Some base_url)) as [u|] eqn:Hu; [|discriminate].
  cbn [require_some Res_bind].
  destruct (String.eqb_spec (Url.origin u) package_origin) as [Ho|Ho];
    [|discriminate].
  cbn [negb]. intros [= <-]. cbn.
  apply require_Ok in Hh, Hm, Hi.
  eexists id, _. split; [exact Hi|]. split; [|repeat split; reflexivity].
  unfold records; cbn.
  split; [now apply nonempty_Some|]. split; [now apply nonempty_Some|].
  repeat split. now exists u.
Qed.

Lemma processManifest_loop base_url package_origin els st st' :
  for_each (processManifest_item base_url package_origin) els st = Ok st' ->
  exists new,
    ml_items st' = (ml_items st ++ new)%list
    /\ Forall2 (records base_url package_origin) els new
    /\ forall id it, ml_items_by_id st' !! id = Some it ->
         ml_items_by_id st !! id = Some it \/ In it new.
Proof.
  revert st. induction els as [|el els IH]; intros st; simpl.
  - intros [= <-]. exists []. rewrite app_nil_r. repeat split; auto.
  - destruct (processManifest_item _ _ st el) as [st1| | |] eqn:Hel;
      try discriminate.
    cbn [Res_bind]. intros Hrest.
    destruct (processManifest_item_Ok _ _ _ _ _ Hel)
      as (id & it & Hid & Hrec & Hitems & Hby & _).
    destruct (IH _ Hrest) as (new & Hnew & Hall & Hin).
    exists (it :: new). split; [|split].
    + rewrite Hnew, Hitems, <- app_assoc. reflexivity.
    + now constructor.
    + intros id' it' Hl.
      destruct (Hin _ _ Hl) as [Hold|Hn]; [|right; now right].
      rewrite Hby in Hold. destruct (decide (id = id')) as [->|Hne].
      * rewrite lookup_insert_eq in Hold. injection Hold as <-. right. now left.
      * rewrite lookup_insert_ne in Hold by exact Hne. now left.
Qed.

(** From an empty manifest the loop yields the items of the elements. *)
Lemma processManifest_items base_url package_origin manifest ml :
  processManifest base_url package_origin manifest = Ok ml ->
  exists new,
    ml_items ml = new
    /\ Forall2 (records base_url package_origin)
         (Dom.getElementsByTagName manifest "item") new
    /\ forall id it, ml_items_by_id ml !! id = Some it -> In it new.
Proof.
  unfold processManifest. intros H.
  destruct (processManifest_loop _ _ _ _ _ H) as (new & Hitems & Hall & Hin).
  exists new. split; [exact Hitems|]. split; [exact Hall|].
  intros id it Hl. destruct (Hin _ _ Hl) as [Hold|Hn]; [|exact Hn].
  cbn in Hold. now rewrite lookup_empty in Hold.
Qed.

(** X1.  When [#processManifest] returns, the manifest has one item for
    every [item] element, in document order, each holding the [href],
    [media-type], [fallback], [media-overlay] and [properties] of its
    element and the path of its address, which lies in the origin of the
    package; and every item registered under an id is one of them. *)
Theorem processManifest_mirrors_elements base_url package_origin manifest ml :
  processManifest base_url package_origin manifest = Ok ml ->
  Forall2 (records base_url package_origin)
    (Dom.getElementsByTagName manifest "item") (ml_items ml)
  /\ forall id it, ml_items_by_id ml !! id = Some it -> In it (ml_items ml).
Proof.
  intros H.
  destruct (processManifest_items _ _ _ _ H) as (new & -> & Hall & Hin).
  split; [exact Hall | exact Hin].
Qed.

Lemma processManifest_loop_keeps base_url package_origin els st st' id :
  for_each (processManifest_item base_url package_origin) els st = Ok st' ->
  Forall (fun e => Dom.getAttribute e "id" <> Some id) els ->
  ml_items_by_id st' !! id = ml_items_by_id st !! id.
Proof.
  revert st. induction els as [|el els IH]; intros st; simpl.
  - now intros [= <-] _.
  - destruct (processManifest_item _ _ st el) as [st1| | |] eqn:Hel;
      try discriminate.
    cbn [Res_bind]. intros Hrest Hall.
    apply List.Forall_cons_iff in Hall as [Hne Hall].
    destruct (processManifest_item_Ok _ _ _ _ _ Hel)
      as (id' & it & Hid & _ & _ & Hby & _).
    rewrite (IH _ Hrest Hall), Hby. apply lookup_insert_ne.
    intros ->. apply Hne. now apply nonempty_Some.
Qed.

(** X2.  When several [item] elements carry the same id, the item
    registered under that id is the one of the last of them; the earlier
    ones stay in the list of items (X1). *)
Theorem processManifest_last_id_wins base_url package_origin manifest ml
    before el after id :
  processManifest base_url package_origin manifest = Ok ml ->
  Dom.getElementsByTagName manifest "item" = (before ++ el :: after)%list ->
  Dom.getAttribute el "id" = Some id ->
  Forall (fun e => Dom.getAttribute e "id" <> Some id) after ->
  exists it, ml_items_by_id ml !! id = Some it
             /\ records base_url package_origin el it.
Proof.
  unfold processManifest. intros H Hels Hid Hafter. rewrite Hels in H.
  rewrite for_each_app in H.
  destruct (for_each _ before _) as [st1| | |]; try discriminate.
  cbn [Res_bind for_each] in H.
  destruct (processManifest_item _ _ st1 el) as [st2| | |] eqn:Hel;
    try discriminate.
  cbn [Res_bind] in H.
  destruct (processManifest_item_Ok _ _ _ _ _ Hel)
    as (id' & it & Hid' & Hrec & _ & Hby & _).
  apply nonempty_Some in Hid'. rewrite Hid in Hid'. injection Hid' as <-.
  exists it. split; [|exact Hrec].
  rewrite (processManifest_loop_keeps _ _ _ _ _ _ H Hafter), Hby.
  apply lookup_insert_eq.
Qed.

Lemma processManifest_loop_flag base_url package_origin els st st' :
  for_each (processManifest_item base_url package_origin) els st = Ok st' ->
  (Forall (fun e => Js.includes (properties_of e) "nav" = false) els ->
   ml_nav_item st' = ml_nav_item st)
  /\ (Forall (fun e => Js.includes (properties_of e) "cover-image" = false)
             els ->
      ml_cover_item st' = ml_cover_item st).
Proof.
  revert st. induction els as [|el els IH]; intros st; simpl.
  - now intros [= <-].
  - destruct (processManifest_item _ _ st el) as [st1| | |] eqn:Hel;
      try discriminate.
    cbn [Res_bind]. intros Hrest.
    destruct (processManifest_item_Ok _ _ _ _ _ Hel)
      as (id' & it & _ & _ & _ & _ & Hnav & Hcover).
    destruct (IH _ Hrest) as [IHn IHc].
    split; intros Hall; apply List.Forall_cons_iff in Hall as [Hno Hall].
    + rewrite (IHn Hall), Hnav. now rewrite Hno.
    + rewrite (IHc Hall), Hcover. now rewrite Hno.
Qed.

(** X3.  [nav_item] and [cover_item] are the ids of the last [item]
    elements whose [properties], split at single spaces, include [nav] and
    [cover-image]; they stay undefined when no element does. *)
Theorem processManifest_nav_and_cover base_url package_origin manifest ml :
  processManifest base_url package_origin manifest = Ok ml ->
  (Forall (fun e => Js.includes (properties_of e) "nav" = false)
          (Dom.getElementsByTagName manifest "item") ->
   ml_nav_item ml = None)
  /\ (forall before el after,
        Dom.getElementsByTagName manifest "item"
        = (before ++ el :: after)%list ->
        Js.includes (properties_of el) "nav" = true ->
        Forall (fun e => Js.includes (properties_of e) "nav" = false) after ->
        ml_nav_item ml = Dom.getAttribute el "id")
  /\ (Forall (fun e => Js.includes (properties_of e) "cover-image" = false)
             (Dom.getElementsByTagName manifest "item") ->
      ml_cover_item ml = None)
  /\ (forall before el after,
        Dom.getElementsByTagName manifest "item"
        = (before ++ el :: after)%list ->
        Js.includes (properties_of el) "cover-image" = true ->
        Forall (fun e => Js.includes (properties_of e) "cover-image" = false)
               after ->
        ml_cover_item ml = Dom.getAttribute el "id").
Proof.
  unfold processManifest. intros H.
  assert (Hlast : forall before el after,
    Dom.getElementsByTagName manifest "item" = (before ++ el :: after)%list ->
    exists st1 st2 id,
      processManifest_item base_url package_origin st1 el = Ok st2
      /\ Dom.getAttribute el "id" = Some id
      /\ ml_nav_item st2 = (if Js.includes (properties_of el) "nav"
                            then Some id else ml_nav_item st1)
      /\ ml_cover_item st2 = (if Js.includes (properties_of el) "cover-image"
                              then Some id else ml_cover_item st1)
      /\ for_each (processManifest_item base_url package_origin) after st2
         = Ok ml).
  { intros before el after Hels. rewrite Hels, for_each_app in H.
    destruct (for_each _ before _) as [st1| | |]; try discriminate.
    cbn [Res_bind for_each] in H.
    destruct (processManifest_item _ _ st1 el) as [st2| | |] eqn:Hel;
      try discriminate.
    cbn [Res_bind] in H.
    destruct (processManifest_item_Ok _ _ _ _ _ Hel)
      as (id & it & Hid & _ & _ & _ & Hnav & Hcover).
    exists st1, st2, id. repeat split; auto. now apply nonempty_Some. }
  split; [|split; [|split]].
  - intros Hall. now apply (processManifest_loop_flag _ _ _ _ _ H).
  - intros before el after Hels Hnav Hafter.
    destruct (Hlast _ _ _ Hels) as (st1 & st2 & id & _ & Hid & Hn & _ & Hrest).
    rewrite Hnav in Hn.
    destruct (processManifest_loop_flag _ _ _ _ _ Hrest) as [Hkeep _].
    rewrite (Hkeep Hafter). congruence.
  - intros Hall. now apply (processManifest_loop_flag _ _ _ _ _ H).
  - intros before el after Hels Hcov Hafter.
    destruct (Hlast _ _ _ Hels) as (st1 & st2 & id & _ & Hid & _ & Hc & Hrest).
    rewrite Hcov in Hc.
    destruct (processManifest_loop_flag _ _ _ _ _ Hrest) as [_ Hkeep].
    rewrite (Hkeep Hafter). congruence.
Qed.

End ManifestFacts.

Section SpineFacts.
Context `{host : Host}.

Lemma processSpine_itemref_refers fuel manifest st el st' :
  processSpine_itemref fuel manifest st el = Ok st' ->
  exists ref,
    refers fuel (PackageManifest.items_by_id manifest) el ref
    /\ sl_itemrefs st' = (sl_itemrefs st ++ [ref])%list.
Proof.
  unfold processSpine_itemref.
  destruct (require (Dom.getAttribute el "idref") _) as [idref| | |] eqn:Hi;
    try discriminate.
  cbn [Res_bind].
  destruct (items_by_id_get (PackageManifest.items_by_id manifest) idref)
    as [item| |] eqn:Hit;
    [| destruct (fallback_walk _ _ None); discriminate | discriminate].
  apply items_by_id_get_AnItem in Hit.
  destruct (fallback_walk _ _ _) as [[|]|] eqn:Hw; try discriminate.
  intros [= <-]. eexists. split; [|reflexivity].
  unfold refers; cbn. apply require_Ok, nonempty_Some in Hi.
  repeat split; auto.
Qed.

Lemma processSpine_loop_refers fuel manifest els st st' :
  for_each (processSpine_itemref fuel manifest) els st = Ok st' ->
  exists new,
    sl_itemrefs st' = (sl_itemrefs st ++ new)%list
    /\ Forall2 (refers fuel (PackageManifest.items_by_id manifest)) els new.
Proof.
  revert st. induction els as [|el els IH]; intros st; simpl.
  - intros [= <-]. exists []. now rewrite app_nil_r.
  - destruct (processSpine_itemref fuel manifest st el) as [st1| | |] eqn:Hel;
      try discriminate.
    cbn [Res_bind]. intros Hrest.
    destruct (processSpine_itemref_refers _ _ _ _ _ Hel) as (ref & Href & Hst1).
    destruct (IH _ Hrest) as (new & Hnew & Hall).
    exists (ref :: new). split; [|now constructor].
    now rewrite Hnew, Hst1, <- app_assoc.
Qed.

(** What [#processSpine] has done when it returns. *)
Lemma processSpine_Ok fuel manifest spine sp toc :
  processSpine fuel manifest spine = Ok (sp, toc) ->
  exists st,
    for_each (processSpine_itemref fuel manifest)
      (Dom.getElementsByTagName spine "itemref")
      {| sl_has_linear := false; sl_itemrefs := [] |} = Ok st
    /\ PackageSpine.itemrefs sp = sl_itemrefs st
    /\ Dom.getElementsByTagName spine "itemref" <> []
    /\ toc = Js.nonempty (Dom.getAttribute spine "toc")
    /\ (forall t, toc = Some t ->
          items_by_id_get (PackageManifest.items_by_id manifest) t <> Falsy)
    /\ In (PackageSpine.page_progression sp) VALID_PAGE_PROGRESSION_DIRS.
Proof.
  unfold processSpine.
  set (pp := match Js.nonempty
                     (Dom.getAttribute spine "page-progression-direction")
             with
             | Some d => if Js.includes VALID_PAGE_PROGRESSION_DIRS d then d
                         else DEFAULT_PAGE_PROGRESSION_DIR
             | None => DEFAULT_PAGE_PROGRESSION_DIR
             end).
  assert (Hpp : In pp VALID_PAGE_PROGRESSION_DIRS).
  { subst pp. destruct (Js.nonempty _) as [d|]; [|cbn; auto].
    destruct (Js.includes _ d) eqn:Hd; [now apply includes_In | cbn; auto]. }
  clearbody pp.
  assert (Htoc : forall r : Res (option string),
    r = match Js.nonempty (Dom.getAttribute spine "toc") with
        | Some toc =>
            match
              items_by_id_get (PackageManifest.items_by_id manifest) toc
            with
            | Falsy => Throw InvalidTocAttribute
            | AnItem _ | NoItem => Ok (Some toc)
            end
        | None => Ok None
        end ->
    forall o, r = Ok o ->
      o = Js.nonempty (Dom.getAttribute spine "toc")
      /\ forall t, o = Some t ->
           items_by_id_get (PackageManifest.items_by_id manifest) t <> Falsy).
  { intros r -> o. destruct (Js.nonempty _) as [t|].
    - destruct (items_by_id_get _ t) as [it| |] eqn:Hit; try discriminate.
      all: intros [= <-]; split; [reflexivity|]; intros ? [= <-].
      all: now rewrite Hit.
    - intros [= <-]. split; [reflexivity | discriminate]. }
  specialize (Htoc _ eq_refl).
  destruct (match Js.nonempty (Dom.getAttribute spine "toc") with
            | Some toc => _ | None => _ end) as [o| | |]; try discriminate.
  specialize (Htoc o eq_refl) as [Ho Hreg]. cbn [Res_bind].
  destruct (Dom.getElementsByTagName spine "itemref") as [|el els] eqn:Hels;
    [discriminate|].
  destruct (for_each _ _ _) as [st| | |] eqn:Hloop; try discriminate.
  cbn [Res_bind]. destruct (sl_has_linear st); [|discriminate].
  cbn [negb]. intros [= <- <-]. cbn. exists st.
  split; [reflexivity|]. split; [reflexivity|]. split; [discriminate|]. auto.
Qed.


(** A key that reads as something, on a dictionary no item has become the
    prototype of, is a key the dictionary has been given or a property of
    [Object.prototype]. *)
Lemma items_by_id_get_truthy items_by_id key :
  items_by_id !! "__proto__" = None ->
  items_by_id_get items_by_id key <> Falsy ->
  is_Some (items_by_id !! key)
  \/ Js.includes Js.object_prototype_keys key = true.
Proof.
  intros Hproto. unfold items_by_id_get.
  destruct (items_by_id !! key) as [it|]; [now left; eexists|].
  rewrite Hproto. cbn [mbind option_bind].
  destruct (Js.includes _ key); [now right | congruence].
Qed.

(** X4.  When [#processSpine] returns, the spine has one entry for every
    [itemref] element, in document order and at least one, each holding the
    manifest item registered under its [idref], whose fallback chain reaches
    a content document; [toc_item] is the [toc] attribute, and a read of
    [items_by_id] under it gives something: where no item has the id
    [__proto__], it is the id of an item of the manifest or the name of a
    property of [Object.prototype], which the dictionary inherits; the page
    progression is one of [ltr], [rtl] and [default]. *)
Theorem processSpine_mirrors_elements fuel manifest spine sp toc :
  processSpine fuel manifest spine = Ok (sp, toc) ->
  Forall2 (refers fuel (PackageManifest.items_by_id manifest))
    (Dom.getElementsByTagName spine "itemref") (PackageSpine.itemrefs sp)
  /\ PackageSpine.itemrefs sp <> []
  /\ toc = Js.nonempty (Dom.getAttribute spine "toc")
  /\ (forall t, toc = Some t ->
        items_by_id_get (PackageManifest.items_by_id manifest) t <> Falsy
        /\ (PackageManifest.items_by_id manifest !! "__proto__" = None ->
            is_Some (PackageManifest.items_by_id manifest !! t)
            \/ Js.includes Js.object_prototype_keys t = true))
  /\ In (PackageSpine.page_progression sp) VALID_PAGE_PROGRESSION_DIRS.
Proof.
  intros H.
  destruct (processSpine_Ok _ _ _ _ _ H)
    as (st & Hloop & Hrefs & Hne & Htoc & Hreg & Hpp).
  destruct (processSpine_loop_refers _ _ _ _ _ Hloop) as (new & Hnew & Hall).
  cbn in Hnew. rewrite Hrefs, Hnew. split; [exact Hall|].
  split; [intros ->; inversion Hall as [Hels|]; now apply Hne|].
  split; [exact Htoc|]. split; [|exact Hpp].
  intros t Ht. split; [now apply Hreg|].
  intros Hproto. apply items_by_id_get_truthy; [exact Hproto | now apply Hreg].
Qed.

(** ** What a constructed package document is made of *)

Lemma PackageDocument_new_Ok fuel document ocf package_url opf :
  PackageDocument_new fuel document ocf package_url = Ok opf ->
  exists head spine,
    PackageDocument_head document package_url = Ok head
    /\ Dom.querySelector_type document "spine" = Some spine
    /\ processSpine fuel (ch_manifest head) spine
       = Ok (PackageDocument.spine opf, PackageDocument.toc_item opf)
    /\ PackageDocument.manifest opf = ch_manifest head
    /\ PackageDocument.base_url opf = ch_base_url head
    /\ PackageDocument.package_url opf = package_url
    /\ PackageDocument.ocf opf = ocf
    /\ PackageDocument.lang opf = ch_lang head
    /\ PackageDocument.dir opf = ch_dir head
    /\ PackageDocument.metadata opf = ch_metadata head
    /\ PackageDocument.nav_item opf = ch_nav_item head
    /\ PackageDocument.cover_item opf = ch_cover_item head.
Proof.
  unfold PackageDocument_new.
  destruct (PackageDocument_head document package_url) as [head| | |];
    try discriminate.
  cbn [Res_bind].
  destruct (Dom.querySelector_type document "spine") as [spine|];
    [|discriminate].
  cbn [require_some Res_bind].
  destruct (processSpine _ _ _) as [[sp toc]| | |] eqn:Hs; try discriminate.
  cbn [Res_bind]. intros [= <-]. exists head, spine. cbn.
  repeat split; auto.
Qed.

Lemma PackageDocument_head_Ok document package_url head :
  PackageDocument_head document package_url = Ok head ->
  exists base metadata manifest ml,
    URL_new "." (Some (Url.href package_url)) = Some base
    /\ ch_base_url head = Url.href base
    /\ Dom.tagName document = "package"
    /\ Dom.querySelector_type document "metadata" = Some metadata
    /\ processMetadata (Js.nonempty (Dom.getAttribute document "xml:lang"))
         metadata
       = Ok (ch_metadata head, ch_lang head)
    /\ Dom.querySelector_type document "manifest" = Some manifest
    /\ processManifest (Url.href base) (Url.origin package_url) manifest
       = Ok ml
    /\ ch_manifest head
       = {| PackageManifest.items := ml_items ml;
            PackageManifest.items_by_id := ml_items_by_id ml |}
    /\ ch_nav_item head = ml_nav_item ml
    /\ ch_cover_item head = ml_cover_item ml
    /\ ch_dir head
       = match Js.nonempty (Dom.getAttribute document "dir") with
         | Some d => if Js.includes VALID_TEXT_DIRS d then d
                     else DEFAULT_TEXT_DIR
         | None => DEFAULT_TEXT_DIR
         end.
Proof.
  unfold PackageDocument_head.
  destruct (URL_new "." _) as [base|]; [|discriminate].
  cbn [require_some Res_bind].
  destruct (String.eqb_spec (Dom.tagName document) "package") as [Htag|];
    [|discriminate].
  cbn [negb].
  destruct (require _ MissingUniqueIdentifier) as [uid| | |]; try discriminate.
  cbn [Res_bind].
  destruct (select_primary_identifier document uid) as [found| | |];
    try discriminate.
  cbn [Res_bind]. destruct found as [pid|]; [|discriminate].
  cbn [require_some Res_bind].
  destruct (negb _); [discriminate|].
  destruct (require _ MissingVersion) as [version| | |]; try discriminate.
  cbn [Res_bind].
  destruct (Dom.querySelector_type document "metadata") as [metadata|];
    [|discriminate].
  cbn [require_some Res_bind].
  destruct (processMetadata _ metadata) as [[pm lang]| | |] eqn:Hm;
    try discriminate.
  cbn [Res_bind].
  destruct (Dom.querySelector_type document "manifest") as [manifest|];
    [|discriminate].
  cbn [require_some Res_bind].
  destruct (processManifest _ _ manifest) as [ml| | |] eqn:Hml;
    try discriminate.
  cbn [Res_bind]. intros [= <-]. exists base, metadata, manifest, ml. cbn.
  repeat split; auto.
Qed.

Lemma find_item_listed base_url item items :
  In item items ->
  Forall (fun it => is_Some (URL_new (PackageItem.href it) (Some base_url)))
         items ->
  forall u, URL_new (PackageItem.href item) (Some base_url) = Some u ->
  exists found, find_item base_url (Url.href u) items = Ok (Some found).
Proof.
  intros Hin Hall u Hu. induction items as [|it items IH]; [destruct Hin|].
  apply List.Forall_cons_iff in Hall as [[v Hv] Hall]. cbn [find_item].
  rewrite Hv. destruct (String.eqb (Url.href u) (Url.href v)) eqn:He;
    [now eexists|].
  destruct Hin as [->|Hin]; [|now apply IH].
  rewrite Hu in Hv. injection Hv as <-. now rewrite String.eqb_refl in He.
Qed.

(** X5.  In a constructed package every entry of the spine refers to an
    item of the manifest, and [getResource(itemref.item.href)], the call
    [SpineRendition.renderTo] makes, returns a promise in every state: it
    throws neither for the origin nor for a missing item. *)
Theorem spine_itemrefs_can_be_requested fuel document ocf package_url opf ref :
  PackageDocument_new fuel document ocf package_url = Ok opf ->
  In ref (PackageSpine.itemrefs (PackageDocument.spine opf)) ->
  In (ItemRef.item ref) (PackageManifest.items (PackageDocument.manifest opf))
  /\ forall st, exists p st',
       getResource opf (PackageItem.href (ItemRef.item ref)) None st
       = (Ok p, st').
Proof.
  intros Hnew Hin.
  destruct (PackageDocument_new_Ok _ _ _ _ _ Hnew)
    as (head & spine & Hhead & _ & Hspine & Hman & Hbase & Hurl & _).
  destruct (PackageDocument_head_Ok _ _ _ Hhead)
    as (base & _ & manifest & ml & _ & Hb & _ & _ & _ & _ & Hml & Hm & _).
  destruct (processManifest_items _ _ _ _ Hml)
    as (items & Hitems & Hmirror & Hby).
  rewrite <- Hitems in Hmirror, Hby.
  destruct (processSpine_Ok _ _ _ _ _ Hspine) as (sl & Hloop & Hsp & _).
  destruct (processSpine_loop_refers _ _ _ _ _ Hloop) as (refs & Hr & Hrefs).
  cbn in Hr. rewrite <- Hr, <- Hsp in Hrefs.
  assert (Hitem : In (ItemRef.item ref) (ml_items ml)).
  { clear - Hrefs Hin Hby Hm. rewrite Hm in Hrefs. cbn in Hrefs.
    induction Hrefs as [|el r els rs Hr _ IH]; [destruct Hin|].
    destruct Hin as [->|Hin]; [|now apply IH].
    destruct Hr as (_ & Hl & _). eapply Hby. exact Hl. }
  assert (Hall : Forall (fun it => exists u,
                   URL_new (PackageItem.href it) (Some (Url.href base)) = Some u
                   /\ Url.origin u = Url.origin package_url)
                 (ml_items ml)).
  { clear - Hmirror. induction Hmirror as [|el it els its Hr _ IH];
      constructor; [|exact IH].
    destruct Hr as (_ & _ & _ & _ & _ & u & Hu & Ho & _). now exists u. }
  rewrite Hman, Hm. cbn. split; [exact Hitem|]. intros st.
  pose proof (proj1 (List.Forall_forall _ _) Hall _ Hitem) as (u & Hu & Ho).
  unfold getResource. rewrite Hbase, Hb, Hurl, Hman, Hm. cbn [default].
  rewrite Hu, Ho, String.eqb_refl. cbn [negb].
  destruct (cached_resources st !! Url.pathname u) as [p|]; [now eexists _, _|].
  destruct (find_item_listed (Url.href base) _ (ml_items ml) Hitem)
    with (u := u) as (found & Hfound); [|exact Hu|].
  { eapply List.Forall_impl; [|exact Hall]. intros it (v & Hv & _).
    now exists v. }
  cbn [PackageManifest.items]. rewrite Hfound. cbn. now eexists _, _.
Qed.

End SpineFacts.

Section MetadataFacts.
Context `{host : Host}.

Lemma filter_cons_b {A} (p : A -> bool) x l :
  filter p (x :: l) = if p x then x :: filter p l else filter p l.
Proof. cbn. destruct (p x); reflexivity. Qed.

Lemma filter_In_b {A} (p : A -> bool) x l :
  In x (filter p l) -> In x l /\ p x = true.
Proof.
  induction l as [|y l IH]; [intros []|]. rewrite filter_cons_b.
  destruct (p y) eqn:Hy.
  - intros [<-|Hin]; [split; [now left | exact Hy]|].
    destruct (IH Hin). split; [now right | assumption].
  - intros Hin. destruct (IH Hin). split; [now right | assumption].
Qed.

Lemma trimmed_texts_filter els :
  trimmed_texts els = map trimmed_text (filter nonblank els).
Proof.
  unfold trimmed_texts. induction els as [|el els IH]; [reflexivity|].
  cbn [map]. rewrite !filter_cons_b.
  change (nonblank el) with (Js.truthy (Js.trim (Dom.textContent el))).
  destruct (Js.truthy (Js.trim (Dom.textContent el))); cbn [map];
    now rewrite IH.
Qed.

Lemma collect_runs_from els lang acc :
  fold_left (fun acc el =>
               if Js.truthy (Js.trim (Dom.textContent el))
               then Some (default [] acc ++ [TextRun.fromElement el lang])%list
               else acc) els acc
  = match filter nonblank els with
    | [] => acc
    | kept => Some (default [] acc
                    ++ map (fun el => TextRun.fromElement el lang) kept)%list
    end.
Proof.
  revert acc. induction els as [|el els IH]; intros acc; [reflexivity|].
  cbn [fold_left]. rewrite IH, filter_cons_b.
  change (nonblank el) with (Js.truthy (Js.trim (Dom.textContent el))).
  destruct (Js.truthy (Js.trim (Dom.textContent el))).
  - cbn [default]. destruct (filter nonblank els) as [|k ks].
    + reflexivity.
    + cbn [map default from_option id]. unfold id.
      rewrite <- app_assoc. reflexivity.
  - reflexivity.
Qed.

Lemma collect_runs_filter els lang :
  collect_runs els lang
  = optional_list (map (fun el => TextRun.fromElement el lang)
                       (filter nonblank els)).
Proof.
  unfold collect_runs. rewrite collect_runs_from.
  destruct (filter nonblank els); reflexivity.
Qed.

Lemma collect_texts_from els acc :
  fold_left (fun acc el =>
               let text := Js.trim (Dom.textContent el) in
               if Js.truthy text then Some (default [] acc ++ [text])%list
               else acc) els acc
  = match filter nonblank els with
    | [] => acc
    | kept => Some (default [] acc ++ map trimmed_text kept)%list
    end.
Proof.
  revert acc. induction els as [|el els IH]; intros acc; [reflexivity|].
  cbn [fold_left]. rewrite IH, filter_cons_b.
  change (nonblank el) with (Js.truthy (Js.trim (Dom.textContent el))).
  cbv zeta.
  destruct (Js.truthy (Js.trim (Dom.textContent el))).
  - cbn [default]. destruct (filter nonblank els) as [|k ks].
    + reflexivity.
    + cbn [map default from_option id]. unfold id.
      rewrite <- app_assoc. reflexivity.
  - reflexivity.
Qed.

Lemma collect_texts_filter els :
  collect_texts els = optional_list (map trimmed_text (filter nonblank els)).
Proof.
  unfold collect_texts. rewrite collect_texts_from.
  destruct (filter nonblank els); reflexivity.
Qed.

Lemma default_optional_list {A} (l : list A) : default [] (optional_list l) = l.
Proof. now destruct l. Qed.

(** X6.  What [#processMetadata] collects: every list holds one entry for
    each element of its tag whose text is not blank, in document order;
    identifiers, languages, dates, formats, sources and types hold the
    trimmed text, the others a text run of the element; an optional field
    stays undefined when no element of its tag has text. *)
Theorem processMetadata_collects this_lang metadata pm lang :
  processMetadata this_lang metadata = Ok (pm, lang) ->
  let kept tag := filter nonblank (Dom.getElementsByTagName metadata tag) in
  let runs tag := map (fun el => TextRun.fromElement el lang) (kept tag) in
  let texts tag := map trimmed_text (kept tag) in
  PackageMetadata.identifiers pm = texts "dc:identifier"
  /\ PackageMetadata.languages pm = texts "dc:language"
  /\ PackageMetadata.titles pm = runs "dc:title"
  /\ PackageMetadata.contributors pm = optional_list (runs "dc:contributor")
  /\ PackageMetadata.coverages pm = optional_list (runs "dc:coverage")
  /\ PackageMetadata.creators pm = optional_list (runs "dc:creator")
  /\ PackageMetadata.dates pm = optional_list (texts "dc:date")
  /\ PackageMetadata.descriptions pm = optional_list (runs "dc:description")
  /\ PackageMetadata.formats pm = optional_list (texts "dc:format")
  /\ PackageMetadata.publishers pm = optional_list (runs "dc:publisher")
  /\ PackageMetadata.relations pm = optional_list (runs "dc:relation")
  /\ PackageMetadata.rights pm = optional_list (runs "dc:rights")
  /\ PackageMetadata.sources pm = optional_list (texts "dc:source")
  /\ PackageMetadata.subjects pm = optional_list (runs "dc:subject")
  /\ PackageMetadata.types pm = optional_list (texts "dc:type").
Proof.
  unfold processMetadata.
  destruct (Dom.getElementsByTagName metadata "dc:identifier") as [|i is_] eqn:Hi;
    [discriminate|].
  destruct (Dom.getElementsByTagName metadata "dc:title") as [|t ts] eqn:Ht;
    [discriminate|].
  destruct (Dom.getElementsByTagName metadata "dc:language") as [|l ls] eqn:Hl;
    [discriminate|].
  intros [= <- <-]. cbv zeta. cbn [PackageMetadata.identifiers
    PackageMetadata.languages PackageMetadata.titles
    PackageMetadata.contributors PackageMetadata.coverages
    PackageMetadata.creators PackageMetadata.dates
    PackageMetadata.descriptions PackageMetadata.formats
    PackageMetadata.publishers PackageMetadata.relations
    PackageMetadata.rights PackageMetadata.sources PackageMetadata.subjects
    PackageMetadata.types].
  rewrite !collect_runs_filter, !collect_texts_filter,
    !trimmed_texts_filter, default_optional_list.
  repeat split; reflexivity.
Qed.

Lemma processMetadata_titles this_lang metadata pm lang :
  processMetadata this_lang metadata = Ok (pm, lang) ->
  PackageMetadata.languages pm
  = map trimmed_text
        (filter nonblank (Dom.getElementsByTagName metadata "dc:language"))
  /\ PackageMetadata.titles pm
     = map (fun el => TextRun.fromElement el lang)
           (filter nonblank (Dom.getElementsByTagName metadata "dc:title")).
Proof.
  unfold processMetadata.
  destruct (Dom.getElementsByTagName metadata "dc:identifier") as [|i is_];
    [discriminate|].
  destruct (Dom.getElementsByTagName metadata "dc:title") as [|t ts];
    [discriminate|].
  destruct (Dom.getElementsByTagName metadata "dc:language") as [|l ls];
    [discriminate|].
  intros [= <- <-]. cbn [PackageMetadata.languages PackageMetadata.titles].
  rewrite collect_runs_filter, trimmed_texts_filter, default_optional_list.
  split; reflexivity.
Qed.

Lemma processMetadata_lang this_lang metadata pm lang :
  processMetadata this_lang metadata = Ok (pm, lang) ->
  lang = match this_lang with
         | Some l => Some l
         | None => head (PackageMetadata.languages pm)
         end.
Proof.
  unfold processMetadata.
  destruct (Dom.getElementsByTagName metadata "dc:identifier") as [|i is_];
    [discriminate|].
  destruct (Dom.getElementsByTagName metadata "dc:title") as [|t ts];
    [discriminate|].
  destruct (Dom.getElementsByTagName metadata "dc:language") as [|l ls];
    [discriminate|].
  intros [= <- <-]. cbn [PackageMetadata.languages].
  destruct (trimmed_texts (l :: ls)), this_lang; reflexivity.
Qed.

Lemma nonempty_idem o : Js.nonempty (Js.nonempty o) = Js.nonempty o.
Proof.
  unfold Js.nonempty. destruct o as [s|]; [|reflexivity].
  destruct (Js.truthy s) eqn:Hs; [now rewrite Hs | reflexivity].
Qed.

Lemma fromElement_lang el lang :
  Js.nonempty lang = lang ->
  TextRun.lang (TextRun.fromElement el lang) = run_lang lang el.
Proof.
  intros Hl. unfold TextRun.fromElement, run_lang. cbn [TextRun.lang].
  destruct (Js.nonempty (Dom.getAttribute el "xml:lang")) as [l|] eqn:Ha;
    [|exact Hl].
  rewrite <- Ha. apply nonempty_idem.
Qed.

Lemma fromElement_dir el lang :
  In (TextRun.dir (TextRun.fromElement el lang)) VALID_TEXT_DIRS.
Proof.
  unfold TextRun.fromElement. cbn [TextRun.dir].
  destruct (Js.nonempty _) as [d|]; [|cbn; auto].
  destruct (Js.includes _ d) eqn:Hd; [now apply includes_In | cbn; auto].
Qed.

(** X7.  The language of a constructed package is its [xml:lang] when that
    is not empty, else its first [dc:language] that is not blank, else
    undefined; and every title has the language of its own [xml:lang] when
    that is not empty, else the language of the package. *)
Theorem package_language fuel document ocf package_url opf metadata :
  PackageDocument_new fuel document ocf package_url = Ok opf ->
  Dom.querySelector_type document "metadata" = Some metadata ->
  PackageDocument.lang opf
  = match Js.nonempty (Dom.getAttribute document "xml:lang") with
    | Some l => Some l
    | None =>
        head (PackageMetadata.languages (PackageDocument.metadata opf))
    end
  /\ map TextRun.lang (PackageMetadata.titles (PackageDocument.metadata opf))
     = map (run_lang (PackageDocument.lang opf))
           (filter nonblank (Dom.getElementsByTagName metadata "dc:title")).
Proof.
  intros Hnew Hmd.
  destruct (PackageDocument_new_Ok _ _ _ _ _ Hnew)
    as (ch & spine & Hhead & _ & _ & _ & _ & _ & _ & Hlang & _ & Hmeta & _).
  destruct (PackageDocument_head_Ok _ _ _ Hhead)
    as (base & md & manifest & ml & _ & _ & _ & Hmd' & Hpm & _).
  rewrite Hmd in Hmd'. injection Hmd' as <-.
  rewrite Hlang, Hmeta.
  pose proof (processMetadata_lang _ _ _ _ Hpm) as Hl.
  split; [exact Hl|].
  destruct (processMetadata_titles _ _ _ _ Hpm) as (Hlangs & ->).
  rewrite map_map. apply map_ext. intros el. apply fromElement_lang.
  rewrite Hl. destruct (Js.nonempty (Dom.getAttribute document "xml:lang"))
    as [l|] eqn:Ha.
  - rewrite <- Ha. apply nonempty_idem.
  - rewrite Hlangs. destruct (filter nonblank _) as [|k ks] eqn:Hk;
      [reflexivity|].
    cbn [map head Js.nonempty].
    assert (nonblank k = true) as Hnb.
    { assert (In k (filter nonblank
                      (Dom.getElementsByTagName metadata "dc:language")))
        as Hin by (rewrite Hk; now left).
      apply filter_In_b in Hin. tauto. }
    unfold nonblank in Hnb. unfold trimmed_text. now rewrite Hnb.
Qed.

End MetadataFacts.

Section EnumerationFacts.
Context `{host : Host}.

Lemma rendition_override_In metadata property values current :
  In current values ->
  In (rendition_override metadata property values current) values.
Proof.
  intros Hc. unfold rendition_override.
  destruct (Dom.querySelector_type_attr _ _ _ _) as [m|]; [|exact Hc].
  destruct (Js.truthy _); [|exact Hc]. cbn [andb].
  destruct (Js.includes values _) eqn:Hi; [now apply includes_In | exact Hc].
Qed.

Lemma PackageDocument_new_rendition fuel document ocf package_url opf :
  PackageDocument_new fuel document ocf package_url = Ok opf ->
  exists metadata, PackageDocument.rendition opf = processRendition metadata.
Proof.
  unfold PackageDocument_new.
  destruct (PackageDocument_head document package_url) as [ch| | |];
    try discriminate.
  cbn [Res_bind].
  destruct (Dom.querySelector_type document "spine") as [spine|];
    [|discriminate].
  cbn [require_some Res_bind].
  destruct (processSpine _ _ _) as [[sp toc]| | |] eqn:Hs; try discriminate.
  cbn [Res_bind]. intros [= <-]. now eexists.
Qed.

(** X8.  In a constructed package the text direction of the package and
    of every title, the page progression of the spine and the five
    rendition hints all lie in their enumerations. *)
Theorem package_enumerations fuel document ocf package_url opf :
  PackageDocument_new fuel document ocf package_url = Ok opf ->
  In (PackageDocument.dir opf) VALID_TEXT_DIRS
  /\ Forall (fun run => In (TextRun.dir run) VALID_TEXT_DIRS)
       (PackageMetadata.titles (PackageDocument.metadata opf))
  /\ In (PackageSpine.page_progression (PackageDocument.spine opf))
       VALID_PAGE_PROGRESSION_DIRS
  /\ In (PackageRendition.layout (PackageDocument.rendition opf))
       RENDITION_LAYOUT_VALUES
  /\ In (PackageRendition.orientation (PackageDocument.rendition opf))
       RENDITION_ORIENTATION_VALUES
  /\ In (PackageRendition.spread (PackageDocument.rendition opf))
       RENDITION_SPREAD_VALUES
  /\ In (PackageRendition.page_spread (PackageDocument.rendition opf))
       RENDITION_PAGE_SPREAD_VALUES
  /\ In (PackageRendition.flow (PackageDocument.rendition opf))
       RENDITION_FLOW_VALUES.
Proof.
  intros Hnew.
  destruct (PackageDocument_new_rendition _ _ _ _ _ Hnew) as (md & ->).
  destruct (PackageDocument_new_Ok _ _ _ _ _ Hnew)
    as (ch & spine & Hhead & _ & Hspine & _ & _ & _ & _ & _ & Hdir & Hmeta & _).
  destruct (PackageDocument_head_Ok _ _ _ Hhead)
    as (base & metadata & manifest & ml & _ & _ & _ & _ & Hpm & _ & _ & _ & _
        & _ & Hd).
  destruct (processSpine_Ok _ _ _ _ _ Hspine) as (sl & _ & _ & _ & _ & _ & Hpp).
  destruct (processMetadata_titles _ _ _ _ Hpm) as (_ & Htitles).
  split.
  { rewrite Hdir, Hd.
    destruct (Js.nonempty (Dom.getAttribute document "dir")) as [d|];
      [|cbn; auto].
    destruct (Js.includes _ d) eqn:Hi; [now apply includes_In | cbn; auto]. }
  split.
  { rewrite Hmeta, Htitles. apply List.Forall_forall. intros run Hin.
    apply in_map_iff in Hin as (el & <- & _). apply fromElement_dir. }
  split; [exact Hpp|]. unfold processRendition.
  cbn [PackageRendition.layout PackageRendition.orientation
       PackageRendition.spread PackageRendition.page_spread
       PackageRendition.flow].
  split; [apply rendition_override_In; cbn; auto|].
  split; [apply rendition_override_In; cbn; auto|].
  split; [apply rendition_override_In; cbn; auto 10|].
  split; [cbn; auto|].
  apply rendition_override_In; cbn; auto.
Qed.

End EnumerationFacts.

Section AwaitFacts.
Context `{host : Host}.

Lemma await_resource_rejected fuel opf p e st :
  promises st !! p = Some (Rejected e) ->
  await_resource fuel opf p st = (Throw e, st).
Proof. intros H. destruct fuel; simpl; now rewrite H. Qed.

Lemma await_resource_Throw fuel opf p e st st' :
  is_Some (promises st !! p) ->
  await_resource fuel opf p st = (Throw e, st') ->
  promises st' !! p = Some (Rejected e).
Proof.
  intros [v Hv]. destruct fuel as [|fuel]; simpl; rewrite Hv.
  - destruct v; intros [= <- <-]; exact Hv.
  - destruct v as [item bytes base_url| | |];
      try (intros [= <- <-]; exact Hv); try discriminate.
    rewrite (bind_Ok _ _ st tt (snd (set_promise p Running st)))
      by reflexivity.
    destruct (createResourceFromItem_resume _ _ _ _ _ _) as [res st1]
      eqn:Hbody.
    assert (later (snd (set_promise p Running st)) st1) as (_ & Hlen & _).
    { eapply grows_createResourceFromItem_resume; [|exact Hbody].
      intros q. apply grows_await_resource. }
    destruct res; intros [= <- <-]. simpl in *.
    apply list_lookup_insert_eq. apply lookup_lt_Some in Hv.
    rewrite length_insert in Hlen. lia.
Qed.

(** X13.  Once an [await] on a promise of [getResource] has thrown, every
    later [await] on it throws the same error and changes nothing: a failed
    resolution is not tried again. *)
Theorem rejection_is_final fuel opf p e st st' :
  is_Some (promises st !! p) ->
  await_resource fuel opf p st = (Throw e, st') ->
  forall st2 fuel', later st' st2 ->
    await_resource fuel' opf p st2 = (Throw e, st2).
Proof.
  intros Hp Hawait st2 fuel' (_ & _ & _ & Hkeep).
  apply await_resource_rejected. apply Hkeep; [|exact I].
  eapply await_resource_Throw; eassumption.
Qed.


(** X14.  Awaiting the promise of an item that is neither markup nor a
    stylesheet fulfils it with a new binary resource whose blob is the bytes
    read; nothing is parsed, nothing else is read and the cache is left as
    it is. *)
Theorem binary_resource_is_the_bytes fuel opf p item bytes base_url st :
  promises st !! p = Some (Pending item bytes base_url) ->
  Js.includes ["text/html"; "application/xhtml"; "application/xhtml+xml"]
    (Js.toLowerCase (Js.trim (PackageItem.mime item))) = false ->
  Js.includes ["text/css"]
    (Js.toLowerCase (Js.trim (PackageItem.mime item))) = false ->
  exists st',
    await_resource (S fuel) opf p st = (Ok (length (store st)), st')
    /\ store st' = (store st ++ [BinaryResource_new bytes])%list
    /\ promises st' = <[p := Fulfilled (length (store st))]> (promises st)
    /\ cached_resources st' = cached_resources st
    /\ trace st' = trace st
    /\ fst (getBlob (BinaryResource_new bytes))
       = {| Blob.content := bytes; Blob.type := EmptyString |}.
Proof.
  intros Hp Hhtml Hcss. eexists. cbn [await_resource]. rewrite Hp.
  rewrite (bind_Ok _ _ st tt (snd (set_promise p Running st))) by reflexivity.
  unfold createResourceFromItem_resume. rewrite Hhtml, Hcss.
  cbn. rewrite list_insert_insert_eq. repeat split; reflexivity.
Qed.

(** X15.  An item with one of the four SVG media types passes the check
    of the spine as a content document, and [createResourceFromItem] makes a
    binary resource of it. *)
Theorem svg_is_content_but_binary (await_ : nat -> M nat) opf item bytes
    base_url fuel items_by_id :
  In (PackageItem.mime item)
     ["application/svg+xml"; "image/svg+xml"; "application/svg"; "image/svg"] ->
  fallback_walk (S fuel) items_by_id (Some item) = Some true
  /\ createResourceFromItem_resume await_ opf item bytes base_url
     = new_resource (BinaryResource_new bytes).
Proof.
  intros Hin. unfold createResourceFromItem_resume. cbn [fallback_walk].
  cbn in Hin. destruct Hin as [<-|[<-|[<-|[<-|[]]]]]; split; reflexivity.
Qed.

(** X16.  A stylesheet whose first plain [@import] resolves to the path it
    is cached under itself never resolves: the [await] on its promise does
    not return, and the promise stays unsettled. *)
Theorem self_import_never_resolves fuel opf p item bytes base_url st base c
    rest u :
  promises st !! p = Some (Pending item bytes base_url) ->
  Js.toLowerCase (Js.trim (PackageItem.mime item)) = "text/css" ->
  URL_new base_url None = Some base ->
  filtered_imports (decode bytes) = c :: rest ->
  URL_new c (Some base_url) = Some u ->
  Url.origin u = Url.origin base ->
  same_origin opf u ->
  cached_resources st !! Url.pathname u = Some p ->
  await_resource (S fuel) opf p st = (Hang, snd (set_promise p Running st)).
Proof.
  intros Hp Hmime Hbase Himports Hu Ho Hsame Hc.
  cbn [await_resource]. rewrite Hp.
  rewrite (bind_Ok _ _ st tt (snd (set_promise p Running st))) by reflexivity.
  set (st1 := snd (set_promise p Running st)).
  assert (Hrun : promises st1 !! p = Some Running).
  { subst st1. cbn. apply list_lookup_insert_eq.
    now apply lookup_lt_Some in Hp. }
  assert (Hc1 : cached_resources st1 !! Url.pathname u = Some p) by exact Hc.
  unfold createResourceFromItem_resume. rewrite Hmime. cbn [Js.includes existsb].
  change (("text/css" =? "text/html")%string) with false.
  change (("text/css" =? "application/xhtml")%string) with false.
  change (("text/css" =? "application/xhtml+xml")%string) with false.
  change (("text/css" =? "text/css")%string) with true.
  cbn [orb].
  unfold CSSResource_create. rewrite Hbase, Himports.
  cbn [lift require_some].
  rewrite (bind_Ok _ _ st1 base st1) by reflexivity.
  cbn [for_eachM].
  assert (Hstep : rewrite_import (await_resource fuel opf) opf base_url
                    (Url.origin base) (decode bytes, []) c st1 = (Hang, st1)).
  { unfold rewrite_import, rewrite_css. rewrite Hu. cbn [lift require_some].
    rewrite (bind_Ok _ _ st1 u st1) by reflexivity.
    rewrite Ho, String.eqb_refl. cbn [negb].
    assert (Hget : getResource opf c (Some base_url) st1 = (Ok p, st1)).
    { eapply getResource_hit; [exact Hu | exact Hsame | exact Hc1]. }
    rewrite (bind_Ok _ _ _ _ _ Hget).
    unfold bind. destruct fuel; cbn [await_resource]; now rewrite Hrun. }
  unfold bind at 1. unfold bind at 1. unfold bind at 1. now rewrite Hstep.
Qed.

End AwaitFacts.

Section AddressFacts.
Context `{host : Host}.

(** X17.  [getURL] registers at most one blob, and a second call returns
    the same address and changes nothing. *)
Theorem getURL_registers_once r st u st1 :
  getURL r st = (Ok u, st1) -> Js.truthy u = true ->
  length (object_urls st1) <= S (length (object_urls st))
  /\ getURL r st1 = (Ok u, st1).
Proof.
  intros Hget Ht. split; [|eapply getURL_memo; eassumption].
  revert Hget. unfold getURL.
  destruct (store st !! r) as [res|]; [|discriminate].
  destruct (Js.nonempty _); [intros [= <- <-]; lia|].
  destruct (getBlob res) as [b res']. intros [= <- <-]. cbn.
  rewrite length_app. cbn. lia.
Qed.

(** X18.  [clean] revokes the address of a resource and leaves it in the
    resource: [getURL] after [clean] returns the revoked address. *)
Theorem clean_keeps_the_address r st u st1 :
  getURL r st = (Ok u, st1) -> Js.truthy u = true ->
  clean r st1 = (Ok (Some u), st1)
  /\ (let! _ := clean r in getURL r) st1 = (Ok u, st1).
Proof.
  intros Hget Ht.
  assert (Hclean : clean r st1 = (Ok (Some u), st1)).
  { revert Hget. unfold getURL, clean.
    destruct (store st !! r) as [res|] eqn:Hr; [|discriminate].
    destruct (Js.nonempty (Resource.object_url res)) as [v|] eqn:Hv.
    - intros [= <- <-]. now rewrite Hr, Hv.
    - destruct (getBlob res) as [b res']. intros [= <- <-]. cbn.
      rewrite list_lookup_insert_eq by now apply lookup_lt_Some in Hr.
      rewrite object_url_set. cbn. now rewrite Ht. }
  split; [exact Hclean|]. rewrite (bind_Ok _ _ _ _ _ Hclean).
  eapply getURL_memo; eassumption.
Qed.

End AddressFacts.

Section ContentFacts.
Context `{host : Host}.

Lemma absent_tail pat c s : absent pat (String c s) ->
  Js.strip_prefix pat (String c s) = None /\ absent pat s.
Proof.
  unfold absent. rewrite find_first_unfold.
  destruct (Js.strip_prefix pat (String c s)); [discriminate|].
  intros H. split; [reflexivity|]. eapply find_first_None_acc. exact H.
Qed.

Lemma absent_strip pat s : absent pat s -> Js.strip_prefix pat s = None.
Proof.
  unfold absent. rewrite find_first_unfold.
  destruct (Js.strip_prefix pat s); [discriminate | reflexivity].
Qed.

Lemma exec_loop_absent at_ pat n s :
  (forall t, Js.strip_prefix pat t = None -> at_ t = None) ->
  absent pat s -> Regex.exec_loop at_ n s = [].
Proof.
  intros Hat. revert s. induction n as [|n IH]; intros s Habs; [reflexivity|].
  cbn [Regex.exec_loop]. rewrite Hat by now apply absent_strip.
  destruct s as [|c s]; [reflexivity|]. apply IH.
  now apply absent_tail in Habs.
Qed.

Lemma import_at_needs t :
  Js.strip_prefix "@import" t = None -> Regex.import_at t = None.
Proof. unfold Regex.import_at. now intros ->. Qed.

Lemma url_at_needs t :
  Js.strip_prefix "url(" t = None -> Regex.url_at t = None.
Proof. unfold Regex.url_at. now intros ->. Qed.

(** X19.  A stylesheet in which neither [@import] nor [url(] occurs
    becomes a resource with its text unchanged and without resources;
    nothing is looked up. *)
Theorem stylesheet_without_references (await_ : nat -> M nat) opf bytes
    base_url base st :
  URL_new base_url None = Some base ->
  absent "@import" (decode bytes) ->
  absent "url(" (decode bytes) ->
  CSSResource_create await_ opf bytes base_url st
  = new_resource (CSSResource (decode bytes) [] None) st.
Proof.
  intros Hbase Himport Hurl. unfold CSSResource_create, filtered_imports.
  unfold Regex.exec_all.
  rewrite (exec_loop_absent _ "@import") by (auto using import_at_needs).
  rewrite Hbase. cbn [lift require_some map filter for_eachM].
  rewrite (bind_Ok _ _ st base st) by reflexivity.
  rewrite (bind_Ok _ _ st (decode bytes, []) st) by reflexivity.
  cbn [fst].
  rewrite (exec_loop_absent _ "url(") by (auto using url_at_needs).
  cbn [for_eachM].
  rewrite (bind_Ok _ _ st (decode bytes, []) st) by reflexivity.
  reflexivity.
Qed.

Section WithResolver.
Variable await_ : nat -> M nat.
Variable opf : PackageDocument.t.

Lemma process_candidate_skips base_url base_origin matcher rs candidate st :
  row_skips matcher candidate = true ->
  process_candidate await_ opf base_url base_origin matcher rs candidate st
  = (Ok (candidate, rs), st).
Proof.
  unfold row_skips, process_candidate. intros H.
  destruct (negb (is_Some_b _ || is_Some_b _)); [reflexivity|].
  cbn [orb] in H. now rewrite H.
Qed.

(** X21.  A [meta] element that lacks one of the attributes [name],
    [property] and [itemprop] is left as it is, and nothing is looked up:
    the three filters of the row all have to pass. *)
Theorem meta_needs_all_three base_url base_origin rs candidate st :
  Dom.getAttribute candidate "name" = None
  \/ Dom.getAttribute candidate "property" = None
  \/ Dom.getAttribute candidate "itemprop" = None ->
  process_candidate await_ opf base_url base_origin meta_matcher rs candidate st
  = (Ok (candidate, rs), st).
Proof.
  intros H. apply process_candidate_skips. unfold row_skips, meta_matcher, passes.
  cbn [rels names properties itemprops].
  destruct H as [-> | [-> | ->]]; cbn [andb negb];
    rewrite ?andb_false_r; cbn [negb]; apply orb_true_r.
Qed.

Lemma Forall_flat_map {A B} (P : B -> Prop) (f : A -> list B) l :
  Forall P (flat_map f l) -> Forall (fun x => Forall P (f x)) l.
Proof.
  induction l as [|x l IH]; [constructor|]. cbn [flat_map].
  intros H. apply Forall_app in H as [Hx Hl]. constructor; auto.
Qed.

Lemma map_elements_unchanged {S} sel (f : S -> Node -> M (Node * S)) n :
  Forall (fun e => sel e = true -> forall s st, f s e st = (Ok (e, s), st))
         (document_elements n) ->
  forall s st, map_elements sel f n s st = (Ok (n, s), st).
Proof.
  induction n as [d | t a cs IH] using Node_ind'; intros Hall s st;
    [reflexivity|].
  unfold document_elements in Hall. cbn [Dom.is_element] in Hall.
  apply List.Forall_cons_iff in Hall as [Hself Hdesc].
  cbn [map_elements].
  assert (Hfirst : (if sel (Elem t a cs) then f s (Elem t a cs)
                    else ret (Elem t a cs, s)) st
                   = (Ok (Elem t a cs, s), st)).
  { destruct (sel (Elem t a cs)) eqn:Hs; [now apply Hself | reflexivity]. }
  rewrite (bind_Ok _ _ _ _ _ Hfirst). cbn [Dom.attributes].
  cbn [Dom.descendants] in Hdesc. apply Forall_flat_map in Hdesc.
  assert (Hchildren :
    (fix go (cs : list Node) (s : S) {struct cs} : M (list Node * S) :=
       match cs with
       | [] => ret ([], s)
       | c :: cs0 =>
           let! '(c', s') := map_elements sel f c s in
           let! '(cs0', s'') := go cs0 s' in
           ret (c' :: cs0', s'')
       end) cs s st = (Ok (cs, s), st)).
  { clear Hfirst Hself. induction cs as [|c cs IHcs]; [reflexivity|].
    apply List.Forall_cons_iff in IH as [IHc IHrest].
    apply List.Forall_cons_iff in Hdesc as [Hc Hrest].
    rewrite (bind_Ok _ _ st (c, s) st) by (apply IHc; exact Hc).
    rewrite (bind_Ok _ _ st (cs, s) st) by (apply IHcs; assumption).
    reflexivity. }
  rewrite (bind_Ok _ _ _ _ _ Hchildren). reflexivity.
Qed.

(** X22.  A document in which every element a row of the table selects
    has neither the attribute of the row nor [xlink:href], or fails a filter
    of the row, becomes a resource with the tree as parsed and without
    resources; nothing is looked up. *)
Theorem document_without_references bytes base_url base st :
  URL_new base_url None = Some base ->
  (forall matcher e,
     In matcher tag_attribute_matchers ->
     In e (document_elements (parseFromString (decode bytes))) ->
     Dom.tagName e = tag matcher ->
     row_skips matcher e = true) ->
  HTMLResource_create await_ opf bytes base_url st
  = (Ok (length (store st)),
     parsed_and_stored (decode bytes)
       (HTMLResource (parseFromString (decode bytes)) [] None None) st).
Proof.
  intros Hbase Hskip. unfold HTMLResource_create.
  rewrite (bind_Ok _ _ st tt (snd (emit (EvParse (decode bytes)) st)))
    by reflexivity.
  set (st1 := snd (emit (EvParse (decode bytes)) st)).
  rewrite Hbase. cbn [lift require_some].
  rewrite (bind_Ok _ _ st1 base st1) by reflexivity.
  assert (Hloop : forall rows,
    (forall m, In m rows -> In m tag_attribute_matchers) ->
    for_eachM (fun '(doc, resources) matcher =>
                 map_elements
                   (fun e => String.eqb (Dom.tagName e) (tag matcher))
                   (process_candidate await_ opf base_url (Url.origin base)
                      matcher)
                   doc resources)
      rows (parseFromString (decode bytes), []) st1
    = (Ok (parseFromString (decode bytes), []), st1)).
  { induction rows as [|m rows IHrows]; intros Hrows; [reflexivity|].
    cbn [for_eachM].
    rewrite (bind_Ok _ _ st1 (parseFromString (decode bytes), []) st1).
    - apply IHrows. intros m' Hm'. apply Hrows. now right.
    - apply map_elements_unchanged. apply List.Forall_forall.
      intros e He Hsel s st'. apply process_candidate_skips.
      apply Hskip; [apply Hrows; now left | exact He |].
      now apply String.eqb_eq. }
  rewrite (bind_Ok _ _ _ _ _ (Hloop _ (fun m H => H))). reflexivity.
Qed.

End WithResolver.
End ContentFacts.

Section ContainerFacts.
Context `{host : Host} `{chost : ContainerHost}.

Lemma OCFZip_load_other c entries ocf r ocf' p :
  OCFZip_load c entries ocf = (r, ocf') ->
  Forall (fun fe => forall v,
            OCFAbstractContainer_parseURL c (fst fe) = Some v ->
            Url.pathname v <> p) entries ->
  OCFZip.dirtree ocf' !! p = OCFZip.dirtree ocf !! p.
Proof.
  revert ocf. induction entries as [|[f e] entries IH]; intros ocf.
  - now intros [= <- <-].
  - cbn [OCFZip_load]. intros H Hall.
    apply List.Forall_cons_iff in Hall as [Hf Hall]. cbn [fst] in Hf.
    destruct (OCFAbstractContainer_parseURL c f) as [v|] eqn:Hv.
    + rewrite (IH _ H Hall). cbn. apply lookup_insert_ne. now apply Hf.
    + now injection H as <- <-.
Qed.

Lemma OCFZip_load_app c xs ys ocf :
  OCFZip_load c (xs ++ ys)%list ocf
  = match OCFZip_load c xs ocf with
    | (Ok _, ocf1) => OCFZip_load c ys ocf1
    | other => other
    end.
Proof.
  revert ocf. induction xs as [|[f e] xs IH]; intros ocf; [reflexivity|].
  cbn [app OCFZip_load].
  destruct (OCFAbstractContainer_parseURL c f); [apply IH | reflexivity].
Qed.

Lemma OCFZip_load_result c entries ocf r ocf' :
  OCFZip_load c entries ocf = (r, ocf') -> r = Ok tt \/ r = Throw TypeError.
Proof.
  revert ocf. induction entries as [|[f e] entries IH]; intros ocf.
  - intros [= <- <-]. now left.
  - cbn [OCFZip_load].
    destruct (OCFAbstractContainer_parseURL c f); [apply IH|].
    intros [= <- <-]. now right.
Qed.

(** X11.  After [load], the file stored under a name is read back by
    [getUint8Array] at the path of that name, unless a later entry of the
    archive names the same path. *)
Theorem load_then_read c before filename entry after ocf ocf' u bytes :
  OCFZip_load c (before ++ (filename, entry) :: after)%list ocf
  = (Ok tt, ocf') ->
  OCFAbstractContainer_parseURL c filename = Some u ->
  Forall (fun fe => forall v,
            OCFAbstractContainer_parseURL c (fst fe) = Some v ->
            Url.pathname v <> Url.pathname u) after ->
  Entry.directory entry = false ->
  Entry.getData entry = Some bytes ->
  OCFZip.dirtree ocf' !! Url.pathname u = Some entry
  /\ OCFZip.getUint8Array ocf' (Url.pathname u) = inr bytes.
Proof.
  intros Hload Hu Hafter Hdir Hdata. rewrite OCFZip_load_app in Hload.
  destruct (OCFZip_load c before ocf) as [r ocf1] eqn:Hbefore.
  destruct (OCFZip_load_result _ _ _ _ _ Hbefore) as [-> | ->];
    [|discriminate].
  cbn [OCFZip_load] in Hload. rewrite Hu in Hload.
  assert (Hl : OCFZip.dirtree ocf' !! Url.pathname u = Some entry).
  { rewrite (OCFZip_load_other _ _ _ _ _ _ Hload Hafter). cbn.
    apply lookup_insert_eq. }
  split; [exact Hl|]. unfold OCFZip.getUint8Array. now rewrite Hl, Hdir, Hdata.
Qed.

(** X10.  When [getPackageDocument] returns a package, the entry
    [/META-INF/container.xml] is a file, the first [rootfile] element of its
    document has the media type of a package document, the entry at the
    path of its [full-path], resolved against the root address of the
    container, is a file, and the package is what the constructor makes of
    that file, with the container as its archive and the resolved address
    as its address. *)
Theorem getPackageDocument_returns fuel c ocf opf :
  OCFZip_getPackageDocument fuel c ocf = inr (Ok opf) ->
  exists container_bytes rootfile full_path url package_bytes,
    OCFZip.getUint8Array ocf "/META-INF/container.xml" = inr container_bytes
    /\ document_querySelector_type (parseXML (readText container_bytes))
         "rootfile" = Some rootfile
    /\ Dom.getAttribute rootfile "full-path" = Some full_path
    /\ Dom.getAttribute rootfile "media-type"
       = Some "application/oebps-package+xml"
    /\ OCFAbstractContainer_parseURL c full_path = Some url
    /\ OCFZip.getUint8Array ocf (Url.pathname url) = inr package_bytes
    /\ PackageDocument_new fuel (parseXML (readText package_bytes)) ocf url
       = Ok opf
    /\ PackageDocument.ocf opf = ocf
    /\ PackageDocument.package_url opf = url.
Proof.
  unfold OCFZip_getPackageDocument, OCFZip.getUint8Array.
  destruct (OCFZip.dirtree ocf !! "/META-INF/container.xml") as [rootfile|]
    eqn:Hroot; [|discriminate].
  destruct (Entry.directory rootfile) eqn:Hrdir; [discriminate|].
  destruct (Entry.getData rootfile) as [container_bytes|] eqn:Hrdata;
    [|discriminate].
  destruct (document_querySelector_type _ _) as [el|] eqn:Hel;
    [|discriminate].
  destruct (Js.nonempty (Dom.getAttribute el "full-path")) as [full_path|]
    eqn:Hfp; [|discriminate].
  destruct (bool_decide_reflect (Dom.getAttribute el "media-type"
              = Some "application/oebps-package+xml")) as [Hmt|];
    [|discriminate].
  cbn [negb].
  destruct (OCFAbstractContainer_parseURL c full_path) as [url|] eqn:Hurl;
    [|discriminate].
  destruct (OCFZip.dirtree ocf !! Url.pathname url) as [pkg|] eqn:Hpkg;
    [|discriminate].
  destruct (Entry.directory pkg) eqn:Hpdir; [discriminate|].
  destruct (Entry.getData pkg) as [package_bytes|] eqn:Hpdata;
    [|discriminate].
  intros [= Hnew].
  destruct (PackageDocument_new_Ok _ _ _ _ _ Hnew)
    as (ch & spine & _ & _ & _ & _ & _ & Hpurl & Hocf & _).
  exists container_bytes, el, full_path, url, package_bytes.
  apply nonempty_Some in Hfp. rewrite Hpkg, Hpdir, Hpdata.
  split; [reflexivity|]. split; [exact Hel|]. split; [exact Hfp|].
  split; [exact Hmt|]. split; [exact Hurl|]. split; [reflexivity|].
  split; [exact Hnew|]. split; [exact Hocf | exact Hpurl].
Qed.

End ContainerFacts.

Section RegexFacts.

Lemma ws_star_nonspace {R} (k : string -> option R) c s :
  Js.is_space c = false -> Regex.ws_star k (String c s) = k (String c s).
Proof. intros H. cbn [Regex.ws_star]. now rewrite H. Qed.

Lemma ws_star_skip {R} (k : string -> option R) ws c s r :
  Js.all Js.is_space ws = true ->
  Js.is_space c = false ->
  k (String c s) = Some r ->
  Regex.ws_star k (ws ++ String c s) = Some r.
Proof.
  intros Hws Hc Hk. induction ws as [|w ws IH].
  - cbn [append]. now rewrite ws_star_nonspace.
  - cbn [Js.all] in Hws. apply andb_true_iff in Hws as [Hw Hws].
    cbn [append Regex.ws_star]. rewrite Hw. now rewrite IH.
Qed.

Lemma ws_plus_app {R} (k : string -> option R) w ws t :
  Js.is_space w = true ->
  Regex.ws_plus k (String w ws ++ t) = Regex.ws_star k (ws ++ t).
Proof.
  intros H. change (String w ws ++ t) with (String w (ws ++ t)).
  cbn [Regex.ws_plus]. now rewrite H.
Qed.

Lemma target_char_spec c :
  target_char c = true ->
  Js.is_space c = false /\ Js.is_dot c = true
  /\ Ascii.eqb c "'"%char = false /\ Ascii.eqb c Js.dquote = false
  /\ Ascii.eqb c "("%char = false /\ Ascii.eqb c ")"%char = false
  /\ Ascii.eqb c ";"%char = false.
Proof.
  unfold target_char. rewrite !andb_true_iff, !negb_true_iff. tauto.
Qed.

(** The lazy group runs over a target up to the first place where the rest
    of the pattern matches, when it matches nowhere inside the target. *)
Lemma lazy_dots_target k body tail rest group :
  Js.all target_char body = true ->
  (forall c s, target_char c = true -> k (String c s) = None) ->
  k tail = Some rest ->
  Regex.lazy_dots k (body ++ tail) group
  = Some (Js.rev (Js.rev_acc body group), rest).
Proof.
  intros Hbody Hk Htail. revert group.
  induction body as [|c body IH]; intros group.
  - cbn [append Js.rev_acc]. destruct tail; cbn [Regex.lazy_dots];
      now rewrite Htail.
  - cbn [Js.all] in Hbody. apply andb_true_iff in Hbody as [Hc Hbody].
    cbn [append Regex.lazy_dots Js.rev_acc]. rewrite (Hk _ _ Hc).
    destruct (target_char_spec _ Hc) as (_ & -> & _). now apply IH.
Qed.

Lemma rev_rev_acc_app body : Js.rev (Js.rev_acc body EmptyString) = body.
Proof. apply rev_rev_acc. Qed.

Lemma closing_end quote close ws rest :
  Js.all Js.is_space ws = true ->
  Js.is_space close = false ->
  Regex.closing None close (ws ++ String close rest) = Some rest
  /\ Regex.closing (Some quote) close
       (String quote (ws ++ String close rest)) = Some rest.
Proof.
  intros Hws Hclose.
  assert (H : Regex.ws_star (Regex.char close) (ws ++ String close rest)
              = Some rest).
  { apply ws_star_skip; [exact Hws | exact Hclose |].
    cbn [Regex.char]. now rewrite Ascii.eqb_refl. }
  split; [exact H|]. cbn [Regex.closing Regex.char].
  now rewrite Ascii.eqb_refl.
Qed.

Lemma closing_inside quote close c s :
  target_char c = true ->
  Ascii.eqb c close = false ->
  (Ascii.eqb quote "'"%char || Ascii.eqb quote Js.dquote) = true ->
  Regex.closing None close (String c s) = None
  /\ Regex.closing (Some quote) close (String c s) = None.
Proof.
  intros Hc Hclose Hq. destruct (target_char_spec _ Hc)
    as (Hsp & _ & Hsq & Hdq & _).
  split.
  - cbn [Regex.closing]. rewrite ws_star_nonspace by exact Hsp.
    cbn [Regex.char]. now rewrite Hclose.
  - cbn [Regex.closing Regex.char].
    apply orb_true_iff in Hq as [Hq|Hq]; apply Ascii.eqb_eq in Hq; subst quote.
    + now rewrite Hsq.
    + now rewrite Hdq.
Qed.

(** The optional quote, the target and what closes it. *)
Lemma quoted_target close q c body ws rest :
  In q quotes ->
  Js.all target_char (String c body) = true ->
  Js.all Js.is_space ws = true ->
  Js.is_space close = false ->
  (forall d, target_char d = true -> Ascii.eqb d close = false) ->
  Regex.quoted close (q ++ String c body ++ q ++ ws ++ String close rest)
  = Some (String c body, rest).
Proof.
  intros Hq Hbody Hws Hclose Hne.
  assert (Hc : target_char c = true).
  { cbn [Js.all] in Hbody. now apply andb_true_iff in Hbody as [? _]. }
  destruct (target_char_spec _ Hc) as (_ & _ & Hsq & Hdq & _).
  cbn in Hq. destruct Hq as [<- | [<- | [<- | []]]].
  - (* no quote *)
    cbn [append]. change (String c (body ++ ws ++ String close rest))
      with (String c body ++ ws ++ String close rest).
    unfold Regex.quoted. cbn [append]. rewrite Hsq, Hdq. cbn [orb].
    change (String c (body ++ ws ++ String close rest))
      with (String c body ++ ws ++ String close rest).
    rewrite (lazy_dots_target _ (String c body) _ rest).
    + now rewrite rev_rev_acc.
    + exact Hbody.
    + intros d s Hd. apply (closing_inside "'" close d s Hd (Hne d Hd)).
      reflexivity.
    + now apply (closing_end "'").
  - (* single quotes *)
    cbn [append]. unfold Regex.quoted. cbn [Ascii.eqb orb].
    change (String c (body ++ String "'" (ws ++ String close rest)))
      with (String c body ++ String "'" (ws ++ String close rest)).
    rewrite (lazy_dots_target _ (String c body) _ rest).
    + now rewrite rev_rev_acc.
    + exact Hbody.
    + intros d s Hd. apply (closing_inside "'" close d s Hd (Hne d Hd)).
      reflexivity.
    + now apply (closing_end "'").
  - (* double quotes *)
    cbn [append]. unfold Regex.quoted.
    replace (Ascii.eqb Js.dquote "'" || Ascii.eqb Js.dquote Js.dquote)
      with true by reflexivity.
    change (String c (body ++ String Js.dquote (ws ++ String close rest)))
      with (String c body ++ String Js.dquote (ws ++ String close rest)).
    rewrite (lazy_dots_target _ (String c body) _ rest).
    + now rewrite rev_rev_acc.
    + exact Hbody.
    + intros d s Hd. apply (closing_inside Js.dquote close d s Hd (Hne d Hd)).
      reflexivity.
    + now apply (closing_end Js.dquote).
Qed.

(** X20.  On a target without white space, quotes, parentheses and
    semicolons, written without quotes or between two single or two double
    quotes, with optional white space around it, the two regular
    expressions of [CSSResource.create] capture the target itself, at
    [url(...)] and at [@import ...;]. *)
Theorem reference_targets q c body ws1 ws2 rest :
  In q quotes ->
  Js.all target_char (String c body) = true ->
  Js.all Js.is_space ws1 = true ->
  Js.all Js.is_space ws2 = true ->
  Regex.url_at ("url(" ++ ws1 ++ q ++ String c body ++ q ++ ws2 ++ ")" ++ rest)
  = Some (String c body, rest)
  /\ forall w,
       Js.is_space w = true ->
       Regex.import_at
         ("@import" ++ String w ws1 ++ q ++ String c body ++ q ++ ws2
            ++ ";" ++ rest)
       = Some (String c body, rest).
Proof.
  intros Hq Hbody Hws1 Hws2.
  assert (Hc : target_char c = true).
  { cbn [Js.all] in Hbody. now apply andb_true_iff in Hbody as [? _]. }
  destruct (target_char_spec _ Hc) as (Hsp & _ & Hsq & Hdq & _).
  assert (Hstart : forall close tail,
    exists d s, q ++ String c body ++ q ++ ws2 ++ String close tail
                = String d s /\ Js.is_space d = false).
  { intros close tail. cbn in Hq. destruct Hq as [<- | [<- | [<- | []]]];
      cbn [append]; eexists _, _; split; try reflexivity; auto. }
  split.
  - unfold Regex.url_at. rewrite strip_prefix_app.
    destruct (Hstart ")"%char rest) as (d & s & Heq & Hd).
    change (")" ++ rest) with (String ")"%char rest). rewrite Heq.
    apply ws_star_skip; [exact Hws1 | exact Hd |]. rewrite <- Heq.
    apply quoted_target; auto.
    intros e He. now destruct (target_char_spec _ He) as (_ & _ & _ & _ & _ & ? & _).
  - intros w Hw. unfold Regex.import_at. rewrite strip_prefix_app.
    rewrite ws_plus_app by exact Hw.
    destruct (Hstart ";"%char rest) as (d & s & Heq & Hd).
    change (";" ++ rest) with (String ";"%char rest). rewrite Heq.
    apply ws_star_skip; [exact Hws1 | exact Hd |]. rewrite <- Heq.
    apply quoted_target; auto.
    intros e He. now destruct (target_char_spec _ He) as (_ & _ & _ & _ & _ & _ & ?).
Qed.

End RegexFacts.

Section RewriteFacts.
Context `{host : Host}.

Lemma assoc_set_assoc_eq k v l : Dom.assoc k (Dom.set_assoc k v l) = Some v.
Proof.
  induction l as [|[k' v'] l IH]; cbn [Dom.set_assoc Dom.assoc].
  - now rewrite String.eqb_refl.
  - destruct (String.eqb k k') eqn:He; cbn [Dom.assoc]; rewrite He; auto.
Qed.

Lemma assoc_set_assoc_ne k k0 v l :
  k0 <> k -> Dom.assoc k0 (Dom.set_assoc k v l) = Dom.assoc k0 l.
Proof.
  intros Hne. induction l as [|[k' v'] l IH]; cbn [Dom.set_assoc Dom.assoc].
  - destruct (String.eqb_spec k0 k); [contradiction | reflexivity].
  - destruct (String.eqb_spec k k') as [->|Hk]; cbn [Dom.assoc].
    + destruct (String.eqb_spec k0 k'); [contradiction | reflexivity].
    + destruct (String.eqb k0 k'); [reflexivity | exact IH].
Qed.

(** X23.  An element whose attribute refers to a resource inside the
    origin gets the address of that resource as the value of the attribute,
    its other attributes, its tag and its text unchanged, and the resource
    is appended to the list. *)
Theorem reference_is_rewritten (await_ : nat -> M nat) opf base_url
    base_origin (tag_ attribute_ : string) rs t attrs children a u st p st1 r
    st2 h st3 :
  let candidate := Elem t attrs children in
  Js.nonempty (Dom.getAttribute candidate attribute_) = Some a ->
  Js.nonempty (Dom.getAttribute candidate "xlink:href") = None ->
  URL_new a (Some base_url) = Some u ->
  Url.origin u = base_origin ->
  getResource opf a (Some base_url) st = (Ok p, st1) ->
  await_ p st1 = (Ok r, st2) ->
  getURL r st2 = (Ok h, st3) ->
  exists candidate',
    process_candidate await_ opf base_url base_origin
      (plain_matcher tag_ attribute_) rs candidate st
    = (Ok (candidate', (rs ++ [r])%list), st3)
    /\ Dom.getAttribute candidate' attribute_ = Some h
    /\ (forall other, other <> attribute_ ->
          Dom.getAttribute candidate' other = Dom.getAttribute candidate other)
    /\ Dom.tagName candidate' = t
    /\ Dom.textContent candidate' = Dom.textContent candidate.
Proof.
  intros candidate Ha Hx Hu Ho Hget Hawait Hurl.
  exists (Dom.setAttribute candidate attribute_ h).
  split; [|split; [|split; [|split]]].
  - assert (Hfirst :
      rewrite_reference await_ opf base_url base_origin attribute_ a
        candidate rs st
      = (Ok (Some (Dom.setAttribute candidate attribute_ h,
                   (rs ++ [r])%list)), st3)).
    { unfold rewrite_reference. rewrite Hu. cbn [lift require_some].
      rewrite (bind_Ok _ _ st u st) by reflexivity.
      rewrite Ho, String.eqb_refl. cbn [negb].
      rewrite (bind_Ok _ _ _ _ _ Hget), (bind_Ok _ _ _ _ _ Hawait),
        (bind_Ok _ _ _ _ _ Hurl). reflexivity. }
    unfold process_candidate. cbn [attribute plain_matcher rels names
      properties itemprops passes]. rewrite Ha, Hx.
    cbn [is_Some_b orb negb andb].
    rewrite (bind_Ok _ _ _ _ _ Hfirst). reflexivity.
  - cbn. apply assoc_set_assoc_eq.
  - intros other Hne. cbn. now apply assoc_set_assoc_ne.
  - reflexivity.
  - reflexivity.
Qed.

End RewriteFacts.

Section IdentityFacts.
Context `{host : Host}.

Lemma head_filter_In {A} (p : A -> bool) l x :
  head (filter p l) = Some x -> In x l /\ p x = true.
Proof.
  intros H. apply filter_In_b. destruct (filter p l); [discriminate|].
  injection H as ->. now left.
Qed.

Lemma PackageDocument_new_identity fuel document ocf package_url opf :
  PackageDocument_new fuel document ocf package_url = Ok opf ->
  exists uid found,
    Js.nonempty (Dom.getAttribute document "unique-identifier") = Some uid
    /\ select_primary_identifier document uid = Ok (Some found)
    /\ Dom.tagName found = "dc:identifier"
    /\ Js.nonempty (Dom.getAttribute document "version")
       = Some (PackageDocument.version opf)
    /\ PackageDocument.uid opf = uid
    /\ PackageDocument.primary_identifier opf = Dom.textContent found.
Proof.
  unfold PackageDocument_new.
  destruct (PackageDocument_head document package_url) as [ch| | |] eqn:Hhead;
    try discriminate.
  cbn [Res_bind].
  destruct (Dom.querySelector_type document "spine") as [spine|];
    [|discriminate].
  cbn [require_some Res_bind].
  destruct (processSpine _ _ _) as [[sp toc]| | |] eqn:Hs; try discriminate.
  cbn [Res_bind]. intros [= <-]. cbn.
  revert Hhead. unfold PackageDocument_head.
  destruct (URL_new "." _) as [base|]; [|discriminate].
  cbn [require_some Res_bind].
  destruct (negb (String.eqb (Dom.tagName document) "package"));
    [discriminate|].
  destruct (require _ MissingUniqueIdentifier) as [uid| | |] eqn:Huid;
    try discriminate.
  cbn [Res_bind].
  destruct (select_primary_identifier document uid) as [found| | |] eqn:Hsel;
    try discriminate.
  cbn [Res_bind]. destruct found as [pid|]; [|discriminate].
  cbn [require_some Res_bind].
  destruct (String.eqb_spec (Dom.tagName pid) "dc:identifier") as [Htag|];
    [|discriminate].
  cbn [negb].
  destruct (require _ MissingVersion) as [version| | |] eqn:Hv;
    try discriminate.
  cbn [Res_bind].
  destruct (Dom.querySelector_type document "metadata") as [metadata|];
    [|discriminate].
  cbn [require_some Res_bind].
  destruct (processMetadata _ metadata) as [[pm lang]| | |];
    try discriminate.
  cbn [Res_bind].
  destruct (Dom.querySelector_type document "manifest") as [manifest|];
    [|discriminate].
  cbn [require_some Res_bind].
  destruct (processManifest _ _ manifest) as [ml| | |]; try discriminate.
  cbn [Res_bind]. intros [= <-]. cbn. exists uid, pid.
  apply require_Ok in Huid, Hv. repeat split; auto.
Qed.

(** X9.  In a constructed package [uid] and [version] are the attributes
    [unique-identifier] and [version] of the root, and the primary
    identifier is the text, as it stands, of a [dc:identifier] element that
    is a child of a [metadata] element and has the id [uid].  (For a [uid]
    that needs no escaping in a selector.) *)
Theorem package_identity fuel document ocf package_url opf :
  PackageDocument_new fuel document ocf package_url = Ok opf ->
  css_plain (PackageDocument.uid opf) = true ->
  Dom.getAttribute document "unique-identifier"
  = Some (PackageDocument.uid opf)
  /\ Dom.getAttribute document "version" = Some (PackageDocument.version opf)
  /\ exists parent el,
       In (parent, el) (Dom.descendants_with_parent document)
       /\ Dom.localName parent = "metadata"
       /\ Dom.getAttribute el "id" = Some (PackageDocument.uid opf)
       /\ Dom.tagName el = "dc:identifier"
       /\ PackageDocument.primary_identifier opf = Dom.textContent el.
Proof.
  intros Hnew Hplain.
  destruct (PackageDocument_new_identity _ _ _ _ _ Hnew)
    as (uid & found & Huid & Hsel & Htag & Hv & Hu & Hp).
  subst uid. apply nonempty_Some in Huid, Hv.
  split; [exact Huid|]. split; [exact Hv|].
  unfold select_primary_identifier in Hsel. rewrite Hplain in Hsel.
  injection Hsel as Hsel. unfold Dom.querySelector_child_attr in Hsel.
  destruct (head _) as [[parent el]|] eqn:Hhead; [|discriminate].
  cbn in Hsel. injection Hsel as ->.
  apply head_filter_In in Hhead as [Hin Hp'].
  apply andb_true_iff in Hp' as [Hloc Hid]. cbn [fst snd] in Hloc, Hid.
  apply String.eqb_eq in Hloc. apply bool_decide_eq_true in Hid.
  exists parent, found. repeat split; auto.
Qed.

End IdentityFacts.

Section ConcreteProperties.
Import Toy Example Fixture.

Example manifest_processed :
  processManifest "http://book.local/OEBPS/" "http://book.local" manifest_el
  = Ok manifest_loop.
Proof. vm_compute. reflexivity. Qed.

Example twice_processed :
  processManifest "http://book.local/OEBPS/" "http://book.local"
    twice_manifest_el
  = Ok twice_loop.
Proof. vm_compute. reflexivity. Qed.

(** X1, witness: the manifest of the example publication. *)
Lemma processManifest_mirrors_elements_witness :
  Forall2 (records "http://book.local/OEBPS/" "http://book.local")
    (Dom.getElementsByTagName manifest_el "item") (ml_items manifest_loop)
  /\ forall id it,
       ml_items_by_id manifest_loop !! id = Some it ->
       In it (ml_items manifest_loop).
Proof.
  apply (processManifest_mirrors_elements "http://book.local/OEBPS/"
           "http://book.local" manifest_el manifest_loop).
  vm_compute. reflexivity.
Defined.

(** X2, witness: a manifest with the id [ch1] on [draft.xhtml] and then
    on [chapter1.xhtml]; the second is the one registered. *)
Lemma processManifest_last_id_wins_witness :
  exists it,
    ml_items_by_id twice_loop !! "ch1" = Some it
    /\ PackageItem.href it = "chapter1.xhtml"
    /\ length (ml_items twice_loop) = 3.
Proof.
  destruct (processManifest_last_id_wins "http://book.local/OEBPS/"
              "http://book.local" twice_manifest_el twice_loop
              [ item "ch1" "draft.xhtml" "application/xhtml+xml";
                item "style" "style.css" "text/css" ]
              (item "ch1" "chapter1.xhtml" "application/xhtml+xml") []
              "ch1")
    as (it & Hit & Hrec & _).
  - vm_compute. reflexivity.
  - reflexivity.
  - reflexivity.
  - constructor.
  - exists it. split; [exact Hit|]. split; [|reflexivity].
    cbn in Hrec. now injection Hrec as <-.
Defined.

(** X3, witness: the manifest of the example publication has no
    navigation document, and its cover image is the item [cover]. *)
Lemma processManifest_nav_and_cover_witness :
  ml_nav_item manifest_loop = None
  /\ ml_cover_item manifest_loop = Some "cover".
Proof.
  destruct (processManifest_nav_and_cover "http://book.local/OEBPS/"
              "http://book.local" manifest_el manifest_loop)
    as (Hnav & _ & _ & Hcover).
  - vm_compute. reflexivity.
  - split.
    + apply Hnav. vm_compute. repeat constructor.
    + apply (Hcover
               [ item "ch1" "chapter1.xhtml" "application/xhtml+xml";
                 item "style" "style.css" "text/css";
                 item "fonts" "fonts.css" "text/css" ]
               (Elem "item" [("id", "cover"); ("href", "cover.png");
                             ("media-type", "image/png");
                             ("properties", "cover-image")] [])
               [ item "deep" "css/deep.css" "text/css";
                 item "deepfonts" "css/fonts.css" "text/css";
                 item "mixed" "mixed.css" "text/css";
                 item "a" "a.css" "text/css";
                 item "loop" "loop.css" "text/css" ]).
      * reflexivity.
      * reflexivity.
      * vm_compute. repeat constructor.
Defined.

(** X4, witness: the spine of the example publication with the [toc]
    attribute [toString].  No item has that id, and the spine is accepted
    with [toc_item] set to it. *)
Lemma processSpine_mirrors_elements_witness :
  processSpine 1 (PackageDocument.manifest opf) toc_spine_el
  = Ok (PackageDocument.spine opf, Some "toString")
  /\ PackageManifest.items_by_id (PackageDocument.manifest opf) !! "toString"
     = None
  /\ Forall2
       (refers 1 (PackageManifest.items_by_id (PackageDocument.manifest opf)))
       (Dom.getElementsByTagName toc_spine_el "itemref")
       (PackageSpine.itemrefs (PackageDocument.spine opf))
  /\ PackageSpine.itemrefs (PackageDocument.spine opf) <> []
  /\ Some "toString" = Js.nonempty (Dom.getAttribute toc_spine_el "toc")
  /\ (forall t, Some "toString" = Some t ->
        items_by_id_get
          (PackageManifest.items_by_id (PackageDocument.manifest opf)) t
        <> Falsy
        /\ (PackageManifest.items_by_id (PackageDocument.manifest opf)
            !! "__proto__" = None ->
            is_Some (PackageManifest.items_by_id
                       (PackageDocument.manifest opf) !! t)
            \/ Js.includes Js.object_prototype_keys t = true))
  /\ In (PackageSpine.page_progression (PackageDocument.spine opf))
        VALID_PAGE_PROGRESSION_DIRS.
Proof.
  assert (H : processSpine 1 (PackageDocument.manifest opf) toc_spine_el
              = Ok (PackageDocument.spine opf, Some "toString"))
    by (vm_compute; reflexivity).
  split; [exact H|]. split; [vm_compute; reflexivity|].
  exact (processSpine_mirrors_elements 1 (PackageDocument.manifest opf)
           toc_spine_el (PackageDocument.spine opf) (Some "toString") H).
Defined.

(** X5, witness: the first entry of the spine of the example
    publication, asked for in two states. *)
Lemma spine_itemrefs_can_be_requested_witness :
  getResource opf "chapter1.xhtml" None initial_state
  = (Ok 0, snd (getResource opf "chapter1.xhtml" None initial_state))
  /\ exists p st',
       getResource opf "chapter1.xhtml" None fonts_requested = (Ok p, st').
Proof.
  split; [reflexivity|].
  destruct (spine_itemrefs_can_be_requested 1 package_doc ocf package_url opf
              {| ItemRef.idref := "ch1";
                 ItemRef.item :=
                   {| PackageItem.fallback := None;
                      PackageItem.href := "chapter1.xhtml";
                      PackageItem.mime := "application/xhtml+xml";
                      PackageItem.overlay := None;
                      PackageItem.properties := [];
                      PackageItem.content_path := "/OEBPS/chapter1.xhtml" |};
                 ItemRef.linear := true;
                 ItemRef.properties := [] |})
    as [_ Hreq].
  - vm_compute. reflexivity.
  - vm_compute. left. reflexivity.
  - exact (Hreq fonts_requested).
Defined.

(** X6, witness: the metadata of the example publication. *)
Lemma processMetadata_collects_witness :
  PackageMetadata.identifiers (PackageDocument.metadata opf)
  = ["urn:uuid:alice"]
  /\ PackageMetadata.creators (PackageDocument.metadata opf) = None.
Proof.
  destruct (processMetadata_collects None metadata_el
              (PackageDocument.metadata opf) (Some "en"))
    as (Hids & _ & _ & _ & _ & Hcreators & _).
  - vm_compute. reflexivity.
  - split.
    + rewrite Hids. reflexivity.
    + rewrite Hcreators. reflexivity.
Defined.

(** X7, witness: the example publication has no [xml:lang]; its language
    is that of its first [dc:language]. *)
Lemma package_language_witness :
  PackageDocument.lang opf = Some "en"
  /\ map TextRun.lang (PackageMetadata.titles (PackageDocument.metadata opf))
     = [Some "en"].
Proof.
  destruct (package_language 1 package_doc ocf package_url opf metadata_el)
    as [Hlang Htitles].
  - vm_compute. reflexivity.
  - reflexivity.
  - split.
    + rewrite Hlang. reflexivity.
    + rewrite Htitles. reflexivity.
Defined.

(** X8, witness: the example publication. *)
Lemma package_enumerations_witness :
  In (PackageDocument.dir opf) VALID_TEXT_DIRS
  /\ Forall (fun run => In (TextRun.dir run) VALID_TEXT_DIRS)
       (PackageMetadata.titles (PackageDocument.metadata opf))
  /\ In (PackageSpine.page_progression (PackageDocument.spine opf))
       VALID_PAGE_PROGRESSION_DIRS
  /\ In (PackageRendition.layout (PackageDocument.rendition opf))
       RENDITION_LAYOUT_VALUES
  /\ In (PackageRendition.orientation (PackageDocument.rendition opf))
       RENDITION_ORIENTATION_VALUES
  /\ In (PackageRendition.spread (PackageDocument.rendition opf))
       RENDITION_SPREAD_VALUES
  /\ In (PackageRendition.page_spread (PackageDocument.rendition opf))
       RENDITION_PAGE_SPREAD_VALUES
  /\ In (PackageRendition.flow (PackageDocument.rendition opf))
       RENDITION_FLOW_VALUES.
Proof.
  apply (package_enumerations 1 package_doc ocf package_url opf).
  vm_compute. reflexivity.
Defined.

(** X9, witness: the example publication. *)
Lemma package_identity_witness :
  Dom.getAttribute package_doc "unique-identifier"
  = Some (PackageDocument.uid opf)
  /\ Dom.getAttribute package_doc "version"
     = Some (PackageDocument.version opf)
  /\ exists parent el,
       In (parent, el) (Dom.descendants_with_parent package_doc)
       /\ Dom.localName parent = "metadata"
       /\ Dom.getAttribute el "id" = Some (PackageDocument.uid opf)
       /\ Dom.tagName el = "dc:identifier"
       /\ PackageDocument.primary_identifier opf = Dom.textContent el.
Proof.
  apply (package_identity 1 package_doc ocf package_url opf);
    vm_compute; reflexivity.
Defined.

(** X13, witness: the first chapter in the archive without the cover
    image; its resolution fails on the image, and fails again when awaited
    anew. *)
Lemma rejection_is_final_witness :
  await_resource 1 opf_without_cover 0 chapter1_requested
  = (Throw MissingEntry, chapter1_failed)
  /\ await_resource 5 opf_without_cover 0 chapter1_failed
     = (Throw MissingEntry, chapter1_failed).
Proof.
  assert (H : await_resource 1 opf_without_cover 0 chapter1_requested
              = (Throw MissingEntry, chapter1_failed)) by reflexivity.
  split; [exact H|].
  apply (rejection_is_final 1 opf_without_cover 0 MissingEntry
           chapter1_requested chapter1_failed).
  - eexists. reflexivity.
  - exact H.
  - apply later_refl.
Defined.


(** X14, witness: the cover image of the example publication. *)
Lemma binary_resource_is_the_bytes_witness :
  exists st',
    await_resource 1 opf 0 cover_requested = (Ok 0, st')
    /\ store st' = [BinaryResource_new "PNG"]
    /\ trace st' = [EvRead "/OEBPS/cover.png"].
Proof.
  destruct (binary_resource_is_the_bytes 0 opf 0
              {| PackageItem.fallback := None;
                 PackageItem.href := "cover.png";
                 PackageItem.mime := "image/png";
                 PackageItem.overlay := None;
                 PackageItem.properties := ["cover-image"];
                 PackageItem.content_path := "/OEBPS/cover.png" |}
              "PNG" "http://book.local/OEBPS/cover.png" cover_requested)
    as (st' & Hawait & Hstore & _ & _ & Htrace & _).
  - reflexivity.
  - reflexivity.
  - reflexivity.
  - exists st'. split; [exact Hawait|]. split; [exact Hstore | exact Htrace].
Defined.

(** X15, witness: an item of the type [image/svg+xml]. *)
Lemma svg_is_content_but_binary_witness :
  fallback_walk 1 ∅ (Some map_item) = Some true
  /\ createResourceFromItem_resume (await_resource 0 opf) opf map_item "<svg/>"
       "http://book.local/OEBPS/map.svg"
     = new_resource (BinaryResource_new "<svg/>").
Proof.
  apply (svg_is_content_but_binary (await_resource 0 opf) opf map_item "<svg/>"
           "http://book.local/OEBPS/map.svg" 0 ∅).
  right. left. reflexivity.
Defined.

(** X16, witness: the stylesheet [loop.css] of the example publication
    imports [loop.css]. *)
Lemma self_import_never_resolves_witness :
  await_resource 4 opf 0 loop_requested
  = (Hang, snd (set_promise 0 Running loop_requested)).
Proof.
  apply (self_import_never_resolves 3 opf 0
           {| PackageItem.fallback := None;
              PackageItem.href := "loop.css";
              PackageItem.mime := "text/css";
              PackageItem.overlay := None;
              PackageItem.properties := [];
              PackageItem.content_path := "/OEBPS/loop.css" |}
           loop_text "http://book.local/OEBPS/loop.css" loop_requested
           {| Url.href := "http://book.local/OEBPS/loop.css";
              Url.origin := "http://book.local";
              Url.pathname := "/OEBPS/loop.css" |}
           "loop.css" []
           {| Url.href := "http://book.local/OEBPS/loop.css";
              Url.origin := "http://book.local";
              Url.pathname := "/OEBPS/loop.css" |});
    reflexivity.
Defined.

(** X17, witness: the resource of [fonts.css]. *)
Lemma getURL_registers_once_witness :
  length (object_urls fonts_addressed) <= S (length (object_urls fonts_resolved))
  /\ getURL 0 fonts_addressed
     = (Ok "blob:http://reader.example/0", fonts_addressed).
Proof.
  apply (getURL_registers_once 0 fonts_resolved
           "blob:http://reader.example/0" fonts_addressed); reflexivity.
Defined.

(** X18, witness: the resource of [fonts.css]. *)
Lemma clean_keeps_the_address_witness :
  clean 0 fonts_addressed
  = (Ok (Some "blob:http://reader.example/0"), fonts_addressed)
  /\ (let! _ := clean 0 in getURL 0) fonts_addressed
     = (Ok "blob:http://reader.example/0", fonts_addressed).
Proof.
  apply (clean_keeps_the_address 0 fonts_resolved
           "blob:http://reader.example/0" fonts_addressed); reflexivity.
Defined.

(** X19, witness: the stylesheet [fonts.css] of the example
    publication. *)
Lemma stylesheet_without_references_witness :
  CSSResource_create (await_resource 0 opf) opf fonts_text
    "http://book.local/OEBPS/fonts.css" initial_state
  = new_resource (CSSResource fonts_text [] None) initial_state.
Proof.
  exact (stylesheet_without_references (await_resource 0 opf) opf fonts_text
           "http://book.local/OEBPS/fonts.css"
           {| Url.href := "http://book.local/OEBPS/fonts.css";
              Url.origin := "http://book.local";
              Url.pathname := "/OEBPS/fonts.css" |}
           initial_state eq_refl eq_refl eq_refl).
Defined.

(** X21, witness: a [meta] element with a [property] and a [content]
    only. *)
Lemma meta_needs_all_three_witness :
  process_candidate (await_resource 1 opf) opf chapter1_base
    "http://book.local" meta_matcher [] og_meta initial_state
  = (Ok (og_meta, []), initial_state).
Proof.
  apply (meta_needs_all_three (await_resource 1 opf) opf chapter1_base
           "http://book.local" [] og_meta initial_state).
  left. reflexivity.
Defined.

(** X22, witness: a document with a [link] that is no stylesheet, a
    [meta] with a property only and an [img] without [src]. *)
Lemma document_without_references_witness :
  @HTMLResource_create plain_host (await_resource 0 opf) opf plain_text
    chapter1_base initial_state
  = (Ok 0,
     parsed_and_stored plain_text (HTMLResource plain_doc [] None None)
       initial_state).
Proof.
  apply (@document_without_references plain_host (await_resource 0 opf) opf
           plain_text chapter1_base
           {| Url.href := chapter1_base;
              Url.origin := "http://book.local";
              Url.pathname := "/OEBPS/chapter1.xhtml" |}
           initial_state).
  - reflexivity.
  - intros matcher e Hm He Htag. revert Htag.
    vm_compute in Hm, He.
    repeat (destruct Hm as [<-|Hm]; [
      repeat (destruct He as [<-|He]; [try discriminate; try reflexivity|]);
      try contradiction|]).
    contradiction.
Defined.

(** X11, witness: the archive of the example publication; of the two
    entries named [OEBPS/content.opf] the second is read back. *)
Lemma load_then_read_witness :
  OCFZip.dirtree loaded !! "/OEBPS/content.opf" = Some (file package_text)
  /\ OCFZip.getUint8Array loaded "/OEBPS/content.opf" = inr package_text.
Proof.
  apply (load_then_read container
           [ ("mimetype", file "application/epub+zip");
             ("META-INF/", {| Entry.directory := true;
                              Entry.getData := None |});
             ("META-INF/container.xml", file container_text);
             ("OEBPS/content.opf", file "<draft/>") ]
           "OEBPS/content.opf" (file package_text)
           [ ("OEBPS/chapter1.xhtml", file chapter1_text) ]
           {| OCFZip.dirtree := ∅ |} loaded
           {| Url.href := "http://book.local/OEBPS/content.opf";
              Url.origin := "http://book.local";
              Url.pathname := "/OEBPS/content.opf" |}
           package_text).
  - reflexivity.
  - reflexivity.
  - constructor; [|constructor]. intros v [= <-]. discriminate.
  - reflexivity.
  - reflexivity.
Defined.

(** X10, witness: the archive of the example publication. *)
Lemma getPackageDocument_returns_witness :
  exists container_bytes rootfile full_path url package_bytes,
    OCFZip.getUint8Array loaded "/META-INF/container.xml" = inr container_bytes
    /\ document_querySelector_type (parseXML (readText container_bytes))
         "rootfile" = Some rootfile
    /\ Dom.getAttribute rootfile "full-path" = Some full_path
    /\ Dom.getAttribute rootfile "media-type"
       = Some "application/oebps-package+xml"
    /\ OCFAbstractContainer_parseURL container full_path = Some url
    /\ OCFZip.getUint8Array loaded (Url.pathname url) = inr package_bytes
    /\ PackageDocument_new 1 (parseXML (readText package_bytes)) loaded url
       = Ok loaded_opf
    /\ PackageDocument.ocf loaded_opf = loaded
    /\ PackageDocument.package_url loaded_opf = url.
Proof.
  apply (getPackageDocument_returns 1 container loaded loaded_opf).
  vm_compute. reflexivity.
Defined.

(** X20, witness: [url( 'fonts.css' )] and [@import  'fonts.css' ;]. *)
Lemma reference_targets_witness :
  Regex.url_at "url( 'fonts.css' ) }" = Some ("fonts.css", " }")
  /\ Regex.import_at "@import  'fonts.css' ; h1 {}"
     = Some ("fonts.css", " h1 {}").
Proof.
  destruct (reference_targets "'" "f" "onts.css" " " " " " }") as [Hurl _];
    [right; left; reflexivity | reflexivity | reflexivity | reflexivity |].
  destruct (reference_targets "'" "f" "onts.css" " " " " " h1 {}")
    as [_ Himport];
    [right; left; reflexivity | reflexivity | reflexivity | reflexivity |].
  split; [exact Hurl | exact (Himport " "%char eq_refl)].
Defined.

(** X23, witness: the image of the first chapter of the example
    publication. *)
Lemma reference_is_rewritten_witness :
  exists candidate' st3,
    process_candidate (await_resource 1 opf) opf chapter1_base
      "http://book.local" (plain_matcher "img" "src") [] cover_img
      initial_state
    = (Ok (candidate', [0]), st3)
    /\ Dom.getAttribute candidate' "src" = Some "blob:http://reader.example/0".
Proof.
  destruct (reference_is_rewritten (await_resource 1 opf) opf chapter1_base
              "http://book.local" "img" "src" [] "img" [("src", "cover.png")]
              [] "cover.png"
              {| Url.href := "http://book.local/OEBPS/cover.png";
                 Url.origin := "http://book.local";
                 Url.pathname := "/OEBPS/cover.png" |}
              initial_state 0
              (snd (getResource opf "cover.png" (Some chapter1_base)
                      initial_state))
              0
              (snd (await_resource 1 opf 0
                      (snd (getResource opf "cover.png" (Some chapter1_base)
                              initial_state))))
              "blob:http://reader.example/0"
              (snd (getURL 0
                      (snd (await_resource 1 opf 0
                              (snd (getResource opf "cover.png"
                                      (Some chapter1_base) initial_state)))))))
    as (c' & Hrun & Hattr & _); try reflexivity.
  exists c'. eexists. split; [exact Hrun | exact Hattr].
Defined.

(** Reads of [items_by_id] on the example publication, and on its
    dictionary once an item with the id [__proto__] has become its
    prototype: the members of that item and of [Object.prototype] are read
    through the dictionary. *)
Example items_by_id_reads :
  let by_id := PackageManifest.items_by_id (PackageDocument.manifest opf) in
  let with_proto := <["__proto__" := cyclic_a]> by_id in
  items_by_id_get by_id "toString" = NoItem
  /\ items_by_id_get by_id "__proto__" = NoItem
  /\ items_by_id_get by_id "ncx" = Falsy
  /\ items_by_id_get by_id "href" = Falsy
  /\ items_by_id_get with_proto "__proto__" = AnItem cyclic_a
  /\ items_by_id_get with_proto "href" = NoItem
  /\ items_by_id_get with_proto "fallback" = NoItem
  /\ items_by_id_get with_proto "overlay" = Falsy
  /\ items_by_id_get with_proto "toString" = NoItem
  /\ items_by_id_get with_proto "ncx" = Falsy.
Proof. vm_compute. repeat split; reflexivity. Qed.

(** The three ways the spine of the example publication is turned down
    for a name: a [toc] that reads as nothing, an [idref] that reads as
    nothing, and an [idref] that reads as a method of the dictionary, which
    passes the test for an item and fails the one for a content
    document. *)
Example names_in_the_spine :
  processSpine 1 (PackageDocument.manifest opf)
    (Elem "spine" [("toc", "ncx")] [Elem "itemref" [("idref", "ch1")] []])
  = Throw InvalidTocAttribute
  /\ processSpine 1 (PackageDocument.manifest opf)
       (Elem "spine" [] [Elem "itemref" [("idref", "ncx")] []])
     = Throw (ItemrefNoMatchingItem "ncx")
  /\ processSpine 1 (PackageDocument.manifest opf)
       (Elem "spine" [] [Elem "itemref" [("idref", "toString")] []])
     = Throw (ItemrefNoContentDocument "toString").
Proof. vm_compute. repeat split; reflexivity. Qed.

End ConcreteProperties.
